(** * NumberOne_OWU filter pipelines: a shallow embedding and its properties

    The repository holds four Open WebUI "filter" pipelines, each a Python
    class [Pipeline] with an [inlet] hook (before the model call) and, for
    some, an [outlet] hook (after it):

    - [src/pipelines/perplexity_search.py]          (module [Perplexity])
    - [src/pipelines/mem0_memory_filter.py]         (module [Mem0])
    - [src/pipelines/mem0_memory_filter_pipeline.py] (module [Mem0Robust])
    - [src/pipelines/langfuse_tracking.py]          (module [Langfuse])

    Python values are embedded as the inductive [value]; a hook that can
    raise returns an [outcome]; the mutable attributes of a [Pipeline]
    instance are threaded as an explicit state record.  The collaborators
    that live outside the repository (the search provider, the mem0 store,
    the Langfuse SDK, [json.loads], the clock) are parameters of the hooks:
    each call receives what the collaborator answers on that call.  The
    background thread of the memory filters is modelled by the flush it is
    started with; log lines are left out.

    The definitions come first (the built-ins in [Py], one module per
    pipeline, the vocabulary of the specification, the concrete inputs in
    [Examples]); the properties follow, one module per pipeline. *)

From Stdlib Require Import ZArith String Ascii List Bool Lia DecimalString.
From Stdlib Require Import Floats.SpecFloat.
From Stdlib Require DecimalPos DecimalZ.
From stdpp Require Import base option list gmap strings.

#[local] Set Warnings "-register-all".

Local Open Scope string_scope.
Local Open Scope Z_scope.

(* ===================================================================== *)
(** ** Python values, exceptions and the built-ins the pipelines use      *)
(* ===================================================================== *)

Module Py.

(** The JSON-shaped values that flow through the hooks.  A [dict] keeps its
    insertion order and is read by its first binding of a key. *)
Inductive value : Type :=
| VNone
| VBool (b : bool)
| VInt (z : Z)
| VFloat (f : spec_float)
| VStr (s : string)
| VList (l : list value)
| VDict (d : list (string * value)).

Abbreviation dict := (list (string * value)).

(** The exception classes that the modelled code can meet;
    [ExternalError] stands for whatever a collaborator raises. *)
Inductive exn : Type :=
| JSONDecodeError | AttributeError | TypeError | KeyError | IndexError
| ValueError | OverflowError | ExternalError.

Inductive outcome (A : Type) : Type :=
| Return (a : A)
| Raise (e : exn).
Arguments Return {A} a.
Arguments Raise {A} e.

#[global] Instance outcome_ret : MRet outcome := fun A a => Return a.

#[global] Instance outcome_bind : MBind outcome := fun A B k m =>
  match m with
  | Return a => k a
  | Raise e => Raise e
  end.

(** [try: m  except Exception: h] *)
Definition try_except {A} (m : outcome A) (h : A) : A :=
  match m with
  | Return a => a
  | Raise _ => h
  end.

(** *** IEEE binary64, through the Standard Library's [SpecFloat] *)

Definition prec : Z := 53.
Definition emax : Z := 1024.

(** The double nearest to the rational [n/d] ([0 < d]), ties to even: what
    the Python parser does with a decimal literal and what true division
    of two exactly represented numbers gives. *)
Definition nearest_double (n : Z) (d : Z) : spec_float :=
  match n with
  | Z0 => S754_zero false
  | Zpos _ =>
      let '(q, e, l) := SFdiv_core_binary prec emax n 0 d 0 in
      binary_round_aux prec emax false q e l
  | Zneg p =>
      let '(q, e, l) := SFdiv_core_binary prec emax (Zpos p) 0 d 0 in
      binary_round_aux prec emax true q e l
  end.

(** [float(z)] for a Python int: the nearest double, [OverflowError] when
    it is out of range. *)
Definition float_of_int (z : Z) : outcome spec_float :=
  match binary_normalize prec emax z 0 false with
  | S754_infinity _ => Raise OverflowError
  | f => Return f
  end.

Definition fmul : spec_float -> spec_float -> spec_float := SFmul prec emax.
Definition fadd : spec_float -> spec_float -> spec_float := SFadd prec emax.
Definition fsub : spec_float -> spec_float -> spec_float := SFsub prec emax.
Definition fleb : spec_float -> spec_float -> bool := SFleb.

Definition is_zero_float (f : spec_float) : bool :=
  match f with S754_zero _ => true | _ => false end.

(** The integer nearest to [n/d] ([0 < d]), ties to even. *)
Definition round_half_even (n d : Z) : Z :=
  let q := n / d in
  let r := n mod d in
  match (2 * r ?= d) with
  | Lt => q
  | Gt => q + 1
  | Eq => if Z.even q then q else q + 1
  end.

(** [round(x, nd)] on a float, [0 <= nd] small: the exact value of [x] is
    rounded half-to-even to [nd] decimals and the double nearest to that
    decimal is returned (CPython's [double_round], which goes through the
    correctly rounded [dtoa]/[strtod] pair). *)
Definition round_float (x : spec_float) (nd : Z) : spec_float :=
  match x with
  | S754_finite s m e =>
      let p := 10 ^ nd in
      let scaled :=
        if 0 <=? e then Zpos m * 2 ^ e * p
        else round_half_even (Zpos m * p) (2 ^ (- e)) in
      match scaled with
      | Z0 => S754_zero s
      | _ => nearest_double (if s then - scaled else scaled) p
      end
  | _ => x
  end.

(** *** Characters and strings

    A [str] is a [string] whose characters are read as the code points
    0..255; the tables below are Python's for that range. *)

Definition code (a : ascii) : N := N_of_ascii a.

Definition in_range (lo hi : N) (a : ascii) : bool :=
  ((lo <=? code a) && (code a <=? hi))%N.

(** [str.isspace] on one character, also the regular expression class
    [\s]. *)
Definition isspace (a : ascii) : bool :=
  in_range 9 13 a || in_range 28 32 a || (code a =? 133)%N || (code a =? 160)%N.

Definition isupper (a : ascii) : bool :=
  in_range 65 90 a || (in_range 192 222 a && negb (code a =? 215)%N).

Definition lower_char (a : ascii) : ascii :=
  if isupper a then ascii_of_N (code a + 32) else a.

(** The regular expression class [\w]: [str.isalnum] or an underscore. *)
Definition isword (a : ascii) : bool :=
  in_range 48 57 a || in_range 65 90 a || in_range 97 122 a
  || (code a =? 95)%N
  || (code a =? 170)%N || (code a =? 178)%N || (code a =? 179)%N
  || (code a =? 181)%N || (code a =? 185)%N || (code a =? 186)%N
  || in_range 188 190 a
  || in_range 192 214 a || in_range 216 246 a || in_range 248 255 a.

Definition chars (s : string) : list ascii := list_ascii_of_string s.
Definition str (l : list ascii) : string := string_of_list_ascii l.

(** [s.lower()] *)
Definition lower (s : string) : string := str (map lower_char (chars s)).

(** [len(s)] *)
Definition len (s : string) : Z := Z.of_nat (String.length s).

Fixpoint lstrip_chars (l : list ascii) : list ascii :=
  match l with
  | a :: l' => if isspace a then lstrip_chars l' else l
  | [] => []
  end.

(** [s.strip()] *)
Definition strip (s : string) : string :=
  str (rev (lstrip_chars (rev (lstrip_chars (chars s))))).

Fixpoint starts_with (p l : list ascii) : bool :=
  match p, l with
  | [], _ => true
  | a :: p', b :: l' => Ascii.eqb a b && starts_with p' l'
  | _ :: _, [] => false
  end.

Fixpoint contains_chars (p l : list ascii) : bool :=
  starts_with p l ||
  match l with
  | [] => false
  | _ :: l' => contains_chars p l'
  end.

(** [sub in s] on two [str] *)
Definition contains (sub s : string) : bool := contains_chars (chars sub) (chars s).

(** [s[:n]] on a list, with Python's clipping of a negative bound. *)
Definition slice_to {A} (n : Z) (l : list A) : list A :=
  if 0 <=? n then firstn (Z.to_nat n) l
  else firstn (length l - Z.to_nat (- n))%nat l.

Definition str_slice_to (n : Z) (s : string) : string := str (slice_to n (chars s)).

(** [sep.join(l)] on a list of [str] *)
Fixpoint join (sep : string) (l : list string) : string :=
  match l with
  | [] => EmptyString
  | [s] => s
  | s :: l' => s ++ sep ++ join sep l'
  end.

(** The newline character, as a [str] *)
Definition nl : string := String (ascii_of_N 10) EmptyString.

(** [str(z)] on an int *)
Definition str_of_int (z : Z) : string := NilZero.string_of_int (Z.to_int z).

(** *** Truth, lookup and indexing *)

(** [bool(v)] *)
Definition truthy (v : value) : bool :=
  match v with
  | VNone => false
  | VBool b => b
  | VInt z => negb (z =? 0)
  | VFloat f => negb (is_zero_float f)
  | VStr s => negb (String.eqb s EmptyString)
  | VList l => match l with [] => false | _ => true end
  | VDict d => match d with [] => false | _ => true end
  end.

(** [a or b] *)
Definition or_else (a b : value) : value := if truthy a then a else b.

Fixpoint dict_get (k : string) (d : dict) : option value :=
  match d with
  | [] => None
  | (k', v) :: d' => if String.eqb k k' then Some v else dict_get k d'
  end.

(** [d[k] = v]: the binding is replaced in place, or added at the end. *)
Fixpoint dict_set (k : string) (v : value) (d : dict) : dict :=
  match d with
  | [] => [(k, v)]
  | (k', v') :: d' =>
      if String.eqb k k' then (k, v) :: d' else (k', v') :: dict_set k v d'
  end.

(** [d.get(k)] and [d.get(k, default)] on a dict *)
Definition get_or (k : string) (default : value) (d : dict) : value :=
  match dict_get k d with
  | Some v => v
  | None => default
  end.

(** [k in d] on a dict *)
Definition has_key (k : string) (d : dict) : bool :=
  match dict_get k d with Some _ => true | None => false end.

(** [v.get(k, default)] on any value: only a dict has the method. *)
Definition getattr_get (v : value) (k : string) (default : value) : outcome value :=
  match v with
  | VDict d => Return (get_or k default d)
  | _ => Raise AttributeError
  end.

(** [v[k]] with a [str] key *)
Definition getitem_key (v : value) (k : string) : outcome value :=
  match v with
  | VDict d =>
      match dict_get k d with
      | Some x => Return x
      | None => Raise KeyError
      end
  | _ => Raise TypeError
  end.

Definition one_char (a : ascii) : value := VStr (String a EmptyString).

(** [v[0]] *)
Definition getitem_first (v : value) : outcome value :=
  match v with
  | VList (x :: _) => Return x
  | VList [] => Raise IndexError
  | VStr (String a _) => Return (one_char a)
  | VStr EmptyString => Raise IndexError
  | VDict _ => Raise KeyError
  | _ => Raise TypeError
  end.

(** [v[-1]] *)
Definition getitem_last (v : value) : outcome value :=
  match v with
  | VList l =>
      match last l with
      | Some x => Return x
      | None => Raise IndexError
      end
  | VStr s =>
      match last (chars s) with
      | Some a => Return (one_char a)
      | None => Raise IndexError
      end
  | VDict _ => Raise KeyError
  | _ => Raise TypeError
  end.

(** [l.insert(-1, x)]: before the last element; at the front of an empty
    list. *)
Fixpoint insert_before_last {A} (x : A) (l : list A) : list A :=
  match l with
  | [] => [x]
  | [y] => [x; y]
  | y :: l' => y :: insert_before_last x l'
  end.

(** The envelope once the list bound to ["messages"] has been mutated. *)
Definition with_messages (body all_messages : value) : value :=
  match body with
  | VDict d =>
      if has_key "messages" d then VDict (dict_set "messages" all_messages d)
      else body
  | _ => body
  end.

(** *** Rendering and [str.format] *)

(** What the embedding takes from the Python runtime without modelling it:
    the JSON decoder, the [repr] of floats and containers, and
    [str.format] on templates that use conversions, format specs, or
    attribute and index lookups. *)
Class Runtime : Type := {
  json_loads : string -> outcome value;
  repr : value -> string;
  format_ext : string -> string -> value -> outcome string;
}.

Section WithRuntime.
Context `{RT : Runtime}.

(** [str(v)], also what an f-string does with [{v}] *)
Definition str_of (v : value) : string :=
  match v with
  | VNone => "None"
  | VBool true => "True"
  | VBool false => "False"
  | VInt z => str_of_int z
  | VStr s => s
  | _ => repr v
  end.

Definition is_digit (a : ascii) : bool := in_range 48 57 a.

Definition beyond_plain_field (a : ascii) : bool :=
  existsb (Ascii.eqb a) (chars "{!:.[").

(** The number that a field of decimal digits denotes, and the largest
    index that [str.format] reads ([sys.maxsize] of a 64-bit build). *)
Definition decimal_value (l : list ascii) : Z :=
  fold_left (fun acc a => 10 * acc + (Z.of_N (code a) - 48)) l 0.

Definition ssize_max : Z := 2 ^ 63 - 1.

(** The scanner of [template.format(name=arg)]: [out] is the text produced
    so far (reversed), [field] the replacement field being read, if any.
    [None] means that the template leaves the plain fragment. *)
Fixpoint format_go (name arg : list ascii) (out : list ascii)
    (field : option (list ascii)) (l : list ascii)
    : option (outcome (list ascii)) :=
  match field, l with
  | None, [] => Some (Return (rev out))
  | None, a :: l' =>
      if Ascii.eqb a "{" then
        match l' with
        | b :: l'' =>
            if Ascii.eqb b "{" then format_go name arg ("{"%char :: out) None l''
            else format_go name arg out (Some []) l'
        | [] => Some (Raise ValueError)
        end
      else if Ascii.eqb a "}" then
        match l' with
        | b :: l'' =>
            if Ascii.eqb b "}" then format_go name arg ("}"%char :: out) None l''
            else Some (Raise ValueError)
        | [] => Some (Raise ValueError)
        end
      else format_go name arg (a :: out) None l'
  | Some acc, [] => Some (Raise ValueError)
  | Some acc, a :: l' =>
      if Ascii.eqb a "}" then
        let f := rev acc in
        if String.eqb (str f) (str name) then
          format_go name arg (rev arg ++ out) None l'
        else if forallb is_digit f then
          if ssize_max <? decimal_value f then Some (Raise ValueError)
          else Some (Raise IndexError)
        else Some (Raise KeyError)
      else if beyond_plain_field a then None
      else format_go name arg out (Some (a :: acc)) l'
  end.

(** [template.format(name=arg)] *)
Definition format (template name : string) (arg : value) : outcome string :=
  match format_go (chars name) (chars (str_of arg)) [] None (chars template) with
  | Some r => s ← r; Return (str s)
  | None => format_ext template name arg
  end.

End WithRuntime.

(** A text without braces, and a field name that [format_go] reads as a
    plain name. *)
Definition plain_text (l : list ascii) : bool :=
  forallb (fun a => negb (Ascii.eqb a "{") && negb (Ascii.eqb a "}")) l.

Definition plain_name (l : list ascii) : bool :=
  forallb (fun a => negb (Ascii.eqb a "}") && negb (beyond_plain_field a)) l.

(** *** Regular expressions

    The fragment of [re] that the pipelines use: literals, the class [\s],
    character ranges, [\b], [^], sequence, alternation, and [*] / [+] on a
    class.  The matcher backtracks in Python's order (left alternative
    first, greedy repetition), so the first match it finds is [re]'s. *)

Inductive cset : Type :=
| Space
| Range (lo hi : ascii).

Definition in_cset (c : cset) (a : ascii) : bool :=
  match c with
  | Space => isspace a
  | Range lo hi => in_range (code lo) (code hi) a
  end.

Inductive regex : Type :=
| Lit (s : string)
| Set_ (c : cset)
| Star (c : cset)
| Plus (c : cset)
| WordB
| Bol
| Seq (r1 r2 : regex)
| Alt (r1 r2 : regex).

Definition char_eq (ignorecase : bool) (p a : ascii) : bool :=
  if ignorecase then Ascii.eqb (lower_char p) (lower_char a) else Ascii.eqb p a.

Definition word_before (prev : option ascii) : bool :=
  match prev with Some a => isword a | None => false end.

Definition word_after (l : list ascii) : bool :=
  match l with a :: _ => isword a | [] => false end.

Section Matcher.
Context {A : Type} (ignorecase : bool).

(** A continuation receives the character before the position reached and
    the text that is left. *)
Definition cont : Type := option ascii -> list ascii -> option A.

Fixpoint match_lit (p : list ascii) (prev : option ascii) (l : list ascii)
    (k : cont) : option A :=
  match p with
  | [] => k prev l
  | c :: p' =>
      match l with
      | a :: l' => if char_eq ignorecase c a then match_lit p' (Some a) l' k else None
      | [] => None
      end
  end.

Fixpoint match_star (c : cset) (prev : option ascii) (l : list ascii)
    (k : cont) : option A :=
  match l with
  | a :: l' =>
      if in_cset c a then
        match match_star c (Some a) l' k with
        | Some x => Some x
        | None => k prev l
        end
      else k prev l
  | [] => k prev l
  end.

Fixpoint rmatch (r : regex) (prev : option ascii) (l : list ascii)
    (k : cont) : option A :=
  match r with
  | Lit s => match_lit (chars s) prev l k
  | Set_ c =>
      match l with
      | a :: l' => if in_cset c a then k (Some a) l' else None
      | [] => None
      end
  | Star c => match_star c prev l k
  | Plus c =>
      match l with
      | a :: l' => if in_cset c a then match_star c (Some a) l' k else None
      | [] => None
      end
  | WordB => if xorb (word_before prev) (word_after l) then k prev l else None
  | Bol => match prev with None => k prev l | Some _ => None end
  | Seq r1 r2 => rmatch r1 prev l (fun prev' l' => rmatch r2 prev' l' k)
  | Alt r1 r2 =>
      match rmatch r1 prev l k with
      | Some x => Some x
      | None => rmatch r2 prev l k
      end
  end.

End Matcher.

(** [re.search(r, s)], as a truth value *)
Fixpoint search_from (ignorecase : bool) (r : regex) (prev : option ascii)
    (l : list ascii) : bool :=
  match rmatch ignorecase r prev l (fun _ _ => Some tt) with
  | Some _ => true
  | None =>
      match l with
      | a :: l' => search_from ignorecase r (Some a) l'
      | [] => false
      end
  end.

Definition re_search (ignorecase : bool) (r : regex) (s : string) : bool :=
  search_from ignorecase r None (chars s).

(** [re.sub(r, '', s)]: every match, found left to right, is deleted.  The
    fuel is the number of positions of the text. *)
Fixpoint sub_from (fuel : nat) (ignorecase : bool) (r : regex)
    (prev : option ascii) (l : list ascii) : list ascii :=
  match fuel with
  | O => l
  | S fuel' =>
      let found :=
        match rmatch ignorecase r prev l (fun prev' l' => Some (prev', l')) with
        | Some (prev', l') =>
            if (length l' <? length l)%nat then Some (prev', l') else None
        | None => None
        end in
      match found with
      | Some (prev', l') => sub_from fuel' ignorecase r prev' l'
      | None =>
          match l with
          | a :: l' => a :: sub_from fuel' ignorecase r (Some a) l'
          | [] => []
          end
      end
  end.

Definition re_sub_delete (ignorecase : bool) (r : regex) (s : string) : string :=
  str (sub_from (S (String.length s)) ignorecase r None (chars s)).

Fixpoint alt_of (rs : list regex) : regex :=
  match rs with
  | [] => Lit EmptyString
  | [r] => r
  | r :: rs' => Alt r (alt_of rs')
  end.

Fixpoint seq_of (rs : list regex) : regex :=
  match rs with
  | [] => Lit EmptyString
  | [r] => r
  | r :: rs' => Seq r (seq_of rs')
  end.

End Py.

(* ===================================================================== *)
(** ** Search augmentation: [src/pipelines/perplexity_search.py]          *)
(* ===================================================================== *)

Module Perplexity.
Import Py.

(** The options of [Pipeline.Valves] that the hooks read.  The request
    parameters ([search_model], [max_tokens], [temperature], [top_p],
    [search_domains], [perplexity_base_url]) only travel to the provider,
    which is a parameter here. *)
Record Valves : Type := {
  perplexity_api_key : string;
  enable_auto_search : bool;
  enable_manual_search : bool;
  search_trigger_keywords : list string;
  max_search_results : Z;
  include_citations : bool;
  citation_format : string;
  search_context_template : string;
}.

Definition default_keywords : list string :=
  [ "search"; "find"; "lookup"; "what is"; "who is"; "when did";
    "where is"; "how to"; "latest"; "recent"; "current"; "news";
    "today"; "yesterday"; "this week"; "this month"; "2024"; "2025" ].

Definition default_template : string :=
  "Based on current web search results:" ++ nl ++ nl ++ "{search_results}"
  ++ nl ++ nl
  ++ "Now, please answer the user's question using this information:".

Definition default_valves : Valves := {|
  perplexity_api_key := EmptyString;
  enable_auto_search := true;
  enable_manual_search := true;
  search_trigger_keywords := default_keywords;
  max_search_results := 5;
  include_citations := true;
  citation_format := "markdown";
  search_context_template := default_template;
|}.

(** What [requests.post] gives back for a search request: a transport
    error, or a response with its status code and what [response.json()]
    yields. *)
Inductive reply : Type :=
| TransportError
| Response (status_code : Z) (json : outcome value).

(** The provider, as a function of the query placed in the request. *)
Definition provider : Type := string -> reply.

Definition manual_triggers : list string :=
  [ "search:"; "web:"; "find:"; "lookup:" ].

Definition question_patterns : list regex :=
  [ seq_of [WordB; Lit "what"; Plus Space; Lit "is"; WordB];
    seq_of [WordB; Lit "who"; Plus Space; Lit "is"; WordB];
    seq_of [WordB; Lit "when"; Plus Space; Lit "did"; WordB];
    seq_of [WordB; Lit "where"; Plus Space; Lit "is"; WordB];
    seq_of [WordB; Lit "how"; Plus Space; Lit "to"; WordB];
    seq_of [WordB; Lit "why"; Plus Space; Lit "does"; WordB];
    seq_of [WordB; Lit "latest"; WordB];
    seq_of [WordB; Lit "recent"; WordB];
    seq_of [WordB; Lit "current"; WordB];
    seq_of [WordB; Lit "news"; WordB];
    seq_of [WordB; Lit "today"; WordB];
    seq_of [WordB; Lit "202"; Set_ (Range "4" "9"); WordB] ].

(** [Pipeline._should_perform_search] *)
Definition _should_perform_search (v : Valves) (message : value) : outcome bool :=
  if negb (enable_auto_search v) && negb (enable_manual_search v) then Return false
  else
    match message with
    | VStr m =>
        let message_lower := lower m in
        if enable_manual_search v
           && existsb (fun trigger => contains trigger message_lower) manual_triggers
        then Return true
        else if enable_auto_search v then
          if existsb (fun keyword => contains keyword message_lower)
                     (search_trigger_keywords v)
          then Return true
          else if existsb (fun pattern => re_search false pattern message_lower)
                          question_patterns
          then Return true
          else Return false
        else Return false
    | _ => Raise AttributeError
    end.

(** [^(search:|web:|find:|lookup:)\s*] *)
Definition manual_prefix : regex :=
  seq_of [Bol; alt_of [Lit "search:"; Lit "web:"; Lit "find:"; Lit "lookup:"];
          Star Space].

(** [^(can you|could you|please|help me)\s+] *)
Definition filler_prefix : regex :=
  seq_of [Bol; alt_of [Lit "can you"; Lit "could you"; Lit "please"; Lit "help me"];
          Plus Space].

(** [Pipeline._clean_search_query] *)
Definition _clean_search_query (query : string) : string :=
  let query := re_sub_delete true manual_prefix query in
  let query := re_sub_delete true filler_prefix query in
  let query :=
    if 200 <? len query then str_slice_to 200 query ++ "..." else query in
  strip query.

(** [citations[:n]], ready to be iterated *)
Definition slice_items (n : Z) (v : value) : outcome (list value) :=
  match v with
  | VList l => Return (slice_to n l)
  | VStr s => Return (map one_char (slice_to n (chars s)))
  | _ => Raise TypeError
  end.

(** [formatted_result += text] *)
Definition iadd_str (v : value) (text : string) : outcome value :=
  match v with
  | VStr s => Return (VStr (s ++ text))
  | VList l => Return (VList (l ++ map one_char (chars text)))
  | _ => Raise TypeError
  end.

Section Hooks.
Context `{RT : Runtime}.

(** The loop [for i, citation in enumerate(items, 1): text += line], with
    [i] the number of the next item. *)
Fixpoint citation_lines (numbered : bool) (i : Z) (items : list value) : string :=
  match items with
  | [] => EmptyString
  | citation :: rest =>
      (if numbered
       then "[" ++ str_of_int i ++ "] " ++ str_of citation ++ nl
       else str_of_int i ++ ". " ++ str_of citation ++ nl)
      ++ citation_lines numbered (i + 1) rest
  end.

(** [Pipeline._format_search_results] *)
Definition _format_search_results (v : Valves) (content citations : value)
    : outcome value :=
  let formatted_result := content in
  if include_citations v && truthy citations then
    if String.eqb (citation_format v) "markdown" then
      items ← slice_items (max_search_results v) citations;
      let citations_text :=
        nl ++ nl ++ "**Sources:**" ++ nl ++ citation_lines false 1 items in
      iadd_str formatted_result citations_text
    else if String.eqb (citation_format v) "numbered" then
      items ← slice_items (max_search_results v) citations;
      let citations_text :=
        nl ++ nl ++ "Sources:" ++ nl ++ citation_lines true 1 items in
      iadd_str formatted_result citations_text
    else Return formatted_result
  else Return formatted_result.

(** [Pipeline._perform_search]: [None] on any failure. *)
Definition _perform_search (v : Valves) (post : provider) (query : value)
    : option value :=
  try_except
    (q ← match query with VStr q => Return q | _ => Raise TypeError end;
     let search_query := _clean_search_query q in
     match post search_query with
     | TransportError => Raise ExternalError
     | Response status_code json =>
         if status_code =? 200 then
           result ← json;
           choices ← getitem_key result "choices";
           choice ← getitem_first choices;
           message ← getitem_key choice "message";
           content ← getitem_key message "content";
           citations ← getattr_get result "citations" (VList []);
           formatted_result ← _format_search_results v content citations;
           Return (Some formatted_result)
         else Return None
     end)
    None.

Definition system_message (content : string) : value :=
  VDict [("role", VStr "system"); ("content", VStr content)].

(** [Pipeline._add_search_context]: the list after [insert(-1, ...)]. *)
Definition _add_search_context (v : Valves) (all_messages search_results : value)
    : outcome value :=
  search_context ← format (search_context_template v) "search_results" search_results;
  match all_messages with
  | VList l => Return (VList (insert_before_last (system_message search_context) l))
  | _ => Raise AttributeError
  end.

(** [Pipeline.inlet] *)
Definition inlet (v : Valves) (post : provider) (body : value) (user : option dict)
    : outcome value :=
  body ← match body with VStr s => json_loads s | _ => Return body end;
  all_messages ← getattr_get body "messages" (VList []);
  if negb (truthy all_messages) then Return body
  else
    last ← getitem_last all_messages;
    last_message ← getattr_get last "content" (VStr EmptyString);
    should_search ← _should_perform_search v last_message;
    if should_search && truthy (VStr (perplexity_api_key v)) then
      Return
        (try_except
           (match _perform_search v post last_message with
            | Some search_results =>
                if truthy search_results then
                  all_messages' ← _add_search_context v all_messages search_results;
                  Return (with_messages body all_messages')
                else Return body
            | None => Return body
            end)
           body)
    else Return body.

(** [Pipeline.outlet] *)
Definition outlet (v : Valves) (body : value) (user : option dict) : outcome value :=
  Return body.

End Hooks.

End Perplexity.

(* ===================================================================== *)
(** ** The mem0 store, as both memory filters see it                      *)
(* ===================================================================== *)

Module Mem0Store.
Import Py.

(** One result of [memory.search]: a dict whose ["score"] and ["memory"]
    entries may be missing. *)
Record hit : Type := {
  hit_score : option spec_float;
  hit_memory : option value;
}.

(** What the store does during one hook call: whether
    [Memory.from_config] succeeds, and what [memory.search(query, user_id,
    limit)] answers. *)
Record env : Type := {
  init_ok : bool;
  search : value -> value -> Z -> outcome (list hit);
}.

(** A flush handed to a background thread: [memory.add(text, user_id)]. *)
Record flush : Type := {
  flush_text : string;
  flush_user : value;
}.

(** [" ".join(l)]: every element has to be a [str]. *)
Fixpoint strings_of (l : list value) : outcome (list string) :=
  match l with
  | [] => Return []
  | VStr s :: l' => ss ← strings_of l'; Return (s :: ss)
  | _ :: _ => Raise TypeError
  end.

Definition join_values (sep : string) (l : list value) : outcome string :=
  ss ← strings_of l; Return (join sep ss).

End Mem0Store.

(* ===================================================================== *)
(** ** Memory filter: [src/pipelines/mem0_memory_filter.py]               *)
(* ===================================================================== *)

Module Mem0.
Import Py Mem0Store.

(** The options that the hook reads; [enable_memory_logging] only gates log
    lines, and the store and model options only travel to mem0. *)
Record Valves : Type := {
  store_cycles : Z;
  mem_zero_user : string;
  enable_memory_storage : bool;
  enable_memory_retrieval : bool;
  max_memories_retrieved : Z;
  memory_relevance_threshold : spec_float;
  memory_context_template : string;
}.

Definition default_valves : Valves := {|
  store_cycles := 3;
  mem_zero_user := "bailey";
  enable_memory_storage := true;
  enable_memory_retrieval := true;
  max_memories_retrieved := 3;
  memory_relevance_threshold := nearest_double 7 10;
  memory_context_template :=
    "This is your inner voice talking, you remember this about the person you're chatting with: {memory}";
|}.

(** The attributes of a [Pipeline] instance: the pending utterances
    ([self.user_messages], one list for the whole instance), whether the
    mem0 handle [self.m] has been created, and the flushes started so far
    (each [self.thread.start()], oldest first). *)
Record state : Type := {
  user_messages : list value;
  m : bool;
  dispatched : list flush;
}.

Definition initial : state :=
  {| user_messages := []; m := false; dispatched := [] |}.

(** [Pipeline.get_memory]: raises when the handle cannot be created. *)
Definition get_memory (e : env) (st : state) : state * outcome unit :=
  if m st then (st, Return tt)
  else if init_ok e then
    ({| user_messages := user_messages st; m := true; dispatched := dispatched st |},
     Return tt)
  else (st, Raise ExternalError).

Definition clear (st : state) : state :=
  {| user_messages := []; m := m st; dispatched := dispatched st |}.

(** [Pipeline._store_memories] *)
Definition _store_memories (e : env) (st : state) (user_id : value) : state :=
  match join_values " " (user_messages st) with
  | Return message_text =>
      match get_memory e st with
      | (st1, Return _) =>
          clear {| user_messages := user_messages st1; m := m st1;
                   dispatched := dispatched st1 ++
                     [{| flush_text := message_text; flush_user := user_id |}] |}
      | (st1, Raise _) => clear st1
      end
  | Raise _ => clear st
  end.

Definition score_passes (threshold : spec_float) (h : hit) : bool :=
  match hit_score h with
  | Some score => fleb threshold score
  | None => fleb threshold (S754_zero false)
  end.

Definition system_message (content : string) : value :=
  VDict [("role", VStr "system"); ("content", VStr content)].

Section Hooks.
Context `{RT : Runtime}.

(** [Pipeline._add_memory_context]: the state and the message list after
    the call. *)
Definition _add_memory_context (v : Valves) (e : env) (st : state)
    (all_messages : list value) (last_message user_id : value)
    : state * list value :=
  match get_memory e st with
  | (st1, Raise _) => (st1, all_messages)
  | (st1, Return _) =>
      (st1,
       try_except
         (memories ← search e last_message user_id (max_memories_retrieved v);
          match List.filter (score_passes (memory_relevance_threshold v)) memories with
          | [] => Return all_messages
          | best :: _ =>
              best_memory ← match hit_memory best with
                            | Some x => Return x
                            | None => Raise KeyError
                            end;
              memory_context ← format (memory_context_template v) "memory" best_memory;
              Return (system_message memory_context :: all_messages)
          end)
         all_messages)
  end.

(** The [user_id] that [inlet] computes. *)
Definition user_id_of (v : Valves) (user : option dict) : value :=
  match user with
  | Some u =>
      if truthy (VDict u) && truthy (get_or "id" VNone u)
      then get_or "id" VNone u
      else VStr (mem_zero_user v)
  | None => VStr (mem_zero_user v)
  end.

(** [Pipeline.inlet] *)
Definition inlet (v : Valves) (e : env) (st : state) (body : value)
    (user : option dict) : state * outcome value :=
  let user_id := user_id_of v user in
  match (match body with VStr s => json_loads s | _ => Return body end) with
  | Raise x => (st, Raise x)
  | Return body =>
      match getattr_get body "messages" (VList []) with
      | Raise x => (st, Raise x)
      | Return all_messages =>
          if negb (truthy all_messages) then (st, Return body)
          else
            match (last ← getitem_last all_messages;
                   getattr_get last "content" (VStr EmptyString)) with
            | Raise x => (st, Raise x)
            | Return last_message =>
                let st1 :=
                  if enable_memory_storage v then
                    let st' := {| user_messages := user_messages st ++ [last_message];
                                  m := m st; dispatched := dispatched st |} in
                    if store_cycles v <=? Z.of_nat (length (user_messages st'))
                    then _store_memories e st' user_id
                    else st'
                  else st in
                if enable_memory_retrieval v then
                  match all_messages with
                  | VList l =>
                      let '(st2, l') := _add_memory_context v e st1 l last_message user_id in
                      (st2, Return (with_messages body (VList l')))
                  | _ => (st1, Return body)
                  end
                else (st1, Return body)
            end
      end
  end.

(** One call of the host: what the store does during it, the envelope and
    the user record. *)
Record call : Type := {
  call_env : env;
  call_body : value;
  call_user : option dict;
}.

(** The state after the host has run [inlet] on each call in turn. *)
Fixpoint run_inlets (v : Valves) (st : state) (calls : list call) : state :=
  match calls with
  | [] => st
  | c :: rest =>
      run_inlets v (fst (inlet v (call_env c) st (call_body c) (call_user c))) rest
  end.

End Hooks.

End Mem0.

(* ===================================================================== *)
(** ** Memory filter, robust version:
       [src/pipelines/mem0_memory_filter_pipeline.py]                     *)
(* ===================================================================== *)

Module Mem0Robust.
Import Py Mem0Store.

(** The options that the hook reads; [debug_mode] only gates prints. *)
Record Valves : Type := {
  store_cycles : Z;
  mem_zero_user : string;
  enable_memory_storage : bool;
  enable_memory_search : bool;
}.

Definition default_valves : Valves := {|
  store_cycles := 3;
  mem_zero_user := "bailey";
  enable_memory_storage := true;
  enable_memory_search := true;
|}.

(** The attributes of a [Pipeline] instance; [_init_failed] is true once
    the attribute of that name has been set. *)
Record state : Type := {
  user_messages : list string;
  m : bool;
  memory_available : bool;
  _init_failed : bool;
  dispatched : list flush;
}.

Definition initial : state :=
  {| user_messages := []; m := false; memory_available := false;
     _init_failed := false; dispatched := [] |}.

(** [Pipeline.get_memory]: the state after the call, and whether a usable
    handle is returned. *)
Definition get_memory (e : env) (st : state) : state * bool :=
  let st1 :=
    if negb (m st) && negb (_init_failed st) then
      if init_ok e then
        {| user_messages := user_messages st; m := true; memory_available := true;
           _init_failed := _init_failed st; dispatched := dispatched st |}
      else
        {| user_messages := user_messages st; m := m st; memory_available := false;
           _init_failed := true; dispatched := dispatched st |}
    else st in
  (st1, if memory_available st1 then m st1 else false).

Definition with_pending (l : list string) (st : state) : state :=
  {| user_messages := l; m := m st; memory_available := memory_available st;
     _init_failed := _init_failed st; dispatched := dispatched st |}.

Definition with_flush (f : flush) (st : state) : state :=
  {| user_messages := user_messages st; m := m st;
     memory_available := memory_available st; _init_failed := _init_failed st;
     dispatched := dispatched st ++ [f] |}.

(** [Pipeline._handle_memory_storage] *)
Definition _handle_memory_storage (v : Valves) (e : env) (st : state)
    (message : string) (user_id : string) : state :=
  let st1 := with_pending (user_messages st ++ [message]) st in
  if store_cycles v <=? Z.of_nat (length (user_messages st1)) then
    let '(st2, memory) := get_memory e st1 in
    let st3 :=
      if memory then
        let message_text := join " " (user_messages st2) in
        with_flush {| flush_text := message_text; flush_user := VStr user_id |} st2
      else st2 in
    with_pending [] st3
  else st1.

Definition system_message (content : string) : value :=
  VDict [("role", VStr "system"); ("content", VStr content)].

(** The loop of [inlet] over [reversed(all_messages)], on the list already
    reversed: the stripped content of the first message that has the role
    ["user"] and a true content. *)
Fixpoint last_user_message_in (reversed_messages : list value)
    : outcome (option string) :=
  match reversed_messages with
  | [] => Return None
  | msg :: rest =>
      role ← getattr_get msg "role" VNone;
      match role with
      | VStr "user" =>
          content ← getattr_get msg "content" VNone;
          if truthy content then
            match content with
            | VStr s => Return (Some (strip s))
            | _ => Raise AttributeError
            end
          else last_user_message_in rest
      | _ => last_user_message_in rest
      end
  end.

Section Hooks.
Context `{RT : Runtime}.

(** [Pipeline._handle_memory_search]: the state and the message list after
    the call. *)
Definition _handle_memory_search (e : env) (st : state) (message : string)
    (user_id : string) (all_messages : list value) : state * list value :=
  let '(st1, memory) := get_memory e st in
  if negb memory then (st1, all_messages)
  else
    (st1,
     try_except
       (memories ← search e (VStr message) (VStr user_id) 3;
        match memories with
        | best_memory :: _ =>
            let fetched_memory :=
              match hit_memory best_memory with
              | Some x => x
              | None => VStr EmptyString
              end in
            if truthy fetched_memory then
              match fetched_memory with
              | VStr s =>
                  if 0 <? len (strip s) then
                    Return (system_message ("Context from your memory: " ++ s)
                            :: all_messages)
                  else Return all_messages
              | _ => Raise AttributeError
              end
            else Return all_messages
        | [] => Return all_messages
        end)
       all_messages).

(** [Pipeline.inlet]: every path returns, the whole body sits in a
    [try]/[except] that returns [body]. *)
Definition inlet (v : Valves) (e : env) (st : state) (body : value)
    (user : option dict) : state * value :=
  let parsed :=
    match body with
    | VDict _ => Some body
    | VStr s =>
        match json_loads s with
        | Return b => Some b
        | Raise _ => None
        end
    | _ => None
    end in
  match parsed with
  | None => (st, body)
  | Some (VDict d) =>
      if negb (has_key "messages" d) || negb (truthy (get_or "messages" VNone d))
      then (st, VDict d)
      else
        let user_id := mem_zero_user v in
        match get_or "messages" VNone d with
        | VList all_messages =>
            match last_user_message_in (rev all_messages) with
            | Return (Some last_user_message) =>
                if negb (truthy (VStr last_user_message)) then (st, VDict d)
                else
                  let st1 :=
                    if enable_memory_storage v
                    then _handle_memory_storage v e st last_user_message user_id
                    else st in
                  if enable_memory_search v then
                    let '(st2, l') :=
                      _handle_memory_search e st1 last_user_message user_id all_messages in
                    (st2, with_messages (VDict d) (VList l'))
                  else (st1, VDict d)
            | _ => (st, VDict d)
            end
        | _ => (st, VDict d)
        end
  | Some b => (st, b)
  end.

(** One call of the host, and the state after a sequence of calls. *)
Record call : Type := {
  call_env : env;
  call_body : value;
  call_user : option dict;
}.

Fixpoint run_inlets (v : Valves) (st : state) (calls : list call) : state :=
  match calls with
  | [] => st
  | c :: rest =>
      run_inlets v (fst (inlet v (call_env c) st (call_body c) (call_user c))) rest
  end.

End Hooks.

End Mem0Robust.

(* ===================================================================== *)
(** ** Observability: [src/pipelines/langfuse_tracking.py]                *)
(* ===================================================================== *)

Module Langfuse.
Import Py.

(** The options that the hooks read. *)
Record Valves : Type := {
  langfuse_secret_key : string;
  langfuse_public_key : string;
  enable_tracking : bool;
  enable_cost_tracking : bool;
  track_input_tokens : bool;
  track_output_tokens : bool;
  track_model_parameters : bool;
  anonymize_user_data : bool;
  exclude_system_messages : bool;
  max_content_length : Z;
  cost_per_input_token : spec_float;
  cost_per_output_token : spec_float;
}.

Definition default_valves : Valves := {|
  langfuse_secret_key := EmptyString;
  langfuse_public_key := EmptyString;
  enable_tracking := true;
  enable_cost_tracking := true;
  track_input_tokens := true;
  track_output_tokens := true;
  track_model_parameters := true;
  anonymize_user_data := false;
  exclude_system_messages := false;
  max_content_length := 10000;
  cost_per_input_token := nearest_double 1 1000000;
  cost_per_output_token := nearest_double 2 1000000;
|}.

(** What the clock and the Langfuse SDK do during one hook call.  [now]
    is the reading of [time.time()] taken by [_get_conversation_id], which
    keeps its whole second only; it is given in whole milliseconds.  The
    other readings are the binary64 seconds that [time.time()] returns:
    [now_start_times] is the one stored in [self.start_times],
    [now_start_time] the one stored with the trace and [now_end_time] the
    one taken by [_update_generation].  The three flags say whether
    [langfuse.trace], [trace.generation] and [generation.end] return
    (rather than raise); [input_usage] is the ["input"] entry of
    [generation.input_usage] when the SDK object has that attribute. *)
Record env : Type := {
  now : Z;
  now_start_times : spec_float;
  now_start_time : spec_float;
  now_end_time : spec_float;
  trace_ok : bool;
  generation_ok : bool;
  input_usage : option Z;
  end_ok : bool;
}.

(** What [trace.generation] was given. *)
Record generation : Type := {
  gen_model : value;
  gen_input : string;
  gen_parameters : dict;
  gen_usage_input : option Z;
}.

(** An entry of [self.active_traces]. *)
Record trace_data : Type := {
  td_generation : option generation;
  td_start_time : spec_float;
}.

(** What [generation.end] was given. *)
Record ended : Type := {
  end_conversation : string;
  end_output : value;
  end_usage : option (Z * option Z * Z);
  end_response_time_ms : spec_float;
  end_cost : option spec_float;
}.

(** The attributes of a [Pipeline] instance, the module flag
    [LANGFUSE_AVAILABLE], and the spans closed so far. *)
Record state : Type := {
  LANGFUSE_AVAILABLE : bool;
  langfuse : bool;
  active_traces : gmap string trace_data;
  start_times : gmap string spec_float;
  finished : list ended;
}.

Definition initial (available : bool) : state :=
  {| LANGFUSE_AVAILABLE := available; langfuse := false;
     active_traces := ∅; start_times := ∅; finished := [] |}.

(** [Pipeline._initialize_langfuse], run by [on_startup]; [client_ok] says
    whether the [Langfuse(...)] constructor returns. *)
Definition on_startup (v : Valves) (client_ok : bool) (st : state) : state :=
  if LANGFUSE_AVAILABLE st && enable_tracking v then
    if truthy (VStr (langfuse_secret_key v)) && truthy (VStr (langfuse_public_key v))
       && client_ok
    then {| LANGFUSE_AVAILABLE := LANGFUSE_AVAILABLE st; langfuse := true;
            active_traces := active_traces st; start_times := start_times st;
            finished := finished st |}
    else st
  else st.

(** [Pipeline._should_track] *)
Definition _should_track (v : Valves) (st : state) : bool :=
  LANGFUSE_AVAILABLE st && enable_tracking v && langfuse st.

(** The factor [1000] of [response_time * 1000], as the float it is
    converted to. *)
Definition thousand : spec_float := binary_normalize prec emax 1000 0 false.

(** [len(v)] *)
Definition len_value (v : value) : outcome Z :=
  match v with
  | VStr s => Return (len s)
  | VList l => Return (Z.of_nat (length l))
  | VDict d => Return (Z.of_nat (length d))
  | _ => Raise TypeError
  end.

(** [Pipeline._estimate_tokens] *)
Definition _estimate_tokens (text : value) : outcome Z :=
  n ← len_value text; Return (n / 4).

Definition int_truthy (n : option Z) : bool :=
  match n with
  | Some z => negb (z =? 0)
  | None => false
  end.

(** [Pipeline._calculate_cost] *)
Definition _calculate_cost (v : Valves) (input_tokens output_tokens : option Z)
    : outcome (option spec_float) :=
  if negb (int_truthy input_tokens) && negb (int_truthy output_tokens) then Return None
  else
    let cost := S754_zero false in
    cost ← match input_tokens with
           | Some n =>
               if int_truthy input_tokens
               then f ← float_of_int n; Return (fadd cost (fmul f (cost_per_input_token v)))
               else Return cost
           | None => Return cost
           end;
    cost ← match output_tokens with
           | Some n =>
               if int_truthy output_tokens
               then f ← float_of_int n; Return (fadd cost (fmul f (cost_per_output_token v)))
               else Return cost
           | None => Return cost
           end;
    Return (Some (round_float cost 6)).

(** The elements that a [for] loop over [v] visits. *)
Definition iterate (v : value) : outcome (list value) :=
  match v with
  | VList l => Return l
  | VStr s => Return (map one_char (chars s))
  | VDict d => Return (map (fun kv => VStr (fst kv)) d)
  | _ => Raise TypeError
  end.

(** [x in v] for the string [x] *)
Definition str_in (x : string) (v : value) : outcome bool :=
  match v with
  | VDict d => Return (has_key x d)
  | VList l =>
      Return (existsb (fun y => match y with VStr s => String.eqb s x | _ => false end) l)
  | VStr s => Return (contains x s)
  | _ => Raise TypeError
  end.

(** [content[:n] + "..."] *)
Definition truncate (n : Z) (content : value) : outcome value :=
  match content with
  | VStr s => Return (VStr (str_slice_to n s ++ "..."))
  | _ => Raise TypeError
  end.

Definition param_keys : list string :=
  [ "temperature"; "top_p"; "max_tokens"; "frequency_penalty"; "presence_penalty" ].

(** [Pipeline._extract_model_parameters] *)
Definition _extract_model_parameters (v : Valves) (body : dict) : dict :=
  if negb (track_model_parameters v) then []
  else
    fold_left
      (fun params key =>
         match dict_get key body with
         | Some x => dict_set key x params
         | None => params
         end)
      param_keys [].

Section Hooks.
Context `{RT : Runtime}.

(** [hashlib.sha256(s.encode()).hexdigest()] *)
Context (sha256_hexdigest : string -> string).

(** [Pipeline._get_user_id] *)
Definition _get_user_id (v : Valves) (user : option dict) : value :=
  match user with
  | None => VStr "anonymous"
  | Some u =>
      if negb (truthy (VDict u)) then VStr "anonymous"
      else
        let user_id :=
          or_else (or_else (get_or "id" VNone u) (get_or "email" VNone u))
                  (get_or "username" VNone u) in
        let user_id :=
          if anonymize_user_data v && truthy user_id
          then VStr (str_slice_to 16 (sha256_hexdigest (str_of user_id)))
          else user_id in
        or_else user_id (VStr "anonymous")
  end.

(** [int(time.time())] *)
Definition seconds (now : Z) : Z := Z.quot now 1000.

(** [Pipeline._get_conversation_id] *)
Definition _get_conversation_id (v : Valves) (now : Z) (body : value)
    (user : option dict) : outcome string :=
  conversation_id ← getattr_get body "conversation_id" VNone;
  chat_id ← getattr_get body "chat_id" VNone;
  let conv_id := or_else conversation_id chat_id in
  let conv_id :=
    if negb (truthy conv_id) then
      let user_id := _get_user_id v user in
      VStr (str_of user_id ++ "_" ++ str_of_int (seconds now))
    else conv_id in
  Return (str_of conv_id).

(** [Pipeline._extract_input_content] *)
Fixpoint content_parts (messages : list value) : outcome (list string) :=
  match messages with
  | [] => Return []
  | msg :: rest =>
      role ← getattr_get msg "role" (VStr "unknown");
      content ← getattr_get msg "content" (VStr EmptyString);
      parts ← content_parts rest;
      Return ((str_of role ++ ": " ++ str_of content) :: parts)
  end.

Fixpoint without_system (messages : list value) : outcome (list value) :=
  match messages with
  | [] => Return []
  | msg :: rest =>
      role ← getattr_get msg "role" VNone;
      kept ← without_system rest;
      Return (match role with
              | VStr "system" => kept
              | _ => msg :: kept
              end)
  end.

Definition _extract_input_content (v : Valves) (messages : value) : outcome string :=
  messages ← iterate messages;
  messages ← (if exclude_system_messages v then without_system messages
              else Return messages);
  content_parts ← content_parts messages;
  let full_content := join nl content_parts in
  Return (if max_content_length v <? len full_content
          then str_slice_to (max_content_length v) full_content ++ "..."
          else full_content).

(** [Pipeline._extract_output_content] *)
Definition _extract_output_content (v : Valves) (body : dict) : outcome value :=
  content ←
    (if has_key "choices" body then
       let choices := get_or "choices" VNone body in
       if truthy choices then
         choice ← getitem_first choices;
         has_message ← str_in "message" choice;
         if (has_message : bool) then
           message ← getitem_key choice "message";
           getattr_get message "content" (VStr EmptyString)
         else Return (VStr (str_of (VDict body)))
       else Return (VStr (str_of (VDict body)))
     else Return (VStr (str_of (VDict body))));
  n ← len_value content;
  if max_content_length v <? n then truncate (max_content_length v) content
  else Return content.

(** [Pipeline._create_or_get_trace]: whether a trace is returned. *)
Definition _create_or_get_trace (st : state) (e : env) : bool :=
  if negb (langfuse st) then false else trace_ok e.

(** [Pipeline._create_generation] *)
Definition _create_generation (v : Valves) (e : env) (body : dict)
    : option generation :=
  try_except
    (let messages := get_or "messages" (VList []) body in
     let model := get_or "model" (VStr "unknown") body in
     input_content ← _extract_input_content v messages;
     input_tokens ← (if track_input_tokens v
                     then n ← _estimate_tokens (VStr input_content); Return (Some n)
                     else Return None);
     if generation_ok e then
       Return (Some {| gen_model := model; gen_input := input_content;
                       gen_parameters := _extract_model_parameters v body;
                       gen_usage_input :=
                         if int_truthy input_tokens then input_tokens else None |})
     else Raise ExternalError)
    None.

Definition set_start_time (k : string) (t : spec_float) (st : state) : state :=
  {| LANGFUSE_AVAILABLE := LANGFUSE_AVAILABLE st; langfuse := langfuse st;
     active_traces := active_traces st; start_times := <[k := t]> (start_times st);
     finished := finished st |}.

Definition set_active_trace (k : string) (d : trace_data) (st : state) : state :=
  {| LANGFUSE_AVAILABLE := LANGFUSE_AVAILABLE st; langfuse := langfuse st;
     active_traces := <[k := d]> (active_traces st); start_times := start_times st;
     finished := finished st |}.

(** The clean-up at the end of [_update_generation], after
    [generation.end] has been given [r]. *)
Definition close_span (k : string) (r : ended) (st : state) : state :=
  {| LANGFUSE_AVAILABLE := LANGFUSE_AVAILABLE st; langfuse := langfuse st;
     active_traces := delete k (active_traces st);
     start_times := delete k (start_times st);
     finished := finished st ++ [r] |}.

(** [Pipeline.inlet]: the body that is returned is the parsed one when the
    parse succeeded. *)
Definition inlet (v : Valves) (e : env) (st : state) (body : value)
    (user : option dict) : state * value :=
  if negb (_should_track v st) then (st, body)
  else
    match (match body with VStr s => json_loads s | _ => Return body end) with
    | Raise _ => (st, body)
    | Return body =>
        match _get_conversation_id v (now e) body user with
        | Raise _ => (st, body)
        | Return conversation_id =>
            let st1 := set_start_time conversation_id (now_start_times e) st in
            if _create_or_get_trace st1 e then
              let generation :=
                match body with
                | VDict d => _create_generation v e d
                | _ => None
                end in
              (set_active_trace conversation_id
                 {| td_generation := generation; td_start_time := now_start_time e |} st1,
               body)
            else (st1, body)
        end
    end.

(** [Pipeline._update_generation] *)
Definition _update_generation (v : Valves) (e : env) (st : state)
    (conversation_id : string) (body : dict) : state :=
  match active_traces st !! conversation_id with
  | None => st
  | Some trace_data =>
      match td_generation trace_data with
      | None => st
      | Some generation =>
          try_except
            (output_content ← _extract_output_content v body;
             let response_time := fsub (now_end_time e) (td_start_time trace_data) in
             output_tokens ← (if track_output_tokens v
                              then n ← _estimate_tokens output_content; Return (Some n)
                              else Return None);
             let input_tokens :=
               match input_usage e with Some n => n | None => 0 end in
             cost ← (if enable_cost_tracking v
                     then _calculate_cost v (Some input_tokens) output_tokens
                     else Return None);
             if end_ok e then
               Return
                 (close_span conversation_id
                    {| end_conversation := conversation_id;
                       end_output := output_content;
                       end_usage :=
                         if track_input_tokens v || track_output_tokens v
                         then Some (input_tokens, output_tokens,
                                    input_tokens + default 0 output_tokens)
                         else None;
                       end_response_time_ms := fmul response_time thousand;
                       end_cost := cost |}
                    st)
             else Raise ExternalError)
            st
      end
  end.

(** [Pipeline.outlet] *)
Definition outlet (v : Valves) (e : env) (st : state) (body : value)
    (user : option dict) : state * value :=
  if negb (_should_track v st) then (st, body)
  else
    match (match body with VStr s => json_loads s | _ => Return body end) with
    | Raise _ => (st, body)
    | Return body =>
        match _get_conversation_id v (now e) body user with
        | Raise _ => (st, body)
        | Return conversation_id =>
            match active_traces st !! conversation_id, body with
            | Some _, VDict d => (_update_generation v e st conversation_id d, body)
            | _, _ => (st, body)
            end
        end
    end.

End Hooks.

End Langfuse.

(* ===================================================================== *)
(** ** The search context, as the specification words it                  *)
(* ===================================================================== *)

Module SearchContextSpec.
Import Py Perplexity.

(** One formatted citation line: ["i. citation"] in the markdown style,
    ["[i] citation"] in the numbered style, each ended by a newline. *)
Definition citation_line (style : string) (i : Z) (citation : string) : string :=
  if String.eqb style "numbered"
  then "[" ++ str_of_int i ++ "] " ++ citation ++ nl
  else str_of_int i ++ ". " ++ citation ++ nl.

(** The lines of the citations [l], numbered from [i]. *)
Fixpoint citation_block (style : string) (i : Z) (l : list string) : list string :=
  match l with
  | [] => []
  | citation :: rest => citation_line style i citation :: citation_block style (i + 1) rest
  end.

Definition sources_title (style : string) : string :=
  if String.eqb style "numbered" then "Sources:" else "**Sources:**".

(** The returned content followed, when there are citations, by a title
    and one line per citation, up to [max] of them. *)
Definition search_results_text (style : string) (max : Z) (content : string)
    (citations : list string) : string :=
  match citations with
  | [] => content
  | _ =>
      content ++ nl ++ nl ++ sources_title style ++ nl
      ++ join EmptyString (citation_block style 1 (slice_to max citations))
  end.

Definition context_header : string :=
  "Based on current web search results:" ++ nl ++ nl.

Definition context_footer : string :=
  nl ++ nl ++ "Now, please answer the user's question using this information:".

End SearchContextSpec.

(* ===================================================================== *)
(** ** Turns and flushes, as the specification words them                 *)
(* ===================================================================== *)

Module MemorySpec.
Import Py Mem0Store.

(** The envelope is a dict whose transcript is not empty and ends with a
    user message of text [t]. *)
Definition ends_with_user_text (body : value) (t : string) : Prop :=
  exists (d : dict) (msgs : list value) (last_msg : dict),
    body = VDict d
    /\ dict_get "messages" d = Some (VList (msgs ++ [VDict last_msg]))
    /\ dict_get "role" last_msg = Some (VStr "user")
    /\ dict_get "content" last_msg = Some (VStr t).

(** The plain concatenation of the texts, in order. *)
Definition concatenation (texts : list string) : string := join EmptyString texts.

(** The texts in order, separated by single spaces. *)
Definition spaced (texts : list string) : string := join " " texts.

Definition texts_flushed (fs : list flush) : list string := map flush_text fs.

(** A robust filter whose store has not failed: no failed creation is
    remembered, and a handle, once created, is usable. *)
Definition store_reachable (st : Mem0Robust.state) : Prop :=
  Mem0Robust._init_failed st = false
  /\ Mem0Robust.memory_available st = Mem0Robust.m st.

(** The premises on one call of the robust filter: a user turn with a text
    that is not blank, during which the store answers. *)
Definition good_call (c : Mem0Robust.call) (t : string) : Prop :=
  ends_with_user_text (Mem0Robust.call_body c) t
  /\ strip t <> EmptyString
  /\ init_ok (Mem0Robust.call_env c) = true.

End MemorySpec.

(* ===================================================================== *)
(** ** Vocabulary for the properties of the hooks                         *)
(* ===================================================================== *)

Module HookSpec.
Import Py.

(** The provider call yields a usable answer: status 200 and a body that
    decodes. *)
Definition answers (r : Perplexity.reply) : bool :=
  match r with
  | Perplexity.Response 200 (Return _) => true
  | _ => false
  end.

(** The value is no [str]. *)
Definition not_str (v : value) : Prop := forall s : string, v <> VStr s.

(** [s.rstrip()] on the characters *)
Definition rstrip_chars (l : list ascii) : list ascii := rev (lstrip_chars (rev l)).

(** What the text [c] becomes when it is cut at [max] characters. *)
Definition cut (max : Z) (c : string) : string :=
  if max <? len c then str_slice_to max c ++ "..." else c.

(** A message that the loop of the robust memory filter passes over: a
    dict whose role is not ["user"] or whose content is not true. *)
Definition passed_over (msg : value) : Prop :=
  exists d : dict,
    msg = VDict d
    /\ (get_or "role" VNone d <> VStr "user"
        \/ truthy (get_or "content" VNone d) = false).

(** The options [v] with another keyword list. *)
Definition with_keywords (ks : list string) (v : Perplexity.Valves) : Perplexity.Valves := {|
  Perplexity.perplexity_api_key := Perplexity.perplexity_api_key v;
  Perplexity.enable_auto_search := Perplexity.enable_auto_search v;
  Perplexity.enable_manual_search := Perplexity.enable_manual_search v;
  Perplexity.search_trigger_keywords := ks;
  Perplexity.max_search_results := Perplexity.max_search_results v;
  Perplexity.include_citations := Perplexity.include_citations v;
  Perplexity.citation_format := Perplexity.citation_format v;
  Perplexity.search_context_template := Perplexity.search_context_template v;
|}.

End HookSpec.

(* ===================================================================== *)
(** ** Closed instances of the parameters and concrete inputs             *)
(* ===================================================================== *)

Module Examples.
Import Py.

(** A runtime whose JSON decoder knows the documents of a table and
    rejects every other text. *)
Definition table_loads (docs : list (string * value)) (s : string) : outcome value :=
  match find (fun kv => String.eqb (fst kv) s) docs with
  | Some kv => Return (snd kv)
  | None => Raise JSONDecodeError
  end.

Definition table_runtime (docs : list (string * value)) : Runtime := {|
  json_loads := table_loads docs;
  repr := fun _ => "<repr>";
  format_ext := fun _ _ _ => Raise ValueError;
|}.

Definition empty_object : list (string * value) := [("{}", VDict [])].

(** A stand-in for the digest, for examples that do not anonymize. *)
Definition plain_digest (s : string) : string := s.

Definition message (role content : string) : value :=
  VDict [("role", VStr role); ("content", VStr content)].

(** An envelope with no message. *)
Definition empty_envelope : dict :=
  [("model", VStr "llama"); ("messages", VList [])].

(** *** Search augmentation *)

Definition weather_message : string := "Can you search: what is the weather today".

Definition manual_off : Perplexity.Valves := {|
  Perplexity.perplexity_api_key := EmptyString;
  Perplexity.enable_auto_search := true;
  Perplexity.enable_manual_search := false;
  Perplexity.search_trigger_keywords := Perplexity.default_keywords;
  Perplexity.max_search_results := 5;
  Perplexity.include_citations := true;
  Perplexity.citation_format := "markdown";
  Perplexity.search_context_template := Perplexity.default_template;
|}.

(** The default options with an API key. *)
Definition keyed : Perplexity.Valves := {|
  Perplexity.perplexity_api_key := "pplx-key";
  Perplexity.enable_auto_search := true;
  Perplexity.enable_manual_search := true;
  Perplexity.search_trigger_keywords := Perplexity.default_keywords;
  Perplexity.max_search_results := 5;
  Perplexity.include_citations := true;
  Perplexity.citation_format := "markdown";
  Perplexity.search_context_template := Perplexity.default_template;
|}.

Definition france_question : string := "What is the capital of France?".

Definition france_envelope : dict :=
  [("messages", VList [message "user" france_question])].

Definition paris_result : dict :=
  [("choices",
    VList [VDict [("message", VDict [("role", VStr "assistant");
                                     ("content", VStr "Paris is the capital.")])]]);
   ("citations", VList [VStr "wiki.org"])].

(** The stubbed provider: one answer, whatever the query. *)
Definition paris_provider : Perplexity.provider :=
  fun _ => Perplexity.Response 200 (Return (VDict paris_result)).

(** The options [keyed] with the citations switched off. *)
Definition citations_off : Perplexity.Valves := {|
  Perplexity.perplexity_api_key := "pplx-key";
  Perplexity.enable_auto_search := true;
  Perplexity.enable_manual_search := true;
  Perplexity.search_trigger_keywords := Perplexity.default_keywords;
  Perplexity.max_search_results := 5;
  Perplexity.include_citations := false;
  Perplexity.citation_format := "markdown";
  Perplexity.search_context_template := Perplexity.default_template;
|}.

(** The options [keyed] with a template that names another field. *)
Definition other_field : Perplexity.Valves := {|
  Perplexity.perplexity_api_key := "pplx-key";
  Perplexity.enable_auto_search := true;
  Perplexity.enable_manual_search := true;
  Perplexity.search_trigger_keywords := Perplexity.default_keywords;
  Perplexity.max_search_results := 5;
  Perplexity.include_citations := true;
  Perplexity.citation_format := "markdown";
  Perplexity.search_context_template := "Results: {results}";
|}.

(** A provider that answers 200 with an empty content and no citation. *)
Definition silent_provider : Perplexity.provider :=
  fun _ =>
    Perplexity.Response 200
      (Return (VDict [("choices",
                       VList [VDict [("message",
                                      VDict [("role", VStr "assistant");
                                             ("content", VStr EmptyString)])]]);
                      ("citations", VList [])])).

(** *** Observability *)

(** The double 2.0 *)
Definition two : spec_float := S754_finite false 4503599627370496 (-51).

(** The SDK when every call returns, during a hook call that starts [t]
    milliseconds after the epoch: the three later readings of the clock
    are the doubles nearest to [t], [t + 1] and [t + 2] milliseconds. *)
Definition sdk_up (t : Z) : Langfuse.env := {|
  Langfuse.now := t;
  Langfuse.now_start_times := nearest_double t 1000;
  Langfuse.now_start_time := nearest_double (t + 1) 1000;
  Langfuse.now_end_time := nearest_double (t + 2) 1000;
  Langfuse.trace_ok := true;
  Langfuse.generation_ok := true;
  Langfuse.input_usage := None;
  Langfuse.end_ok := true;
|}.

(** A started pipeline: the SDK is importable and the client exists. *)
Definition tracking : Langfuse.state := {|
  Langfuse.LANGFUSE_AVAILABLE := true;
  Langfuse.langfuse := true;
  Langfuse.active_traces := ∅;
  Langfuse.start_times := ∅;
  Langfuse.finished := [];
|}.

Definition turn_request : dict :=
  [("conversation_id", VStr "c1"); ("model", VStr "llama");
   ("messages", VList [message "user" "hi"])].

(** A response whose message has no text, as for a tool call. *)
Definition null_content_response : dict :=
  [("conversation_id", VStr "c1");
   ("choices",
    VList [VDict [("message", VDict [("role", VStr "assistant"); ("content", VNone)])]])].

Definition text_response : dict :=
  [("conversation_id", VStr "c1");
   ("choices",
    VList [VDict [("message", VDict [("role", VStr "assistant"); ("content", VStr "hello")])]])].

(** The SDK when [langfuse.trace] raises. *)
Definition sdk_trace_down (t : Z) : Langfuse.env := {|
  Langfuse.now := t;
  Langfuse.now_start_times := nearest_double t 1000;
  Langfuse.now_start_time := nearest_double (t + 1) 1000;
  Langfuse.now_end_time := nearest_double (t + 2) 1000;
  Langfuse.trace_ok := false;
  Langfuse.generation_ok := true;
  Langfuse.input_usage := None;
  Langfuse.end_ok := true;
|}.

(** The default options with anonymization of the user. *)
Definition anonymizing : Langfuse.Valves := {|
  Langfuse.langfuse_secret_key := EmptyString;
  Langfuse.langfuse_public_key := EmptyString;
  Langfuse.enable_tracking := true;
  Langfuse.enable_cost_tracking := true;
  Langfuse.track_input_tokens := true;
  Langfuse.track_output_tokens := true;
  Langfuse.track_model_parameters := true;
  Langfuse.anonymize_user_data := true;
  Langfuse.exclude_system_messages := false;
  Langfuse.max_content_length := 10000;
  Langfuse.cost_per_input_token := nearest_double 1 1000000;
  Langfuse.cost_per_output_token := nearest_double 2 1000000;
|}.

(** *** Memory *)

Definition store_up : Mem0Store.env := {|
  Mem0Store.init_ok := true;
  Mem0Store.search := fun _ _ _ => Return [];
|}.

Definition user_named (name : string) : dict := [("id", VStr name)].

(** An envelope of the session [chat_id] whose last message is [text]. *)
Definition turn (chat_id text : string) : value :=
  VDict [("chat_id", VStr chat_id); ("messages", VList [message "user" text])].

Definition two_cycles : Mem0.Valves := {|
  Mem0.store_cycles := 2;
  Mem0.mem_zero_user := "bailey";
  Mem0.enable_memory_storage := true;
  Mem0.enable_memory_retrieval := true;
  Mem0.max_memories_retrieved := 3;
  Mem0.memory_relevance_threshold := nearest_double 7 10;
  Mem0.memory_context_template := Mem0.memory_context_template Mem0.default_valves;
|}.

Definition call_of (chat_id user text : string) : Mem0.call := {|
  Mem0.call_env := store_up;
  Mem0.call_body := turn chat_id text;
  Mem0.call_user := Some (user_named user);
|}.

Definition robust_call_of (chat_id user text : string) : Mem0Robust.call := {|
  Mem0Robust.call_env := store_up;
  Mem0Robust.call_body := turn chat_id text;
  Mem0Robust.call_user := Some (user_named user);
|}.

Definition robust_two_cycles : Mem0Robust.Valves := {|
  Mem0Robust.store_cycles := 2;
  Mem0Robust.mem_zero_user := "bailey";
  Mem0Robust.enable_memory_storage := true;
  Mem0Robust.enable_memory_search := true;
|}.

(** A store that cannot be created. *)
Definition store_down : Mem0Store.env := {|
  Mem0Store.init_ok := false;
  Mem0Store.search := fun _ _ _ => Raise ExternalError;
|}.



Definition tea_envelope : dict :=
  [("chat_id", VStr "s1"); ("messages", VList [message "user" "what do I drink?"])].

(** A transcript whose last user message is followed by an answer. *)
Definition answered_envelope : dict :=
  [("messages", VList [message "user" " tea "; message "assistant" "noted"])].

(** The first memory filter with one pending text and no handle yet. *)
Definition one_pending : Mem0.state := {|
  Mem0.user_messages := [VStr "a"];
  Mem0.m := false;
  Mem0.dispatched := [];
|}.

(** The first memory filter with one pending entry that is a list of
    content parts, not a text. *)
Definition parts_pending : Mem0.state := {|
  Mem0.user_messages := [VList [VStr "a picture"]];
  Mem0.m := false;
  Mem0.dispatched := [];
|}.

(** A transcript whose latest user message holds two spaces. *)
Definition blank_envelope : dict :=
  [("messages", VList [message "user" "I like tea"; message "user" "  "])].

(** The robust filter after a failed creation of the handle. *)
Definition robust_failed : Mem0Robust.state := {|
  Mem0Robust.user_messages := [];
  Mem0Robust.m := false;
  Mem0Robust.memory_available := false;
  Mem0Robust._init_failed := true;
  Mem0Robust.dispatched := [];
|}.

End Examples.


(* ===================================================================== *)
(** ** Facts about the modelled built-ins                                 *)
(* ===================================================================== *)

Module PyFacts.
Import Py.

Lemma str_chars (s : string) : str (chars s) = s.
Proof. apply string_of_list_ascii_of_string. Qed.

Lemma chars_str (l : list ascii) : chars (str l) = l.
Proof. apply list_ascii_of_string_of_list_ascii. Qed.

Lemma chars_app (s1 s2 : string) : chars (s1 ++ s2) = (chars s1 ++ chars s2)%list.
Proof.
  unfold chars. induction s1 as [|a s1 IH]; [reflexivity|].
  change (String a s1 ++ s2) with (String a (s1 ++ s2)).
  cbn [list_ascii_of_string app]. f_equal. exact IH.
Qed.

Lemma str_app (l1 l2 : list ascii) : str (l1 ++ l2)%list = str l1 ++ str l2.
Proof.
  unfold str. induction l1 as [|a l1 IH]; [reflexivity|].
  cbn [string_of_list_ascii app].
  change (String a (string_of_list_ascii l1) ++ string_of_list_ascii l2)
    with (String a (string_of_list_ascii l1 ++ string_of_list_ascii l2)).
  f_equal. exact IH.
Qed.

Lemma append_cons (a : ascii) (s t : string) : String a s ++ t = String a (s ++ t).
Proof. reflexivity. Qed.

Lemma append_assoc (s t u : string) : (s ++ t) ++ u = s ++ t ++ u.
Proof.
  induction s as [|a s IH]; [reflexivity|].
  rewrite !append_cons. f_equal. exact IH.
Qed.

Lemma append_nil_r (s : string) : s ++ EmptyString = s.
Proof.
  induction s as [|a s IH]; [reflexivity|].
  rewrite append_cons. f_equal. exact IH.
Qed.

Lemma truthy_nonempty_str (s : string) : s <> EmptyString -> truthy (VStr s) = true.
Proof. intros Hs. destruct s; [congruence | reflexivity]. Qed.

Lemma truthy_str_app (s t : string) : s <> EmptyString -> truthy (VStr (s ++ t)) = true.
Proof. intros Hs. destruct s; [congruence | reflexivity]. Qed.

Lemma insert_before_last_snoc {A} (x y : A) (l : list A) :
  insert_before_last x (l ++ [y]) = (l ++ [x; y])%list.
Proof.
  induction l as [|z l IH]; [reflexivity|].
  cbn [app insert_before_last]. rewrite IH.
  destruct l; reflexivity.
Qed.

Lemma getitem_last_snoc (l : list value) (x : value) :
  getitem_last (VList (l ++ [x])) = Return x.
Proof. unfold getitem_last. rewrite last_snoc. reflexivity. Qed.

Lemma truthy_snoc (l : list value) (x : value) : truthy (VList (l ++ [x])) = true.
Proof. destruct l; reflexivity. Qed.

Lemma has_key_get (k : string) (d : dict) (x : value) :
  dict_get k d = Some x -> has_key k d = true.
Proof. intros H. unfold has_key. rewrite H. reflexivity. Qed.

Lemma get_or_get (k : string) (d : dict) (x default : value) :
  dict_get k d = Some x -> get_or k default d = x.
Proof. intros H. unfold get_or. rewrite H. reflexivity. Qed.

Lemma length_slice_to {A} (n : Z) (l : list A) :
  0 <= n -> Z.of_nat (length (slice_to n l)) = Z.min n (Z.of_nat (length l)).
Proof.
  intros Hn. unfold slice_to.
  destruct (0 <=? n) eqn:E; [|apply Z.leb_gt in E; lia].
  rewrite length_take. lia.
Qed.

(** *** [str.format] on a template with one replacement field *)

Section Format.
Context `{RT : Runtime}.

Lemma format_go_text name arg out p l :
  plain_text p = true ->
  format_go name arg out None (p ++ l)%list
  = format_go name arg (rev p ++ out)%list None l.
Proof.
  unfold plain_text.
  revert out. induction p as [|a p IH]; intros out Hp; [reflexivity|].
  cbn [forallb] in Hp. apply andb_true_iff in Hp as [Ha Hp].
  apply andb_true_iff in Ha as [Ha1 Ha2].
  apply negb_true_iff in Ha1, Ha2.
  cbn [app format_go]. rewrite Ha1, Ha2. rewrite IH by exact Hp.
  cbn [rev]. rewrite <- app_assoc. reflexivity.
Qed.

Lemma format_go_name name arg out acc n l :
  plain_name n = true ->
  format_go name arg out (Some acc) (n ++ "}"%char :: l)%list
  = format_go name arg out (Some (rev n ++ acc)%list) ("}"%char :: l).
Proof.
  unfold plain_name.
  revert acc. induction n as [|a n IH]; intros acc Hn; [reflexivity|].
  cbn [forallb] in Hn. apply andb_true_iff in Hn as [Ha Hn].
  apply andb_true_iff in Ha as [Ha1 Ha2].
  apply negb_true_iff in Ha1, Ha2.
  cbn [app format_go]. rewrite Ha1, Ha2. rewrite IH by exact Hn.
  cbn [rev]. rewrite <- app_assoc. reflexivity.
Qed.

Lemma format_go_open name arg out a l :
  Ascii.eqb a "{" = false ->
  format_go name arg out None ("{"%char :: a :: l)
  = format_go name arg out (Some []) (a :: l).
Proof.
  intros Ha.
  change (format_go name arg out None ("{"%char :: a :: l))
    with (if Ascii.eqb a "{" then format_go name arg ("{"%char :: out) None l
          else format_go name arg out (Some []) (a :: l)).
  rewrite Ha. reflexivity.
Qed.

Lemma format_go_close name arg out acc l :
  format_go name arg out (Some acc) ("}"%char :: l)
  = if String.eqb (str (rev acc)) (str name)
    then format_go name arg (rev arg ++ out)%list None l
    else if forallb is_digit (rev acc) then
      if ssize_max <? decimal_value (rev acc) then Some (Raise ValueError)
      else Some (Raise IndexError)
    else Some (Raise KeyError).
Proof. reflexivity. Qed.

(** A template [pre{name}post] with no other brace formats to [pre], the
    argument, [post]. *)
Lemma format_one_field (pre post name : string) (arg : value) :
  plain_text (chars pre) = true ->
  plain_text (chars post) = true ->
  plain_name (chars name) = true ->
  name <> EmptyString ->
  format (pre ++ "{" ++ name ++ "}" ++ post) name arg
  = Return (pre ++ str_of arg ++ post).
Proof.
  intros Hpre Hpost Hname Hne. unfold format.
  rewrite !chars_app. change (chars "{") with ["{"%char].
  change (chars "}") with ["}"%char].
  rewrite format_go_text by exact Hpre.
  cbn [app].
  destruct (chars name) as [|a n] eqn:En.
  { exfalso. apply Hne. rewrite <- (str_chars name), En. reflexivity. }
  assert (Ha : Ascii.eqb a "{" = false).
  { unfold plain_name in Hname. cbn [forallb] in Hname.
    apply andb_true_iff in Hname as [Ha _].
    apply andb_true_iff in Ha as [_ Ha]. apply negb_true_iff in Ha.
    unfold beyond_plain_field in Ha. cbn in Ha.
    apply orb_false_iff in Ha as [Ha _]. exact Ha. }
  change ((a :: n) ++ "}"%char :: chars post)%list
    with (a :: (n ++ "}"%char :: chars post))%list.
  rewrite format_go_open by exact Ha.
  change (a :: (n ++ "}"%char :: chars post))%list
    with ((a :: n) ++ "}"%char :: chars post)%list.
  rewrite format_go_name by exact Hname.
  rewrite format_go_close.
  rewrite app_nil_r, rev_involutive. rewrite String.eqb_refl.
  rewrite <- (app_nil_r (chars post)) at 1.
  rewrite format_go_text by exact Hpost.
  cbn [format_go mbind outcome_bind]. f_equal.
  rewrite !rev_app_distr, !rev_involutive.
  rewrite !str_app, !str_chars. cbn [rev]. change (str []) with EmptyString.
  rewrite !append_assoc. reflexivity.
Qed.

End Format.

End PyFacts.
(* ===================================================================== *)
(** ** Properties of the search augmentation filter                       *)
(* ===================================================================== *)

Module PerplexityProps.
Import Py Perplexity Examples.

(** C3.  On the message "Can you search: what is the weather today" the
    trigger decision fires, and [_clean_search_query] removes the leading
    filler "Can you" only: the manual prefix "search:" is looked for at
    the start of the text, before the filler is removed, so it is still in
    the cleaned query. *)
Theorem clean_query_keeps_manual_prefix :
  _should_perform_search default_valves (VStr weather_message) = Return true
  /\ _clean_search_query weather_message = "search: what is the weather today"
  /\ contains "search:" (_clean_search_query weather_message) = true.
Proof. vm_compute. repeat split; reflexivity. Qed.

(** The two substitutions in the other order remove both. *)
Lemma filler_then_prefix_removes_both :
  strip (re_sub_delete true manual_prefix
           (re_sub_delete true filler_prefix weather_message))
  = "what is the weather today".
Proof. vm_compute. reflexivity. Qed.

(** A prefix that does start the text is removed, with the filler that
    follows it. *)
Lemma clean_query_prefix_first :
  _clean_search_query "search: can you tell me the weather" = "tell me the weather".
Proof. vm_compute. reflexivity. Qed.

(** C4.  With the default options "search: latest AI news" triggers a
    search; with the manual trigger disabled, "hello there" does not,
    whatever the automatic switch and for every keyword list none of whose
    keywords occurs in it. *)
Theorem trigger_decision_examples :
  _should_perform_search default_valves (VStr "search: latest AI news") = Return true
  /\ (forall v : Valves,
        enable_manual_search v = false ->
        existsb (fun keyword => contains keyword "hello there")
                (search_trigger_keywords v) = false ->
        _should_perform_search v (VStr "hello there") = Return false).
Proof.
  split; [vm_compute; reflexivity|].
  intros v Hmanual Hkeywords. unfold _should_perform_search.
  rewrite Hmanual. simpl negb. rewrite andb_true_r. simpl andb.
  destruct (enable_auto_search v); simpl; [|reflexivity].
  change (lower "hello there") with "hello there".
  rewrite Hkeywords. vm_compute. reflexivity.
Qed.

Lemma trigger_decision_examples_witness :
  _should_perform_search default_valves (VStr "search: latest AI news") = Return true
  /\ _should_perform_search manual_off (VStr "hello there") = Return false.
Proof.
  split.
  - apply trigger_decision_examples.
  - apply (proj2 trigger_decision_examples manual_off); vm_compute; reflexivity.
Defined.

Section WithRuntime.
Context `{RT : Runtime}.
Import PyFacts SearchContextSpec.

Lemma join_empty_cons (x : string) (l : list string) :
  join EmptyString (x :: l) = x ++ join EmptyString l.
Proof.
  destruct l; cbn [join]; [rewrite append_nil_r|]; reflexivity.
Qed.

(** The loop of [_format_search_results] writes the lines of the
    specification. *)
Lemma citation_lines_block (style : string) (i : Z) (cs : list string) :
  citation_lines (String.eqb style "numbered") i (map VStr cs)
  = join EmptyString (citation_block style i cs).
Proof.
  revert i. induction cs as [|c cs IH]; intros i; [reflexivity|].
  cbn [map citation_lines citation_block]. rewrite join_empty_cons, IH.
  unfold citation_line. cbn [str_of].
  destruct (String.eqb style "numbered"); reflexivity.
Qed.

Lemma format_search_results_text (v : Valves) (c : string) (cs : list string) :
  include_citations v = true ->
  citation_format v = "markdown" \/ citation_format v = "numbered" ->
  _format_search_results v (VStr c) (VList (map VStr cs))
  = Return (VStr (search_results_text (citation_format v) (max_search_results v) c cs)).
Proof.
  intros Hinc Hstyle. unfold _format_search_results, search_results_text.
  rewrite Hinc. destruct cs as [|c0 cs]; [reflexivity|].
  assert (Hslice : forall l : list string,
             slice_to (max_search_results v) (map VStr l)
             = map VStr (slice_to (max_search_results v) l)).
  { intros l. unfold slice_to. rewrite length_map.
    destruct (0 <=? max_search_results v); rewrite <- firstn_map; reflexivity. }
  change (truthy (VList (map VStr (c0 :: cs)))) with true.
  cbn [andb slice_items mbind outcome_bind]. rewrite Hslice.
  destruct Hstyle as [-> | ->].
  - change (String.eqb "markdown" "markdown") with true. cbv iota.
    cbn [mbind outcome_bind].
    rewrite (citation_lines_block "markdown"). reflexivity.
  - change (String.eqb "numbered" "markdown") with false.
    change (String.eqb "numbered" "numbered") with true. cbv iota.
    cbn [mbind outcome_bind].
    rewrite (citation_lines_block "numbered"). reflexivity.
Qed.

(** What [_format_search_results] returns on a text content and text
    citations, under every configuration: the citations are written when
    they are included and the style is one of the two that the code
    knows. *)
Lemma format_search_results_any (v : Valves) (c : string) (cs : list string) :
  _format_search_results v (VStr c) (VList (map VStr cs))
  = Return (VStr (if include_citations v
                     && (String.eqb (citation_format v) "markdown"
                         || String.eqb (citation_format v) "numbered")
                  then search_results_text (citation_format v) (max_search_results v) c cs
                  else c)).
Proof.
  destruct (include_citations v) eqn:Hinc;
    [|unfold _format_search_results; rewrite Hinc; reflexivity].
  cbn [andb].
  destruct (String.eqb (citation_format v) "markdown") eqn:Hmd.
  - apply String.eqb_eq in Hmd. cbn [orb].
    apply format_search_results_text; [exact Hinc | left; exact Hmd].
  - destruct (String.eqb (citation_format v) "numbered") eqn:Hnum.
    + apply String.eqb_eq in Hnum. cbn [orb].
      apply format_search_results_text; [exact Hinc | right; exact Hnum].
    + cbn [orb]. unfold _format_search_results. rewrite Hinc, Hmd, Hnum.
      destruct (truthy (VList (map VStr cs))); reflexivity.
Qed.

(** *** Occurrences *)

Lemma starts_with_app (p l : list ascii) : starts_with p (p ++ l)%list = true.
Proof.
  induction p as [|a p IH]; [reflexivity|].
  cbn [app starts_with]. rewrite Ascii.eqb_refl, IH. reflexivity.
Qed.

Lemma contains_chars_middle (l1 p l2 : list ascii) :
  contains_chars p (l1 ++ p ++ l2)%list = true.
Proof.
  induction l1 as [|a l1 IH].
  - cbn [app]. destruct (p ++ l2)%list eqn:E; cbn [contains_chars];
      rewrite <- E, starts_with_app; reflexivity.
  - cbn [app contains_chars]. rewrite IH. apply orb_true_r.
Qed.

Lemma contains_middle (s1 p s2 : string) : contains p (s1 ++ p ++ s2) = true.
Proof.
  unfold contains. rewrite !chars_app. apply contains_chars_middle.
Qed.

(** The line of the citation at position [i] of [l] is a part of the
    lines of [l]. *)
Lemma citation_block_line (style : string) (k : Z) (l : list string) (i : nat)
    (citation : string) :
  nth_error l i = Some citation ->
  exists before after : string,
    join EmptyString (citation_block style k l)
    = before ++ citation_line style (k + Z.of_nat i) citation ++ after.
Proof.
  revert k i. induction l as [|x l IH]; intros k i Hi; [destruct i; discriminate Hi|].
  cbn [citation_block]. rewrite join_empty_cons. destruct i as [|i].
  - injection Hi as ->. exists EmptyString, (join EmptyString (citation_block style (k + 1) l)).
    rewrite Z.add_0_r. reflexivity.
  - destruct (IH (k + 1) i Hi) as (before & after & ->).
    exists (citation_line style k x ++ before), after.
    replace (k + 1 + Z.of_nat i) with (k + Z.of_nat (S i)) by lia.
    rewrite append_assoc. reflexivity.
Qed.

(** C5, as the code has it.  The trigger decision fires on the last
    message, an API key is configured, the provider answers 200 with a
    text content [c] and the text citations [cs], and the template is
    [pre{search_results}suf] with no other brace (the default template is
    one).  The text of the results is [c], followed, when citations are
    included, the style is "markdown" or "numbered" and [cs] is not empty,
    by a title and one line for each of the first [max_search_results]
    citations, written in that style.  When that text is not empty,
    [inlet] puts exactly one new message in the transcript, immediately
    before the last message: the dict with the role "system" and the
    content [pre], the text, [suf]; no other message and no other key
    changes.  The content holds [c], and the line of every citation that is
    shown.  When the text is empty nothing is inserted. *)
Theorem search_context_inserted
    (v : Valves) (post : provider) (user : option dict)
    (d : dict) (msgs : list value) (last_msg : dict) (q : string)
    (result choice message : dict) (choices : list value)
    (c : string) (cs : list string) (pre suf : string) :
  search_context_template v = pre ++ "{search_results}" ++ suf ->
  plain_text (chars pre) = true ->
  plain_text (chars suf) = true ->
  perplexity_api_key v <> EmptyString ->
  dict_get "messages" d = Some (VList (msgs ++ [VDict last_msg])) ->
  dict_get "content" last_msg = Some (VStr q) ->
  _should_perform_search v (VStr q) = Return true ->
  post (_clean_search_query q) = Response 200 (Return (VDict result)) ->
  dict_get "choices" result = Some (VList (VDict choice :: choices)) ->
  dict_get "message" choice = Some (VDict message) ->
  dict_get "content" message = Some (VStr c) ->
  dict_get "citations" result = Some (VList (map VStr cs)) ->
  let style := citation_format v in
  let cited :=
    include_citations v && (String.eqb style "markdown" || String.eqb style "numbered") in
  let shown := slice_to (max_search_results v) cs in
  let text := if cited then search_results_text style (max_search_results v) c cs else c in
  let context := pre ++ text ++ suf in
  (text <> EmptyString ->
   inlet v post (VDict d) user
   = Return (VDict (dict_set "messages"
                      (VList (msgs ++ [VDict [("role", VStr "system");
                                              ("content", VStr context)];
                                       VDict last_msg])) d)))
  /\ (text = EmptyString -> inlet v post (VDict d) user = Return (VDict d))
  /\ contains c context = true
  /\ (cited = true ->
      forall (i : nat) (citation : string),
        nth_error shown i = Some citation ->
        contains (citation_line style (Z.of_nat i + 1) citation) context = true)
  /\ length (citation_block style 1 shown) = length shown
  /\ (0 <= max_search_results v ->
      Z.of_nat (length shown) = Z.min (max_search_results v) (Z.of_nat (length cs))).
Proof.
  intros Htemplate Hpre Hsuf Hkey Hmsgs Hq Hfire Hpost Hchoices Hmessage Hc Hcs.
  cbv zeta.
  set (cited := include_citations v
                && (String.eqb (citation_format v) "markdown"
                    || String.eqb (citation_format v) "numbered")).
  set (text := if cited
               then search_results_text (citation_format v) (max_search_results v) c cs
               else c).
  assert (Hrun : inlet v post (VDict d) user
                 = Return
                     (try_except
                        (if truthy (VStr text)
                         then all_messages' ←
                                _add_search_context v (VList (msgs ++ [VDict last_msg]))
                                  (VStr text);
                              Return (with_messages (VDict d) all_messages')
                         else Return (VDict d))
                        (VDict d))).
  { unfold inlet. cbn [mbind outcome_bind getattr_get].
    rewrite (get_or_get _ _ _ _ Hmsgs), truthy_snoc. cbn [negb].
    rewrite getitem_last_snoc. cbn [mbind outcome_bind getattr_get].
    rewrite (get_or_get _ _ _ _ Hq), Hfire. cbn [mbind outcome_bind].
    rewrite (truthy_nonempty_str _ Hkey). cbn [andb].
    unfold _perform_search. cbn [mbind outcome_bind]. rewrite Hpost.
    change (200 =? 200) with true. cbv iota. cbn [mbind outcome_bind getitem_key].
    rewrite Hchoices. cbn [mbind outcome_bind getitem_first getitem_key].
    rewrite Hmessage. cbn [mbind outcome_bind getitem_key]. rewrite Hc.
    cbn [mbind outcome_bind getattr_get].
    rewrite (get_or_get _ _ _ _ Hcs), (format_search_results_any v c cs).
    cbn [mbind outcome_bind try_except]. reflexivity. }
  split; [|split; [|split; [|split; [|split]]]].
  - intros Htext. rewrite Hrun, (truthy_nonempty_str _ Htext).
    unfold _add_search_context. rewrite Htemplate.
    change (pre ++ "{search_results}" ++ suf)
      with (pre ++ "{" ++ "search_results" ++ "}" ++ suf).
    rewrite (format_one_field pre suf "search_results" _ Hpre Hsuf)
      by (reflexivity || discriminate).
    cbn [mbind outcome_bind try_except str_of].
    rewrite insert_before_last_snoc. unfold with_messages.
    rewrite (has_key_get _ _ _ Hmsgs). reflexivity.
  - intros Htext. rewrite Hrun, Htext. reflexivity.
  - subst text. destruct cited.
    + unfold search_results_text. destruct cs as [|c0 cs'].
      * rewrite <- (append_nil_r (c ++ suf)), append_assoc. apply contains_middle.
      * rewrite !append_assoc. apply contains_middle.
    + rewrite <- (append_nil_r (c ++ suf)), append_assoc. apply contains_middle.
  - intros Hcited i citation Hi. subst text. rewrite Hcited.
    unfold search_results_text. destruct cs as [|c0 cs'].
    { unfold slice_to in Hi. destruct (0 <=? max_search_results v);
        rewrite firstn_nil in Hi; destruct i; discriminate Hi. }
    destruct (citation_block_line (citation_format v) 1 _ i citation Hi)
      as (before & after & ->).
    replace (1 + Z.of_nat i) with (Z.of_nat i + 1) by lia.
    set (line := citation_line (citation_format v) (Z.of_nat i + 1) citation).
    replace (pre ++ (c ++ nl ++ nl ++ sources_title (citation_format v) ++ nl
                     ++ before ++ line ++ after) ++ suf)
      with ((pre ++ c ++ nl ++ nl ++ sources_title (citation_format v) ++ nl ++ before)
            ++ line ++ (after ++ suf))
      by (rewrite !append_assoc; reflexivity).
    apply contains_middle.
  - generalize 1. induction (slice_to (max_search_results v) cs) as [|x l IH];
      intros i; [reflexivity|]. cbn [citation_block length]. rewrite IH. reflexivity.
  - intros Hmax. apply length_slice_to, Hmax.
Qed.

End WithRuntime.

(** The end-to-end example of C5, evaluated: the new system message comes
    first, the question second; the message holds the answer and the line
    of the citation. *)
Lemma search_context_inserted_witness :
  let context :=
    SearchContextSpec.context_header ++ "Paris is the capital." ++ nl ++ nl
    ++ "**Sources:**" ++ nl ++ "1. wiki.org" ++ nl
    ++ SearchContextSpec.context_footer in
  inlet (RT := table_runtime empty_object) keyed paris_provider
    (VDict france_envelope) None
  = Return (VDict [("messages",
                    VList [VDict [("role", VStr "system"); ("content", VStr context)];
                           message "user" france_question])])
  /\ contains "Paris is the capital." context = true
  /\ contains ("1. wiki.org" ++ nl) context = true.
Proof.
  cbv zeta. split; [|split; vm_compute; reflexivity].
  apply (proj1 (search_context_inserted (RT := table_runtime empty_object)
                  keyed paris_provider None france_envelope []
                  [("role", VStr "user"); ("content", VStr france_question)]
                  france_question paris_result
                  [("message", VDict [("role", VStr "assistant");
                                      ("content", VStr "Paris is the capital.")])]
                  [("role", VStr "assistant"); ("content", VStr "Paris is the capital.")]
                  [] "Paris is the capital." ["wiki.org"]
                  SearchContextSpec.context_header SearchContextSpec.context_footer
                  eq_refl eq_refl eq_refl ltac:(discriminate) eq_refl eq_refl eq_refl
                  eq_refl eq_refl eq_refl eq_refl eq_refl)).
  discriminate.
Defined.

(** C5 as the specification words it fails in three ways, each with the
    search triggered and the provider answering 200.  With citations
    switched off, the inserted message holds the answer and no line for
    "wiki.org".  When the provider returns an empty content and no
    citation, no message is inserted.  With a template that names another
    field, ["Results: {results}"], no message is inserted either. *)
Lemma search_context_without_citation_line :
  let context :=
    SearchContextSpec.context_header ++ "Paris is the capital."
    ++ SearchContextSpec.context_footer in
  inlet (RT := table_runtime empty_object) citations_off paris_provider
    (VDict france_envelope) None
  = Return (VDict [("messages",
                    VList [VDict [("role", VStr "system"); ("content", VStr context)];
                           message "user" france_question])])
  /\ contains "wiki.org" context = false
  /\ inlet (RT := table_runtime empty_object) keyed silent_provider
       (VDict france_envelope) None
     = Return (VDict france_envelope)
  /\ inlet (RT := table_runtime empty_object) other_field paris_provider
       (VDict france_envelope) None
     = Return (VDict france_envelope).
Proof.
  vm_compute. repeat split.
Qed.

End PerplexityProps.

(* ===================================================================== *)
(** ** Properties of the observability filter                             *)
(* ===================================================================== *)

Module LangfuseProps.
Import Py Langfuse Examples.

(** C6.  [_estimate_tokens] is the length divided by 4, rounded down, so
    "abcd" gives 1 and the empty text 0; at the default rates 1_000_000
    input tokens and 500_000 output tokens cost 2.0 after the rounding to
    6 decimals. *)
Theorem token_estimate_and_default_cost :
  (forall s : string, _estimate_tokens (VStr s) = Return (Z.of_nat (String.length s) / 4))
  /\ _estimate_tokens (VStr "abcd") = Return 1
  /\ _estimate_tokens (VStr EmptyString) = Return 0
  /\ _calculate_cost default_valves (Some 1000000) (Some 500000) = Return (Some two)
  /\ two = nearest_double 2 1.
Proof.
  split; [intros s; reflexivity|].
  vm_compute. repeat split; reflexivity.
Qed.

Section WithRuntime.
Context `{RT : Runtime} (sha256_hexdigest : string -> string).

(** A true value under ["conversation_id"] is the key, whatever else the
    envelope holds. *)
Lemma conversation_id_preferred v now d user cid :
  dict_get "conversation_id" d = Some cid ->
  truthy cid = true ->
  _get_conversation_id sha256_hexdigest v now (VDict d) user = Return (str_of cid).
Proof.
  intros Hget Htrue. unfold _get_conversation_id, getattr_get, get_or.
  rewrite Hget. simpl. unfold or_else. rewrite Htrue. simpl. rewrite Htrue.
  reflexivity.
Qed.

(** Without one, a true value under ["chat_id"] is the key. *)
Lemma chat_id_preferred v now d user cid :
  truthy (get_or "conversation_id" VNone d) = false ->
  dict_get "chat_id" d = Some cid ->
  truthy cid = true ->
  _get_conversation_id sha256_hexdigest v now (VDict d) user = Return (str_of cid).
Proof.
  intros Hnone Hget Htrue. unfold _get_conversation_id, getattr_get.
  simpl. unfold or_else. rewrite Hnone.
  replace (get_or "chat_id" VNone d) with cid by (unfold get_or; rewrite Hget; reflexivity).
  rewrite Htrue. simpl. reflexivity.
Qed.

(** When neither key holds a true value the key is synthesized from the
    user id and the second. *)
Lemma conversation_id_synthesized v now d user :
  truthy (get_or "conversation_id" VNone d) = false ->
  truthy (get_or "chat_id" VNone d) = false ->
  _get_conversation_id sha256_hexdigest v now (VDict d) user
  = Return (str_of (_get_user_id sha256_hexdigest v user) ++ "_" ++ str_of_int (seconds now)).
Proof.
  intros H1 H2. unfold _get_conversation_id, getattr_get. simpl.
  unfold or_else. rewrite H1, H2. simpl. reflexivity.
Qed.

(** The whole second of a reading of [k] seconds and some milliseconds. *)
Lemma seconds_of_reading (k t : Z) :
  0 <= k -> 1000 * k <= t < 1000 * (k + 1) -> seconds t = k.
Proof.
  intros Hk Ht. unfold seconds. rewrite Z.quot_div_nonneg by lia.
  symmetry. apply (Z.div_unique t 1000 k (t - 1000 * k)); lia.
Qed.

(** C7, as the code has it.  The key is the same for two calls with the
    same envelope and user record whose clock readings fall in the same
    whole second [k] (both lie in the 1000 milliseconds that start at
    [1000 * k]).  A value under ["conversation_id"] that is true (a text
    that is not empty, a number other than zero) is the key, in its string
    form, whatever the clock; when ["conversation_id"] holds no true
    value, a true value under ["chat_id"] is the key likewise.  When
    neither holds a true value, also when an identifier such as [0] or the
    empty text is there, the key is synthesized: the user id, an
    underscore and the whole second of the reading. *)
Theorem conversation_id_resolution (v : Valves) (body : value) (user : option dict) :
  (forall k t1 t2 : Z,
      0 <= k ->
      1000 * k <= t1 < 1000 * (k + 1) ->
      1000 * k <= t2 < 1000 * (k + 1) ->
      _get_conversation_id sha256_hexdigest v t1 body user
      = _get_conversation_id sha256_hexdigest v t2 body user)
  /\ (forall (d : dict) (now : Z) (cid : value),
        body = VDict d ->
        dict_get "conversation_id" d = Some cid ->
        truthy cid = true ->
        _get_conversation_id sha256_hexdigest v now body user = Return (str_of cid))
  /\ (forall (d : dict) (now : Z) (cid : value),
        body = VDict d ->
        truthy (get_or "conversation_id" VNone d) = false ->
        dict_get "chat_id" d = Some cid ->
        truthy cid = true ->
        _get_conversation_id sha256_hexdigest v now body user = Return (str_of cid))
  /\ (forall (d : dict) (k now : Z),
        body = VDict d ->
        truthy (get_or "conversation_id" VNone d) = false ->
        truthy (get_or "chat_id" VNone d) = false ->
        0 <= k ->
        1000 * k <= now < 1000 * (k + 1) ->
        _get_conversation_id sha256_hexdigest v now body user
        = Return (str_of (_get_user_id sha256_hexdigest v user) ++ "_" ++ str_of_int k)).
Proof.
  split; [|split; [|split]].
  - intros k t1 t2 Hk H1 H2. unfold _get_conversation_id.
    rewrite (seconds_of_reading k t1 Hk H1), (seconds_of_reading k t2 Hk H2).
    reflexivity.
  - intros d now cid -> Hget Htrue.
    apply (conversation_id_preferred v now d user cid Hget Htrue).
  - intros d now cid -> Hnone Hget Htrue.
    apply (chat_id_preferred v now d user cid Hnone Hget Htrue).
  - intros d k now -> Hconv Hchat Hk Hnow.
    rewrite (conversation_id_synthesized v now d user Hconv Hchat).
    rewrite (seconds_of_reading k now Hk Hnow). reflexivity.
Qed.

(** Both hooks hand back the envelope they were given when it is a
    dict. *)
Lemma inlet_returns_dict v e st d user :
  snd (inlet sha256_hexdigest v e st (VDict d) user) = VDict d.
Proof.
  unfold inlet. destruct (_should_track v st); cbn [negb]; [|reflexivity].
  destruct (_get_conversation_id sha256_hexdigest v (now e) (VDict d) user); [|reflexivity].
  destruct (_create_or_get_trace _ _); reflexivity.
Qed.

Lemma outlet_returns_dict v e st d user :
  snd (outlet sha256_hexdigest v e st (VDict d) user) = VDict d.
Proof.
  unfold outlet. destruct (_should_track v st); cbn [negb]; [|reflexivity].
  destruct (_get_conversation_id sha256_hexdigest v (now e) (VDict d) user) as [k|]; [|reflexivity].
  destruct (active_traces st !! k); reflexivity.
Qed.

(** A text that does not decode comes back as it is, from both hooks. *)
Lemma hooks_return_undecodable_text v e st s user :
  json_loads s = Raise JSONDecodeError ->
  inlet sha256_hexdigest v e st (VStr s) user = (st, VStr s)
  /\ outlet sha256_hexdigest v e st (VStr s) user = (st, VStr s).
Proof.
  intros Hs. unfold inlet, outlet.
  destruct (_should_track v st); cbn [negb]; rewrite ?Hs; split; reflexivity.
Qed.

(** [_update_generation] leaves the maps alone when the entry holds no
    generation: the early [return] comes before the clean-up. *)
Lemma update_without_generation v e st k body td :
  active_traces st !! k = Some td ->
  td_generation td = None ->
  _update_generation v e st k body = st.
Proof. intros Hk Hg. unfold _update_generation. rewrite Hk, Hg. reflexivity. Qed.

(** Nor are they touched when the output cannot be extracted, or when
    [generation.end] raises: the [except] clause comes before the
    clean-up. *)
Lemma update_keeps_entries_on_failure v e st k body x :
  _extract_output_content v body = Raise x \/ end_ok e = false ->
  _update_generation v e st k body = st.
Proof.
  intros Hfail. unfold _update_generation.
  destruct (active_traces st !! k) as [td|]; [|reflexivity].
  destruct (td_generation td); [|reflexivity].
  destruct Hfail as [Hout | Hend].
  - rewrite Hout. reflexivity.
  - rewrite Hend. destruct (_extract_output_content v body) as [out|]; [|reflexivity].
    cbn [mbind outcome_bind].
    destruct (if track_output_tokens v then _ else _) as [tokens|]; [|reflexivity].
    cbn [mbind outcome_bind].
    destruct (if enable_cost_tracking v then _ else _); reflexivity.
Qed.

(** When the span is closed the two entries are removed. *)
Lemma update_success_removes_entries v e st k body td g out tokens cost :
  active_traces st !! k = Some td ->
  td_generation td = Some g ->
  _extract_output_content v body = Return out ->
  _estimate_tokens out = Return tokens ->
  _calculate_cost v (Some (default 0 (input_usage e))) (Some tokens) = Return cost ->
  track_output_tokens v = true ->
  enable_cost_tracking v = true ->
  end_ok e = true ->
  active_traces (_update_generation v e st k body) !! k = None
  /\ start_times (_update_generation v e st k body) !! k = None.
Proof.
  intros Hk Hg Hout Htok Hcost Htrack Hcosting Hend.
  unfold _update_generation. rewrite Hk, Hg, Hout. cbn [mbind outcome_bind].
  rewrite Htrack, Htok. cbn [mbind outcome_bind]. rewrite Hcosting.
  replace (match input_usage e with Some n => n | None => 0 end)
    with (default 0 (input_usage e)) by (destruct (input_usage e); reflexivity).
  rewrite Hcost. cbn [mbind outcome_bind]. rewrite Hend. cbn [try_except].
  split; apply lookup_delete_eq.
Qed.

(** C9.  A turn whose request opens a span and whose response carries a
    message without text ([content] is [None]): [len(content)] raises
    inside [_update_generation], the exception is swallowed before the
    clean-up, and after the outbound hook both maps still hold the entry
    of the conversation. *)
Theorem entries_retained_after_outlet :
  let st1 := fst (inlet sha256_hexdigest default_valves (sdk_up 1000) tracking
                    (VDict turn_request) None) in
  let st2 := fst (outlet sha256_hexdigest default_valves (sdk_up 2500) st1
                    (VDict null_content_response) None) in
  _get_conversation_id sha256_hexdigest default_valves 2500 (VDict null_content_response) None = Return "c1"
  /\ is_Some (active_traces st1 !! "c1") /\ is_Some (start_times st1 !! "c1")
  /\ is_Some (active_traces st2 !! "c1") /\ is_Some (start_times st2 !! "c1")
  /\ st2 = st1.
Proof.
  vm_compute. repeat split; try (eexists; reflexivity).
Qed.

(** The same turn with a text in the response is cleaned up. *)
Lemma entries_removed_after_text_response :
  let st1 := fst (inlet sha256_hexdigest default_valves (sdk_up 1000) tracking
                    (VDict turn_request) None) in
  let st2 := fst (outlet sha256_hexdigest default_valves (sdk_up 2500) st1
                    (VDict text_response) None) in
  active_traces st2 !! "c1" = None /\ start_times st2 !! "c1" = None.
Proof. vm_compute. split; reflexivity. Qed.

End WithRuntime.

(** The parts of C7 at work: a synthesized key at two readings of the same
    second, and the two identifiers. *)
Lemma conversation_id_resolution_witness :
  let resolve := _get_conversation_id (RT := table_runtime empty_object)
                   plain_digest default_valves in
  resolve 1000 (VDict empty_envelope) None = resolve 1999 (VDict empty_envelope) None
  /\ resolve 1999 (VDict empty_envelope) None = Return "anonymous_1"
  /\ resolve 1000 (VDict turn_request) None = Return "c1"
  /\ resolve 1000 (VDict [("chat_id", VStr "c7")]) None = Return "c7".
Proof.
  split; [|split; [|split]].
  - apply (proj1 (conversation_id_resolution (RT := table_runtime empty_object)
                    plain_digest default_valves (VDict empty_envelope) None) 1);
      lia.
  - apply (proj2 (proj2 (proj2 (conversation_id_resolution
                                  (RT := table_runtime empty_object)
                                  plain_digest default_valves
                                  (VDict empty_envelope) None)))
             empty_envelope 1 1999).
    + reflexivity.
    + reflexivity.
    + reflexivity.
    + lia.
    + lia.
  - apply (proj1 (proj2 (conversation_id_resolution (RT := table_runtime empty_object)
                           plain_digest default_valves (VDict turn_request) None))
             turn_request 1000 (VStr "c1")).
    + reflexivity.
    + reflexivity.
    + reflexivity.
  - apply (proj1 (proj2 (proj2 (conversation_id_resolution
                                  (RT := table_runtime empty_object)
                                  plain_digest default_valves
                                  (VDict [("chat_id", VStr "c7")]) None)))
             [("chat_id", VStr "c7")] 1000 (VStr "c7")).
    + reflexivity.
    + reflexivity.
    + reflexivity.
    + reflexivity.
Defined.

(** C7 as the specification words it fails on an envelope whose explicit
    identifier is false in Python's sense: with ["conversation_id"] bound
    to [0], or to the empty text, the identifier is not returned and the
    key is synthesized from the user id and the second. *)
Lemma false_identifier_is_not_preferred :
  let resolve := _get_conversation_id (RT := table_runtime empty_object)
                   plain_digest default_valves in
  resolve 1000 (VDict [("conversation_id", VInt 0)]) None = Return "anonymous_1"
  /\ resolve 1000 (VDict [("conversation_id", VInt 0)]) None <> Return "0"
  /\ resolve 1000 (VDict [("conversation_id", VStr EmptyString)]) None
     = Return "anonymous_1"
  /\ resolve 1000 (VDict [("conversation_id", VStr EmptyString)]) None
     <> Return EmptyString.
Proof.
  vm_compute. repeat split; discriminate.
Qed.

End LangfuseProps.

(* ===================================================================== *)
(** ** Properties shared by the hooks of all filters                      *)
(* ===================================================================== *)

Module HookProps.
Import Py Examples.

Section WithRuntime.
Context `{RT : Runtime} (sha256_hexdigest : string -> string).

(** C2.  An envelope (a dict) whose ["messages"] list is empty comes back
    from every hook as it went in, for every user record, every
    configuration and every state of the filter: the memory and search
    filters return before they touch it, the observability filter never
    writes to it. *)
Theorem empty_messages_envelope_unchanged (d : dict) (user : option dict) :
  dict_get "messages" d = Some (VList []) ->
  (forall v post, Perplexity.inlet v post (VDict d) user = Return (VDict d))
  /\ (forall v, Perplexity.outlet v (VDict d) user = Return (VDict d))
  /\ (forall v e st, Mem0.inlet v e st (VDict d) user = (st, Return (VDict d)))
  /\ (forall v e st, Mem0Robust.inlet v e st (VDict d) user = (st, VDict d))
  /\ (forall v e st, snd (Langfuse.inlet sha256_hexdigest v e st (VDict d) user) = VDict d)
  /\ (forall v e st, snd (Langfuse.outlet sha256_hexdigest v e st (VDict d) user) = VDict d).
Proof.
  intros Hempty.
  assert (Hget : get_or "messages" (VList []) d = VList [])
    by (unfold get_or; rewrite Hempty; reflexivity).
  repeat split.
  - intros v post. unfold Perplexity.inlet. cbn [mbind outcome_bind getattr_get].
    rewrite Hget. reflexivity.
  - intros v e st. unfold Mem0.inlet. cbn [getattr_get]. rewrite Hget. reflexivity.
  - intros v e st. unfold Mem0Robust.inlet, has_key, get_or. rewrite Hempty.
    reflexivity.
  - intros v e st. apply LangfuseProps.inlet_returns_dict.
  - intros v e st. apply LangfuseProps.outlet_returns_dict.
Qed.

(** The same holds of an envelope that arrives as a text: the hooks that
    decode it return the decoded envelope, with nothing inserted. *)
Lemma empty_messages_serialized_envelope (s : string) (d : dict) (user : option dict) :
  json_loads s = Return (VDict d) ->
  dict_get "messages" d = Some (VList []) ->
  (forall v post, Perplexity.inlet v post (VStr s) user = Return (VDict d))
  /\ (forall v e st, Mem0.inlet v e st (VStr s) user = (st, Return (VDict d)))
  /\ (forall v e st, Mem0Robust.inlet v e st (VStr s) user = (st, VDict d)).
Proof.
  intros Hs Hempty.
  assert (Hget : get_or "messages" (VList []) d = VList [])
    by (unfold get_or; rewrite Hempty; reflexivity).
  repeat split.
  - intros v post. unfold Perplexity.inlet. rewrite Hs.
    cbn [mbind outcome_bind getattr_get]. rewrite Hget. reflexivity.
  - intros v e st. unfold Mem0.inlet. rewrite Hs. cbn [getattr_get].
    rewrite Hget. reflexivity.
  - intros v e st. unfold Mem0Robust.inlet, has_key, get_or. rewrite Hs, Hempty.
    reflexivity.
Qed.

(** C8.  A body that is a text which does not decode makes the inbound
    hooks of the search filter and of the first memory filter raise:
    [json.loads] is called outside any [try]. *)
Theorem inlet_raises_on_undecodable_text (s : string) (user : option dict) :
  json_loads s = Raise JSONDecodeError ->
  (forall v post, Perplexity.inlet v post (VStr s) user = Raise JSONDecodeError)
  /\ (forall v e st, Mem0.inlet v e st (VStr s) user = (st, Raise JSONDecodeError)).
Proof.
  intros Hs. split.
  - intros v post. unfold Perplexity.inlet. rewrite Hs. reflexivity.
  - intros v e st. unfold Mem0.inlet. rewrite Hs. reflexivity.
Qed.

(** A text that decodes to something else than a dict makes them raise
    too, at [body.get]. *)
Lemma inlet_raises_on_decoded_list (s : string) (l : list value) (user : option dict) :
  json_loads s = Return (VList l) ->
  (forall v post, Perplexity.inlet v post (VStr s) user = Raise AttributeError)
  /\ (forall v e st, Mem0.inlet v e st (VStr s) user = (st, Raise AttributeError)).
Proof.
  intros Hs. split.
  - intros v post. unfold Perplexity.inlet. rewrite Hs. reflexivity.
  - intros v e st. unfold Mem0.inlet. rewrite Hs. reflexivity.
Qed.

(** The robust memory filter and the observability filter return on the
    same input, with the text as it came. *)
Lemma guarded_hooks_return_undecodable_text (s : string) (user : option dict) :
  json_loads s = Raise JSONDecodeError ->
  (forall v e st, Mem0Robust.inlet v e st (VStr s) user = (st, VStr s))
  /\ (forall v e st, Langfuse.inlet sha256_hexdigest v e st (VStr s) user = (st, VStr s))
  /\ (forall v e st, Langfuse.outlet sha256_hexdigest v e st (VStr s) user = (st, VStr s)).
Proof.
  intros Hs. repeat split; intros v e st.
  - unfold Mem0Robust.inlet. rewrite Hs. reflexivity.
  - apply (LangfuseProps.hooks_return_undecodable_text sha256_hexdigest v e st s user Hs).
  - apply (LangfuseProps.hooks_return_undecodable_text sha256_hexdigest v e st s user Hs).
Qed.

End WithRuntime.

Lemma empty_messages_envelope_unchanged_witness :
  dict_get "messages" empty_envelope = Some (VList [])
  /\ Perplexity.inlet (RT := table_runtime empty_object) keyed paris_provider
       (VDict empty_envelope) None
     = Return (VDict empty_envelope)
  /\ Mem0.inlet (RT := table_runtime empty_object) two_cycles store_up Mem0.initial
       (VDict empty_envelope) None
     = (Mem0.initial, Return (VDict empty_envelope)).
Proof.
  split; [reflexivity|]. split.
  - apply (empty_messages_envelope_unchanged (RT := table_runtime empty_object)
             plain_digest empty_envelope None); reflexivity.
  - apply (empty_messages_envelope_unchanged (RT := table_runtime empty_object)
             plain_digest empty_envelope None); reflexivity.
Defined.

Lemma inlet_raises_on_undecodable_text_witness :
  json_loads (Runtime := table_runtime empty_object) "not json" = Raise JSONDecodeError
  /\ Perplexity.inlet (RT := table_runtime empty_object) keyed paris_provider
       (VStr "not json") None
     = Raise JSONDecodeError.
Proof.
  split; [reflexivity|].
  apply (inlet_raises_on_undecodable_text (RT := table_runtime empty_object)
           "not json" None); reflexivity.
Defined.

End HookProps.

(* ===================================================================== *)
(** ** Properties of the memory filter                                    *)
(* ===================================================================== *)

Module Mem0Props.
Import Py PyFacts Mem0Store Mem0 MemorySpec Examples.
Local Open Scope list_scope.

Lemma strings_of_texts (texts : list string) :
  strings_of (map VStr texts) = Return texts.
Proof.
  induction texts as [|t texts IH]; [reflexivity|].
  cbn [map strings_of]. rewrite IH. reflexivity.
Qed.

Lemma get_memory_pending e st :
  user_messages (fst (get_memory e st)) = user_messages st
  /\ dispatched (fst (get_memory e st)) = dispatched st.
Proof.
  unfold get_memory. destruct (m st); [split; reflexivity|].
  destruct (init_ok e); split; reflexivity.
Qed.

Lemma get_memory_ok e st :
  init_ok e = true -> snd (get_memory e st) = Return tt.
Proof.
  intros He. unfold get_memory. destruct (m st); [reflexivity|].
  rewrite He. reflexivity.
Qed.

(** [_store_memories] always empties the pending list; it starts one flush
    of the pending texts joined by single spaces when they are all texts
    and the store can be reached. *)
Lemma store_memories_clears e st user_id :
  user_messages (_store_memories e st user_id) = [].
Proof.
  unfold _store_memories. destruct (join_values _ _); [|reflexivity].
  destruct (get_memory e st) as [st1 [[]|x]]; reflexivity.
Qed.

Lemma store_memories_flushes e st user_id texts :
  user_messages st = map VStr texts ->
  init_ok e = true ->
  dispatched (_store_memories e st user_id)
  = dispatched st ++ [{| flush_text := spaced texts; flush_user := user_id |}].
Proof.
  intros Htexts He. unfold _store_memories, join_values.
  rewrite Htexts, strings_of_texts. cbn [mbind outcome_bind].
  pose proof (get_memory_ok e st He) as Hok.
  pose proof (get_memory_pending e st) as [_ Hd].
  destruct (get_memory e st) as [st1 r]. cbn [fst snd] in *. subst r.
  cbn [clear dispatched]. rewrite Hd. reflexivity.
Qed.

Section WithRuntime.
Context `{RT : Runtime}.

Lemma add_memory_context_pending v e st l last_message user_id :
  user_messages (fst (_add_memory_context v e st l last_message user_id)) = user_messages st
  /\ dispatched (fst (_add_memory_context v e st l last_message user_id)) = dispatched st.
Proof.
  unfold _add_memory_context.
  pose proof (get_memory_pending e st) as H.
  destruct (get_memory e st) as [st1 [[]|x]]; exact H.
Qed.

Lemma retrieval_keeps_pending v e st1 l last_message user_id
    (b : bool) (f : list value -> outcome value) (r : outcome value) :
  let st2 := fst (if b
                  then let '(st2, l') :=
                         _add_memory_context v e st1 l last_message user_id in
                       (st2, f l')
                  else (st1, r)) in
  user_messages st2 = user_messages st1 /\ dispatched st2 = dispatched st1.
Proof.
  cbv zeta. destruct b; [|split; reflexivity].
  pose proof (add_memory_context_pending v e st1 l last_message user_id) as H.
  destruct (_add_memory_context _ _ _ _ _ _). exact H.
Qed.

(** The state after the storage part of [inlet], on the pending list
    extended by the text of the turn. *)
Lemma inlet_pending v e st body user t :
  ends_with_user_text body t ->
  enable_memory_storage v = true ->
  let st' := fst (inlet v e st body user) in
  let pending := user_messages st ++ [VStr t] in
  if store_cycles v <=? Z.of_nat (length pending) then
    user_messages st' = []
    /\ dispatched st'
       = dispatched (_store_memories e
                       {| user_messages := pending; m := m st; dispatched := dispatched st |}
                       (user_id_of v user))
  else user_messages st' = pending /\ dispatched st' = dispatched st.
Proof.
  intros (d & msgs & last_msg & -> & Hmsgs & _ & Hcontent) Hstore. cbv zeta.
  unfold inlet. cbn [getattr_get]. rewrite (get_or_get _ _ _ _ Hmsgs), truthy_snoc.
  cbn [negb]. rewrite getitem_last_snoc. cbn [mbind outcome_bind getattr_get].
  rewrite (get_or_get _ _ _ _ Hcontent), Hstore. cbn [user_messages].
  destruct (store_cycles v <=? Z.of_nat (length (user_messages st ++ [VStr t]))).
  - match goal with
    | |- context [_add_memory_context v e ?s ?l ?lm ?u] =>
        destruct (retrieval_keeps_pending v e s l lm u (enable_memory_retrieval v)
                    (fun l' => Return (with_messages (VDict d) (VList l')))
                    (Return (VDict d))) as [-> ->]
    end.
    split; [apply store_memories_clears | reflexivity].
  - match goal with
    | |- context [_add_memory_context v e ?s ?l ?lm ?u] =>
        destruct (retrieval_keeps_pending v e s l lm u (enable_memory_retrieval v)
                    (fun l' => Return (with_messages (VDict d) (VList l')))
                    (Return (VDict d))) as [-> ->]
    end.
    split; reflexivity.
Qed.

Lemma inlet_pending_disabled v e st body user t :
  ends_with_user_text body t ->
  enable_memory_storage v = false ->
  user_messages (fst (inlet v e st body user)) = user_messages st
  /\ dispatched (fst (inlet v e st body user)) = dispatched st.
Proof.
  intros (d & msgs & last_msg & -> & Hmsgs & _ & Hcontent) Hstore.
  unfold inlet. cbn [getattr_get]. rewrite (get_or_get _ _ _ _ Hmsgs), truthy_snoc.
  cbn [negb]. rewrite getitem_last_snoc. cbn [mbind outcome_bind getattr_get].
  rewrite (get_or_get _ _ _ _ Hcontent), Hstore.
  apply (retrieval_keeps_pending v e st _ _ _ (enable_memory_retrieval v)
           (fun l' => Return (with_messages (VDict d) (VList l')))
           (Return (VDict d))).
Qed.

Lemma run_inlets_app v st calls1 calls2 :
  run_inlets v st (calls1 ++ calls2) = run_inlets v (run_inlets v st calls1) calls2.
Proof.
  revert st. induction calls1 as [|c calls1 IH]; intros st; [reflexivity|].
  cbn [app run_inlets]. apply IH.
Qed.

(** Below the threshold the calls only extend the pending list. *)
Lemma run_inlets_accumulates v st calls texts :
  enable_memory_storage v = true ->
  Forall2 (fun c t => ends_with_user_text (call_body c) t) calls texts ->
  Z.of_nat (length (user_messages st) + length calls) < store_cycles v ->
  user_messages (run_inlets v st calls) = user_messages st ++ map VStr texts
  /\ dispatched (run_inlets v st calls) = dispatched st.
Proof.
  intros Hstore Hcalls. revert st.
  induction Hcalls as [|c t calls texts Hc Hcalls IH]; intros st Hlen.
  - cbn [run_inlets map]. rewrite app_nil_r. split; reflexivity.
  - cbn [run_inlets map length] in *.
    pose proof (inlet_pending v (call_env c) st (call_body c) (call_user c) t Hc Hstore)
      as Hstep. cbv zeta in Hstep.
    destruct (store_cycles v <=? Z.of_nat (length (user_messages st ++ [VStr t]))) eqn:E.
    { apply Z.leb_le in E. rewrite length_app in E. cbn [length] in E. lia. }
    destruct Hstep as [Hpending Hdispatched].
    destruct (IH (fst (inlet v (call_env c) st (call_body c) (call_user c)))) as [-> ->].
    { rewrite Hpending, length_app. cbn [length]. lia. }
    rewrite Hpending, Hdispatched, <- app_assoc. split; reflexivity.
Qed.

(** From an empty pending list, after exactly [store_cycles] calls, the
    pending list is empty again and one flush has been started, of the
    texts in arrival order separated by single spaces. *)
Lemma one_flush_after_store_cycles_calls
    (v : Valves) (st : state) (calls : list call) (texts : list string)
    (last_call : call) :
  enable_memory_storage v = true ->
  user_messages st = [] ->
  store_cycles v = Z.of_nat (length calls) ->
  Forall2 (fun c t => ends_with_user_text (call_body c) t) calls texts ->
  last calls = Some last_call ->
  init_ok (call_env last_call) = true ->
  user_messages (run_inlets v st calls) = []
  /\ dispatched (run_inlets v st calls)
     = dispatched st ++ [{| flush_text := spaced texts;
                            flush_user := user_id_of v (call_user last_call) |}].
Proof.
  intros Hstore Hempty Hcycles Hcalls Hlast Hinit.
  apply last_Some in Hlast as [calls0 ->].
  apply Forall2_app_inv_l in Hcalls as (texts0 & texts1 & Hcalls0 & Hlast & ->).
  apply Forall2_cons_inv_l in Hlast as (t & texts2 & Ht & Hnil & ->).
  apply Forall2_nil_inv_l in Hnil as ->.
  rewrite length_app in Hcycles. cbn [length] in Hcycles.
  rewrite run_inlets_app. cbn [run_inlets].
  destruct (run_inlets_accumulates v st calls0 texts0 Hstore Hcalls0) as [Hpending Hdispatched].
  { rewrite Hempty. cbn [length]. lia. }
  rewrite Hempty in Hpending. cbn [app] in Hpending.
  pose proof (inlet_pending v (call_env last_call) (run_inlets v st calls0)
                (call_body last_call) (call_user last_call) t Ht Hstore) as Hstep.
  cbv zeta in Hstep. rewrite Hpending in Hstep.
  destruct (store_cycles v <=? Z.of_nat (length (map VStr texts0 ++ [VStr t]))) eqn:E.
  2:{ apply Z.leb_gt in E. rewrite length_app, length_map in E. cbn [length] in E.
      apply Forall2_length in Hcalls0. lia. }
  destruct Hstep as [-> ->]. split; [reflexivity|].
  rewrite (store_memories_flushes _ _ _ (texts0 ++ [t])).
  - cbn [dispatched]. rewrite Hdispatched. reflexivity.
  - cbn [user_messages]. rewrite map_app. reflexivity.
  - exact Hinit.
Qed.

(** Neither the session id of the envelope nor the user record has a say
    in the texts that are flushed. *)
Lemma store_memories_texts e st uid1 uid2 :
  texts_flushed (dispatched (_store_memories e st uid1))
  = texts_flushed (dispatched (_store_memories e st uid2)).
Proof.
  unfold _store_memories. destruct (join_values _ _); [|reflexivity].
  destruct (get_memory e st) as [st1 [[]|x]]; [|reflexivity].
  cbn [clear dispatched]. unfold texts_flushed. rewrite !map_app. reflexivity.
Qed.

(** C10, as the code has it.  The pending utterances are one list for the
    whole filter instance, not one per session.  With storage enabled, an
    inbound call whose envelope ends with a user message of text [t]
    appends [t] to that one list, whatever the session id of the envelope
    and whatever the user record: below the threshold the list afterwards
    is the list before followed by [t], and no flush is started; at the
    threshold the list is emptied and, when the pending entries are texts
    and the store can be reached, one flush is started that holds all of
    them and [t], joined by single spaces, under the user of this call.
    So two inbound calls that carry the same last text leave the same
    pending list and the same flushed texts, whatever the session ids in
    their envelopes and whatever their user records. *)
Theorem pending_list_is_shared
    (v : Valves) (e : env) (st : state) (body1 body2 : value)
    (user1 user2 : option dict) (t : string) :
  ends_with_user_text body1 t ->
  ends_with_user_text body2 t ->
  let st1 := fst (inlet v e st body1 user1) in
  let st2 := fst (inlet v e st body2 user2) in
  (enable_memory_storage v = true ->
   (Z.of_nat (length (user_messages st)) + 1 < store_cycles v ->
    user_messages st1 = user_messages st ++ [VStr t]
    /\ dispatched st1 = dispatched st)
   /\ (store_cycles v <= Z.of_nat (length (user_messages st)) + 1 ->
       user_messages st1 = []
       /\ forall texts : list string,
            user_messages st = map VStr texts ->
            init_ok e = true ->
            dispatched st1
            = dispatched st
              ++ [{| flush_text := spaced (texts ++ [t]);
                     flush_user := user_id_of v user1 |}]))
  /\ user_messages st1 = user_messages st2
  /\ texts_flushed (dispatched st1) = texts_flushed (dispatched st2).
Proof.
  intros H1 H2. cbv zeta. split.
  - intros Hstore.
    pose proof (inlet_pending v e st body1 user1 t H1 Hstore) as S1. cbv zeta in S1.
    destruct (store_cycles v <=? Z.of_nat (length (user_messages st ++ [VStr t]))) eqn:E.
    + apply Z.leb_le in E. rewrite length_app in E. cbn [length] in E.
      destruct S1 as [Hpending Hflush]. split; [intros Hbelow; lia|].
      intros _. split; [exact Hpending|]. intros texts Htexts Hinit.
      rewrite Hflush, (store_memories_flushes _ _ _ (texts ++ [t])).
      * reflexivity.
      * cbn [user_messages]. rewrite Htexts, map_app. reflexivity.
      * exact Hinit.
    + apply Z.leb_gt in E. rewrite length_app in E. cbn [length] in E.
      split; [intros _; exact S1 | intros Hreached; lia].
  - destruct (enable_memory_storage v) eqn:Hstore.
    + pose proof (inlet_pending v e st body1 user1 t H1 Hstore) as S1.
      pose proof (inlet_pending v e st body2 user2 t H2 Hstore) as S2.
      cbv zeta in S1, S2.
      destruct (store_cycles v <=? Z.of_nat (length (user_messages st ++ [VStr t]))).
      * destruct S1 as [-> ->], S2 as [-> ->]. split; [reflexivity|].
        apply store_memories_texts.
      * destruct S1 as [-> ->], S2 as [-> ->]. split; reflexivity.
    + destruct (inlet_pending_disabled v e st body1 user1 t H1 Hstore) as [-> ->].
      destruct (inlet_pending_disabled v e st body2 user2 t H2 Hstore) as [-> ->].
      split; reflexivity.
Qed.

End WithRuntime.

End Mem0Props.

(* ===================================================================== *)
(** ** Properties of the robust memory filter                             *)
(* ===================================================================== *)

Module Mem0RobustProps.
Import Py PyFacts Mem0Store Mem0Robust MemorySpec Examples.
Local Open Scope list_scope.

(** With a store that answers, [get_memory] returns a handle, keeps the
    pending list and the flushes, and leaves the store reachable. *)
Lemma get_memory_reachable e st :
  init_ok e = true ->
  store_reachable st ->
  snd (get_memory e st) = true
  /\ store_reachable (fst (get_memory e st))
  /\ user_messages (fst (get_memory e st)) = user_messages st
  /\ dispatched (fst (get_memory e st)) = dispatched st.
Proof.
  intros He [Hfailed Havailable]. unfold get_memory, store_reachable.
  rewrite Hfailed, He. destruct (m st) eqn:Hm; cbn.
  - rewrite Havailable, Hm. repeat split; assumption.
  - repeat split.
Qed.

Lemma storage_pending v e st t uid :
  init_ok e = true ->
  store_reachable st ->
  let st' := _handle_memory_storage v e st t uid in
  let pending := user_messages st ++ [t] in
  store_reachable st'
  /\ if store_cycles v <=? Z.of_nat (length pending) then
       user_messages st' = []
       /\ dispatched st'
          = dispatched st ++ [{| flush_text := spaced pending; flush_user := VStr uid |}]
     else user_messages st' = pending /\ dispatched st' = dispatched st.
Proof.
  intros He Hst. cbv zeta. unfold _handle_memory_storage. cbn [with_pending user_messages].
  destruct (store_cycles v <=? Z.of_nat (length (user_messages st ++ [t]))).
  - assert (Hst1 : store_reachable (with_pending (user_messages st ++ [t]) st)) by exact Hst.
    destruct (get_memory_reachable e _ He Hst1) as (Hmem & Hreach & Hpending & Hdispatched).
    destruct (get_memory e (with_pending (user_messages st ++ [t]) st)) as [st2 memory].
    cbn [fst snd] in *. subst memory. cbn [with_flush with_pending user_messages dispatched].
    rewrite Hpending, Hdispatched. cbn [with_pending user_messages dispatched].
    repeat split; apply Hreach.
  - repeat split; apply Hst.
Qed.

Lemma last_user_message_found (msgs : list value) (last_msg : dict) (t : string) :
  dict_get "role" last_msg = Some (VStr "user") ->
  dict_get "content" last_msg = Some (VStr t) ->
  t <> EmptyString ->
  last_user_message_in (rev (msgs ++ [VDict last_msg])) = Return (Some (strip t)).
Proof.
  intros Hrole Hcontent Ht. rewrite rev_app_distr. cbn [rev app last_user_message_in].
  cbn [getattr_get mbind outcome_bind]. rewrite (get_or_get _ _ _ _ Hrole).
  cbn [mbind outcome_bind getattr_get]. rewrite (get_or_get _ _ _ _ Hcontent).
  rewrite (truthy_nonempty_str _ Ht). reflexivity.
Qed.

Lemma strip_empty : strip EmptyString = EmptyString.
Proof. reflexivity. Qed.

Section WithRuntime.
Context `{RT : Runtime}.

Lemma search_pending e st t uid l :
  init_ok e = true ->
  store_reachable st ->
  let st' := fst (_handle_memory_search e st t uid l) in
  store_reachable st'
  /\ user_messages st' = user_messages st
  /\ dispatched st' = dispatched st.
Proof.
  intros He Hst. cbv zeta. unfold _handle_memory_search.
  destruct (get_memory_reachable e st He Hst) as (Hmem & Hreach & Hpending & Hdispatched).
  destruct (get_memory e st) as [st1 memory]. cbn [fst snd] in *. subst memory.
  cbn [negb fst]. repeat split; try assumption; apply Hreach.
Qed.

(** The state after [inlet] on a turn whose text is not blank. *)
Lemma robust_inlet_pending v e st body user t :
  ends_with_user_text body t ->
  strip t <> EmptyString ->
  enable_memory_storage v = true ->
  init_ok e = true ->
  store_reachable st ->
  let st' := fst (inlet v e st body user) in
  let pending := user_messages st ++ [strip t] in
  store_reachable st'
  /\ if store_cycles v <=? Z.of_nat (length pending) then
       user_messages st' = []
       /\ dispatched st'
          = dispatched st ++ [{| flush_text := spaced pending;
                                 flush_user := VStr (mem_zero_user v) |}]
     else user_messages st' = pending /\ dispatched st' = dispatched st.
Proof.
  intros (d & msgs & last_msg & -> & Hmsgs & Hrole & Hcontent) Hstrip Hstore He Hst.
  assert (Ht : t <> EmptyString) by (intros ->; apply Hstrip, strip_empty).
  cbv zeta. unfold inlet.
  rewrite (has_key_get _ _ _ Hmsgs), (get_or_get _ _ _ _ Hmsgs), truthy_snoc.
  cbn [negb orb]. rewrite (last_user_message_found msgs last_msg t Hrole Hcontent Ht).
  rewrite (truthy_nonempty_str _ Hstrip), Hstore. cbn [negb].
  pose proof (storage_pending v e st (strip t) (mem_zero_user v) He Hst) as Hstep.
  cbv zeta in Hstep. destruct Hstep as [Hreach Hstep].
  set (st1 := _handle_memory_storage v e st (strip t) (mem_zero_user v)) in *.
  assert (Hsearch : forall b : bool,
             let st2 := fst (if b
                             then let '(st2, l') :=
                                    _handle_memory_search e st1 (strip t) (mem_zero_user v)
                                      (msgs ++ [VDict last_msg]) in
                                  (st2, with_messages (VDict d) (VList l'))
                             else (st1, VDict d)) in
             store_reachable st2
             /\ user_messages st2 = user_messages st1
             /\ dispatched st2 = dispatched st1).
  { intros []; cbv zeta; [|repeat split; apply Hreach].
    pose proof (search_pending e st1 (strip t) (mem_zero_user v)
                  (msgs ++ [VDict last_msg]) He Hreach) as H.
    cbv zeta in H. destruct (_handle_memory_search _ _ _ _ _). exact H. }
  destruct (Hsearch (enable_memory_search v)) as (Hreach2 & -> & ->).
  split; [exact Hreach2 | exact Hstep].
Qed.

Lemma robust_run_inlets_app v st calls1 calls2 :
  run_inlets v st (calls1 ++ calls2) = run_inlets v (run_inlets v st calls1) calls2.
Proof.
  revert st. induction calls1 as [|c calls1 IH]; intros st; [reflexivity|].
  cbn [app run_inlets]. apply IH.
Qed.

Lemma robust_run_inlets_accumulates v st calls texts :
  enable_memory_storage v = true ->
  store_reachable st ->
  Forall2 good_call calls texts ->
  Z.of_nat (length (user_messages st) + length calls) < store_cycles v ->
  store_reachable (run_inlets v st calls)
  /\ user_messages (run_inlets v st calls) = user_messages st ++ map strip texts
  /\ dispatched (run_inlets v st calls) = dispatched st.
Proof.
  intros Hstore Hst Hcalls. revert st Hst.
  induction Hcalls as [|c t calls texts (Hc & Hstrip & He) Hcalls IH]; intros st Hst Hlen.
  - cbn [run_inlets map]. rewrite app_nil_r. repeat split; try reflexivity; apply Hst.
  - cbn [run_inlets map length] in *.
    pose proof (robust_inlet_pending v (call_env c) st (call_body c) (call_user c) t
                  Hc Hstrip Hstore He Hst) as [Hreach Hstep].
    destruct (store_cycles v <=? Z.of_nat (length (user_messages st ++ [strip t]))) eqn:E.
    { apply Z.leb_le in E. rewrite length_app in E. cbn [length] in E. lia. }
    destruct Hstep as [Hpending Hdispatched].
    destruct (IH (fst (inlet v (call_env c) st (call_body c) (call_user c))) Hreach)
      as (Hreach' & -> & ->).
    { rewrite Hpending, length_app. cbn [length]. lia. }
    rewrite Hpending, Hdispatched, <- app_assoc. repeat split; try reflexivity; apply Hreach'.
Qed.

(** The robust filter flushes the stripped texts, separated by single
    spaces, after exactly [store_cycles] calls. *)
Lemma robust_one_flush_after_store_cycles_calls
    (v : Valves) (st : state) (calls : list call) (texts : list string) :
  enable_memory_storage v = true ->
  user_messages st = [] ->
  store_reachable st ->
  store_cycles v = Z.of_nat (length calls) ->
  calls <> [] ->
  Forall2 good_call calls texts ->
  user_messages (run_inlets v st calls) = []
  /\ dispatched (run_inlets v st calls)
     = dispatched st ++ [{| flush_text := spaced (map strip texts);
                            flush_user := VStr (mem_zero_user v) |}].
Proof.
  intros Hstore Hempty Hst Hcycles Hne Hcalls.
  destruct (last calls) as [last_call|] eqn:Hlast; [|apply last_None in Hlast; contradiction].
  apply last_Some in Hlast as [calls0 ->].
  apply Forall2_app_inv_l in Hcalls as (texts0 & texts1 & Hcalls0 & Hlast & ->).
  apply Forall2_cons_inv_l in Hlast as (t & texts2 & (Ht & Hstrip & He) & Hnil & ->).
  apply Forall2_nil_inv_l in Hnil as ->.
  rewrite length_app in Hcycles. cbn [length] in Hcycles.
  rewrite robust_run_inlets_app. cbn [run_inlets].
  destruct (robust_run_inlets_accumulates v st calls0 texts0 Hstore Hst Hcalls0)
    as (Hreach & Hpending & Hdispatched).
  { rewrite Hempty. cbn [length]. lia. }
  rewrite Hempty in Hpending. cbn [app] in Hpending.
  pose proof (robust_inlet_pending v (call_env last_call) (run_inlets v st calls0)
                (call_body last_call) (call_user last_call) t Ht Hstrip Hstore He Hreach)
    as [_ Hstep].
  rewrite Hpending in Hstep.
  destruct (store_cycles v <=? Z.of_nat (length (map strip texts0 ++ [strip t]))) eqn:E.
  2:{ apply Z.leb_gt in E. rewrite length_app, length_map in E. cbn [length] in E.
      apply Forall2_length in Hcalls0. lia. }
  destruct Hstep as [-> ->]. rewrite Hdispatched, map_app. split; reflexivity.
Qed.

End WithRuntime.

End Mem0RobustProps.

(* ===================================================================== *)
(** ** The flush after [store_cycles] calls, and the shared pending list  *)
(* ===================================================================== *)

Module MemoryClaims.
Import Py PyFacts Mem0Store MemorySpec Examples.
Local Open Scope list_scope.

Lemma turn_ends_with_user_text (chat_id text : string) :
  ends_with_user_text (turn chat_id text) text.
Proof.
  exists [("chat_id", VStr chat_id); ("messages", VList [message "user" text])],
         [], [("role", VStr "user"); ("content", VStr text)].
  repeat split; reflexivity.
Qed.

(** C1, as the code has it.  From an empty pending list, with storage
    enabled, after exactly [store_cycles] inbound calls whose envelopes end
    with a user message, with a store that answers, the pending list is
    empty again and exactly one flush has been started.  Its text is the
    texts appended on those calls, in arrival order, separated by single
    spaces: the contents of the last messages for the first memory filter,
    their stripped contents (which must not be blank) for the robust
    one. *)
Theorem flush_after_store_cycles_calls `{RT : Runtime} :
  (forall (v : Mem0.Valves) (st : Mem0.state) (calls : list Mem0.call)
          (texts : list string) (last_call : Mem0.call),
      Mem0.enable_memory_storage v = true ->
      Mem0.user_messages st = [] ->
      Mem0.store_cycles v = Z.of_nat (length calls) ->
      Forall2 (fun c t => ends_with_user_text (Mem0.call_body c) t) calls texts ->
      last calls = Some last_call ->
      init_ok (Mem0.call_env last_call) = true ->
      Mem0.user_messages (Mem0.run_inlets v st calls) = []
      /\ Mem0.dispatched (Mem0.run_inlets v st calls)
         = Mem0.dispatched st
           ++ [{| flush_text := spaced texts;
                  flush_user := Mem0.user_id_of v (Mem0.call_user last_call) |}])
  /\ (forall (v : Mem0Robust.Valves) (st : Mem0Robust.state)
            (calls : list Mem0Robust.call) (texts : list string),
        Mem0Robust.enable_memory_storage v = true ->
        Mem0Robust.user_messages st = [] ->
        store_reachable st ->
        Mem0Robust.store_cycles v = Z.of_nat (length calls) ->
        calls <> [] ->
        Forall2 good_call calls texts ->
        Mem0Robust.user_messages (Mem0Robust.run_inlets v st calls) = []
        /\ Mem0Robust.dispatched (Mem0Robust.run_inlets v st calls)
           = Mem0Robust.dispatched st
             ++ [{| flush_text := spaced (map strip texts);
                    flush_user := VStr (Mem0Robust.mem_zero_user v) |}]).
Proof.
  split.
  - apply Mem0Props.one_flush_after_store_cycles_calls.
  - apply Mem0RobustProps.robust_one_flush_after_store_cycles_calls.
Qed.

Lemma flush_after_store_cycles_calls_witness :
  Mem0.dispatched
    (Mem0.run_inlets (RT := table_runtime empty_object) two_cycles Mem0.initial
       [call_of "s1" "alice" "a"; call_of "s1" "alice" "b"])
  = [{| flush_text := "a b"; flush_user := VStr "alice" |}]
  /\ Mem0Robust.dispatched
       (Mem0Robust.run_inlets (RT := table_runtime empty_object) robust_two_cycles
          Mem0Robust.initial
          [robust_call_of "s1" "alice" " a "; robust_call_of "s1" "alice" "b"])
     = [{| flush_text := "a b"; flush_user := VStr "bailey" |}].
Proof.
  split.
  - apply (proj1 (flush_after_store_cycles_calls (RT := table_runtime empty_object))
             two_cycles Mem0.initial
             [call_of "s1" "alice" "a"; call_of "s1" "alice" "b"] ["a"; "b"]
             (call_of "s1" "alice" "b")).
    + reflexivity.
    + reflexivity.
    + reflexivity.
    + repeat constructor; apply turn_ends_with_user_text.
    + reflexivity.
    + reflexivity.
  - apply (proj2 (flush_after_store_cycles_calls (RT := table_runtime empty_object))
             robust_two_cycles Mem0Robust.initial
             [robust_call_of "s1" "alice" " a "; robust_call_of "s1" "alice" "b"]
             [" a "; "b"]).
    + reflexivity.
    + reflexivity.
    + split; reflexivity.
    + reflexivity.
    + discriminate.
    + repeat constructor; try apply turn_ends_with_user_text; try discriminate.
Defined.

(** C1 as the specification words it fails on two calls with the texts
    "a" and "b" and [store_cycles = 2]: the one flush holds "a b", which is
    not the concatenation "ab". *)
Lemma flushed_text_is_not_the_concatenation :
  let final :=
    Mem0.run_inlets (RT := table_runtime empty_object) two_cycles Mem0.initial
      [call_of "s1" "alice" "a"; call_of "s1" "alice" "b"] in
  Mem0.user_messages final = []
  /\ texts_flushed (Mem0.dispatched final) = ["a b"]
  /\ ~ (Mem0.user_messages final = []
        /\ texts_flushed (Mem0.dispatched final) = [concatenation ["a"; "b"]]).
Proof.
  vm_compute. repeat split. intros [_ H]. discriminate H.
Qed.

(** C10 at work: a text sent under the session "s2" by the user "bob" is
    appended to the list that already holds the pending text "a". *)
Lemma pending_list_is_shared_witness :
  Mem0.user_messages
    (fst (Mem0.inlet (RT := table_runtime empty_object) Mem0.default_valves store_up
            one_pending (turn "s2" "hello") (Some (user_named "bob"))))
  = [VStr "a"; VStr "hello"].
Proof.
  apply (proj1 (Mem0Props.pending_list_is_shared (RT := table_runtime empty_object)
                  Mem0.default_valves store_up one_pending
                  (turn "s2" "hello") (turn "s1" "hello")
                  (Some (user_named "bob")) (Some (user_named "alice")) "hello"
                  (turn_ends_with_user_text "s2" "hello")
                  (turn_ends_with_user_text "s1" "hello"))
           eq_refl).
  reflexivity.
Defined.

(** C10 as the specification words it fails on two runs that differ only
    in one message sent under another session id: the message of session
    "s2" lands between the two messages of session "s1", is flushed with
    the first of them, and the second stays pending. *)
Lemma other_session_changes_the_flush :
  let alone :=
    Mem0.run_inlets (RT := table_runtime empty_object) two_cycles Mem0.initial
      [call_of "s1" "alice" "a1"; call_of "s1" "alice" "a2"] in
  let mixed :=
    Mem0.run_inlets (RT := table_runtime empty_object) two_cycles Mem0.initial
      [call_of "s1" "alice" "a1"; call_of "s2" "bob" "b1"; call_of "s1" "alice" "a2"] in
  Mem0.dispatched alone = [{| flush_text := "a1 a2"; flush_user := VStr "alice" |}]
  /\ Mem0.user_messages alone = []
  /\ Mem0.dispatched mixed = [{| flush_text := "a1 b1"; flush_user := VStr "bob" |}]
  /\ Mem0.user_messages mixed = [VStr "a2"]
  /\ ~ (texts_flushed (Mem0.dispatched alone) = texts_flushed (Mem0.dispatched mixed)
        /\ Mem0.user_messages alone = Mem0.user_messages mixed).
Proof.
  vm_compute. repeat split. intros [H _]. discriminate H.
Qed.

End MemoryClaims.

(* ===================================================================== *)
(** ** More facts about the modelled built-ins                            *)
(* ===================================================================== *)

Module TextFacts.
Import Py PyFacts HookSpec.
Local Open Scope list_scope.

Lemma length_str (l : list ascii) : String.length (str l) = length l.
Proof.
  unfold str. induction l as [|a l IH]; [reflexivity|].
  cbn [string_of_list_ascii String.length length]. rewrite IH. reflexivity.
Qed.

Lemma length_chars (s : string) : length (chars s) = String.length s.
Proof. rewrite <- (str_chars s) at 2. rewrite length_str. reflexivity. Qed.

Lemma length_append (s t : string) :
  String.length (s +:+ t) = (String.length s + String.length t)%nat.
Proof.
  rewrite <- !length_chars, chars_app, length_app. reflexivity.
Qed.

Lemma len_append (s t : string) : len (s +:+ t) = len s + len t.
Proof. unfold len. rewrite length_append. lia. Qed.

Lemma len_nonneg (s : string) : 0 <= len s.
Proof. unfold len. lia. Qed.

Lemma length_lstrip (l : list ascii) : (length (lstrip_chars l) <= length l)%nat.
Proof.
  induction l as [|a l IH]; [reflexivity|].
  cbn [lstrip_chars]. destruct (isspace a); cbn [length]; lia.
Qed.

Lemma len_strip (s : string) : len (strip s) <= len s.
Proof.
  unfold len, strip. rewrite length_str, length_rev.
  pose proof (length_lstrip (rev (lstrip_chars (chars s)))) as H1.
  pose proof (length_lstrip (chars s)) as H2.
  rewrite length_rev in H1. rewrite <- (length_chars s). lia.
Qed.

Lemma len_str_slice_to (n : Z) (s : string) : 0 <= n -> len (str_slice_to n s) <= n.
Proof.
  intros Hn. unfold len, str_slice_to. rewrite length_str.
  pose proof (length_slice_to n (chars s) Hn). lia.
Qed.

Lemma len_cut (max : Z) (c : string) : 0 <= max -> len (cut max c) <= max + 3.
Proof.
  intros Hmax. unfold cut. destruct (max <? len c) eqn:E.
  - rewrite len_append. pose proof (len_str_slice_to max c Hmax).
    change (len "...") with 3. lia.
  - apply Z.ltb_ge in E. lia.
Qed.

(** *** [strip] strips once and for all *)

Lemma lstrip_idempotent (l : list ascii) :
  lstrip_chars (lstrip_chars l) = lstrip_chars l.
Proof.
  induction l as [|a l IH]; [reflexivity|].
  cbn [lstrip_chars]. destruct (isspace a) eqn:E; [exact IH|].
  cbn [lstrip_chars]. rewrite E. reflexivity.
Qed.

Lemma lstrip_keeps_last (l : list ascii) (a : ascii) :
  isspace a = false -> exists u, lstrip_chars (l ++ [a]) = u ++ [a].
Proof.
  intros Ha. induction l as [|b l [u IH]].
  - exists []. cbn. rewrite Ha. reflexivity.
  - cbn [app lstrip_chars]. destruct (isspace b).
    + exists u. exact IH.
    + exists (b :: l). reflexivity.
Qed.

Lemma lstrip_rstrip_lstrip (l : list ascii) :
  lstrip_chars (rstrip_chars (lstrip_chars l)) = rstrip_chars (lstrip_chars l).
Proof.
  assert (Hhead : forall l1 : list ascii,
             lstrip_chars l1 = l1 -> lstrip_chars (rstrip_chars l1) = rstrip_chars l1).
  { intros [|a t] Hfix; [reflexivity|].
    cbn [lstrip_chars] in Hfix. destruct (isspace a) eqn:Ea.
    - exfalso. pose proof (length_lstrip t) as Hlen. rewrite Hfix in Hlen.
      cbn [length] in Hlen. lia.
    - unfold rstrip_chars. cbn [rev].
      destruct (lstrip_keeps_last (rev t) a Ea) as [u ->].
      rewrite rev_app_distr. cbn [rev app lstrip_chars]. rewrite Ea. reflexivity. }
  apply Hhead, lstrip_idempotent.
Qed.

Lemma rstrip_idempotent (l : list ascii) :
  rstrip_chars (rstrip_chars l) = rstrip_chars l.
Proof.
  unfold rstrip_chars. rewrite rev_involutive, lstrip_idempotent. reflexivity.
Qed.

Lemma strip_idempotent (s : string) : strip (strip s) = strip s.
Proof.
  unfold strip. fold (rstrip_chars (lstrip_chars (chars s))).
  rewrite chars_str.
  fold (rstrip_chars (lstrip_chars (rstrip_chars (lstrip_chars (chars s))))).
  rewrite lstrip_rstrip_lstrip, rstrip_idempotent. reflexivity.
Qed.

(** *** [lower] lowers once and for all *)

Lemma lower_char_idempotent (a : ascii) : lower_char (lower_char a) = lower_char a.
Proof.
  destruct a as [[] [] [] [] [] [] [] []]; vm_compute; reflexivity.
Qed.

Lemma lower_idempotent (s : string) : lower (lower s) = lower s.
Proof.
  unfold lower. rewrite chars_str, map_map. f_equal.
  apply map_ext. intros a. apply lower_char_idempotent.
Qed.

(** *** Reading a dict after a write *)

Lemma eqb_string_neq (k k' : string) : k <> k' -> String.eqb k k' = false.
Proof. intros H. apply String.eqb_neq. exact H. Qed.

Lemma dict_get_set_same (k : string) (x : value) (d : dict) :
  dict_get k (dict_set k x d) = Some x.
Proof.
  induction d as [|[k' y] d IH]; cbn [dict_set dict_get].
  - rewrite String.eqb_refl. reflexivity.
  - destruct (String.eqb k k') eqn:E; cbn [dict_get].
    + rewrite String.eqb_refl. reflexivity.
    + rewrite E. exact IH.
Qed.

Lemma dict_get_set_other (k k0 : string) (x : value) (d : dict) :
  k0 <> k -> dict_get k0 (dict_set k x d) = dict_get k0 d.
Proof.
  intros Hne. induction d as [|[k' y] d IH]; cbn [dict_set dict_get].
  - rewrite (eqb_string_neq _ _ Hne). reflexivity.
  - destruct (String.eqb k k') eqn:E; cbn [dict_get].
    + apply String.eqb_eq in E. subst k'. rewrite (eqb_string_neq _ _ Hne). reflexivity.
    + destruct (String.eqb k0 k'); [reflexivity | exact IH].
Qed.

Lemma dict_set_same_value (k : string) (x : value) (d : dict) :
  dict_get k d = Some x -> dict_set k x d = d.
Proof.
  induction d as [|[k' y] d IH]; cbn [dict_get dict_set]; [discriminate|].
  destruct (String.eqb k k') eqn:E.
  - intros [= ->]. apply String.eqb_eq in E. subst k'. reflexivity.
  - intros H. rewrite (IH H). reflexivity.
Qed.

(** *** A text that occurs in a lower-case text is in lower case *)

Lemma starts_with_prefix (p l : list ascii) :
  starts_with p l = true -> exists l2, l = p ++ l2.
Proof.
  revert l. induction p as [|a p IH]; intros l H.
  - exists l. reflexivity.
  - destruct l as [|b l]; [discriminate H|]. cbn [starts_with] in H.
    apply andb_true_iff in H as [Hab Hp]. apply Ascii.eqb_eq in Hab. subst b.
    destruct (IH l Hp) as [l2 ->]. exists l2. reflexivity.
Qed.

Lemma contains_chars_In (p l : list ascii) (a : ascii) :
  contains_chars p l = true -> In a p -> In a l.
Proof.
  induction l as [|b l IH]; cbn [contains_chars]; intros H Ha.
  - rewrite orb_false_r in H. destruct (starts_with_prefix p [] H) as [l2 Hl].
    destruct p; [destruct Ha | discriminate Hl].
  - apply orb_true_iff in H as [H | H].
    + destruct (starts_with_prefix p (b :: l) H) as [l2 ->].
      apply in_or_app. left. exact Ha.
    + right. apply IH; assumption.
Qed.

Lemma contained_in_lower (k m : string) : contains k (lower m) = true -> lower k = k.
Proof.
  unfold contains, lower at 1. rewrite chars_str. intros H.
  unfold lower. rewrite <- (str_chars k) at 2. f_equal.
  rewrite <- (map_id (chars k)) at 2. apply map_ext_in. intros a Ha.
  pose proof (contains_chars_In _ _ a H Ha) as Hin.
  apply in_map_iff in Hin as (b & <- & _). apply lower_char_idempotent.
Qed.

End TextFacts.

(* ===================================================================== *)
(** ** Search augmentation: further properties                            *)
(* ===================================================================== *)

Module PerplexityExtras.
Import Py PyFacts TextFacts HookSpec Perplexity Examples.
Local Open Scope list_scope.

(** X1.  Whatever the query, the cleaned query has at most 203 characters
    (200 and the three dots) and neither starts nor ends with white space:
    stripping it again changes nothing. *)
Theorem clean_query_is_short_and_stripped (q : string) :
  len (_clean_search_query q) <= 203
  /\ strip (_clean_search_query q) = _clean_search_query q.
Proof.
  unfold _clean_search_query.
  set (q2 := re_sub_delete true filler_prefix (re_sub_delete true manual_prefix q)).
  fold (cut 200 q2). split.
  - pose proof (len_strip (cut 200 q2)) as H1.
    pose proof (len_cut 200 q2 ltac:(lia)) as H2. lia.
  - apply strip_idempotent.
Qed.

(** X2.  The trigger decision does not look at the case of the message: a
    message and its lower-case form get the same decision, under every
    configuration. *)
Theorem trigger_decision_ignores_case (v : Valves) (m : string) :
  _should_perform_search v (VStr (lower m)) = _should_perform_search v (VStr m).
Proof.
  unfold _should_perform_search. rewrite lower_idempotent. reflexivity.
Qed.

(** X7.  The keywords are compared with the lower-cased message as they
    are configured: a keyword that holds an upper-case letter can never
    occur in it, so adding one to the list changes no decision. *)
Theorem uppercase_keyword_is_dead
    (v : Valves) (k : string) (ks : list string) (message : value) :
  lower k <> k ->
  _should_perform_search (with_keywords (k :: ks) v) message
  = _should_perform_search (with_keywords ks v) message.
Proof.
  intros Hk. unfold _should_perform_search. cbn [with_keywords enable_auto_search
    enable_manual_search search_trigger_keywords].
  destruct message as [| | | |m| |]; try reflexivity.
  cbn [existsb].
  destruct (contains k (lower m)) eqn:E; [|reflexivity].
  exfalso. apply Hk. apply (contained_in_lower k m E).
Qed.

Lemma uppercase_keyword_is_dead_witness :
  _should_perform_search (with_keywords ["Hello"] manual_off) (VStr "Hello there")
  = _should_perform_search (with_keywords [] manual_off) (VStr "Hello there").
Proof.
  apply (uppercase_keyword_is_dead manual_off "Hello" [] (VStr "Hello there")).
  discriminate.
Defined.

Section WithRuntime.
Context `{RT : Runtime}.



(** X4.  Without an API key the provider plays no part and the transcript
    is never changed: the hook behaves the same under any two providers,
    and what it returns on a dict envelope is that envelope. *)
Theorem inlet_without_api_key
    (v : Valves) (post1 post2 : provider) (d : dict) (user : option dict) :
  perplexity_api_key v = EmptyString ->
  inlet v post1 (VDict d) user = inlet v post2 (VDict d) user
  /\ forall b' : value, inlet v post1 (VDict d) user = Return b' -> b' = VDict d.
Proof.
  intros Hkey. unfold inlet. rewrite Hkey. cbn [mbind outcome_bind getattr_get].
  change (truthy (VStr EmptyString)) with false.
  destruct (truthy (get_or "messages" (VList []) d)); cbn [negb].
  2:{ split; [reflexivity | intros b' [= <-]; reflexivity]. }
  destruct (getitem_last (get_or "messages" (VList []) d)) as [last|];
    [|split; [reflexivity | discriminate]].
  cbn [mbind outcome_bind].
  destruct (getattr_get last "content" (VStr EmptyString)) as [last_message|];
    [|split; [reflexivity | discriminate]].
  cbn [mbind outcome_bind].
  destruct (_should_perform_search v last_message) as [should|];
    [|split; [reflexivity | discriminate]].
  cbn [mbind outcome_bind]. rewrite andb_false_r.
  split; [reflexivity | intros b' [= <-]; reflexivity].
Qed.

Lemma perform_search_fails (v : Valves) (post : provider) (query : value) :
  (forall q : string, answers (post q) = false) ->
  _perform_search v post query = None.
Proof.
  intros Hfail. unfold _perform_search.
  destruct query as [| | | |q| |]; try reflexivity.
  cbn [mbind outcome_bind]. specialize (Hfail (_clean_search_query q)).
  destruct (post (_clean_search_query q)) as [|code json]; [reflexivity|].
  destruct (code =? 200) eqn:E; [|reflexivity].
  apply Z.eqb_eq in E. subst code.
  destruct json; [discriminate Hfail | reflexivity].
Qed.

(** X5.  When the provider does not answer (a transport error, a status
    other than 200, or a body that does not decode), the hook returns the
    dict envelope it received, whatever the message and the
    configuration. *)
Theorem inlet_keeps_transcript_on_failure
    (v : Valves) (post : provider) (d : dict) (user : option dict) (b' : value) :
  (forall q : string, answers (post q) = false) ->
  inlet v post (VDict d) user = Return b' ->
  b' = VDict d.
Proof.
  intros Hfail. unfold inlet. cbn [mbind outcome_bind getattr_get].
  destruct (truthy (get_or "messages" (VList []) d)); cbn [negb];
    [|intros [= <-]; reflexivity].
  destruct (getitem_last (get_or "messages" (VList []) d)) as [last|]; [|discriminate].
  cbn [mbind outcome_bind].
  destruct (getattr_get last "content" (VStr EmptyString)) as [last_message|];
    [|discriminate].
  cbn [mbind outcome_bind].
  destruct (_should_perform_search v last_message) as [should|]; [|discriminate].
  cbn [mbind outcome_bind]. rewrite (perform_search_fails v post last_message Hfail).
  destruct (should && truthy (VStr (perplexity_api_key v))); intros [= <-]; reflexivity.
Qed.

(** X6.  When a trigger is enabled and the content of the last message is
    not a [str] (a list of parts, a number, [None]), the hook raises
    [AttributeError]: [message.lower()] is called outside any [try]. *)
Theorem inlet_raises_on_structured_content
    (v : Valves) (post : provider) (d : dict) (user : option dict)
    (msgs : list value) (last_msg : dict) (c : value) :
  enable_auto_search v || enable_manual_search v = true ->
  dict_get "messages" d = Some (VList (msgs ++ [VDict last_msg])) ->
  dict_get "content" last_msg = Some c ->
  not_str c ->
  inlet v post (VDict d) user = Raise AttributeError.
Proof.
  intros Hon Hmsgs Hc Hnot. unfold inlet. cbn [mbind outcome_bind getattr_get].
  rewrite (get_or_get _ _ _ _ Hmsgs), truthy_snoc. cbn [negb].
  rewrite getitem_last_snoc. cbn [mbind outcome_bind getattr_get].
  rewrite (get_or_get _ _ _ _ Hc). unfold _should_perform_search.
  replace (negb (enable_auto_search v) && negb (enable_manual_search v)) with false
    by (destruct (enable_auto_search v), (enable_manual_search v);
        try reflexivity; discriminate Hon).
  destruct c; try reflexivity. exfalso. apply (Hnot s). reflexivity.
Qed.

End WithRuntime.


Lemma inlet_without_api_key_witness :
  inlet (RT := table_runtime empty_object) default_valves paris_provider
    (VDict france_envelope) None
  = inlet (RT := table_runtime empty_object) default_valves (fun _ => TransportError)
      (VDict france_envelope) None.
Proof.
  apply (inlet_without_api_key (RT := table_runtime empty_object)
           default_valves paris_provider (fun _ => TransportError) france_envelope None).
  reflexivity.
Defined.

Lemma inlet_keeps_transcript_on_failure_witness :
  match inlet (RT := table_runtime empty_object) keyed (fun _ => TransportError)
          (VDict france_envelope) None with
  | Return b' => b' = VDict france_envelope
  | Raise _ => False
  end.
Proof.
  destruct (inlet (RT := table_runtime empty_object) keyed (fun _ => TransportError)
              (VDict france_envelope) None) as [b'|x] eqn:E.
  - apply (inlet_keeps_transcript_on_failure (RT := table_runtime empty_object)
             keyed (fun _ => TransportError) france_envelope None b').
    + intros q. reflexivity.
    + exact E.
  - vm_compute in E. discriminate E.
Defined.

Lemma inlet_raises_on_structured_content_witness :
  inlet (RT := table_runtime empty_object) default_valves paris_provider
    (VDict [("messages",
             VList [VDict [("role", VStr "user");
                           ("content", VList [VStr "part"])]])]) None
  = Raise AttributeError.
Proof.
  apply (inlet_raises_on_structured_content (RT := table_runtime empty_object)
           default_valves paris_provider _ None []
           [("role", VStr "user"); ("content", VList [VStr "part"])]
           (VList [VStr "part"])).
  - reflexivity.
  - reflexivity.
  - reflexivity.
  - intros s. discriminate.
Defined.

End PerplexityExtras.

(* ===================================================================== *)
(** ** Observability: further properties                                  *)
(* ===================================================================== *)

Module LangfuseExtras.
Import Py PyFacts TextFacts HookSpec Langfuse Examples.
Local Open Scope list_scope.

(** The parameters kept by the loop of [_extract_model_parameters] over
    the keys [ks], starting from [params]. *)
Lemma parameters_loop (body : dict) (k : string) (ks : list string) (params : dict) :
  dict_get k
    (fold_left
       (fun params key =>
          match dict_get key body with
          | Some x => dict_set key x params
          | None => params
          end)
       ks params)
  = match (if existsb (String.eqb k) ks then dict_get k body else None) with
    | Some x => Some x
    | None => dict_get k params
    end.
Proof.
  revert params. induction ks as [|key ks IH]; intros params; [reflexivity|].
  cbn [fold_left existsb]. rewrite IH.
  destruct (existsb (String.eqb k) ks) eqn:Hin.
  - rewrite orb_true_r. destruct (dict_get k body) as [y|] eqn:Hk; [reflexivity|].
    destruct (String.eqb k key) eqn:E.
    + apply String.eqb_eq in E. subst key. rewrite Hk. reflexivity.
    + apply String.eqb_neq in E.
      destruct (dict_get key body); [apply dict_get_set_other, E | reflexivity].
  - rewrite orb_false_r. destruct (String.eqb k key) eqn:E.
    + apply String.eqb_eq in E. subst key.
      destruct (dict_get k body) as [y|]; [apply dict_get_set_same | reflexivity].
    + apply String.eqb_neq in E.
      destruct (dict_get key body); [apply dict_get_set_other, E | reflexivity].
Qed.

(** X8.  The recorded model parameters are exactly the allow-listed keys
    that the request carries, with the values of the request: a key is in
    the result if and only if tracking of parameters is on, the key is one
    of the five allowed and the request binds it.  Nothing else of the
    request is copied. *)
Theorem model_parameters_are_allow_listed
    (v : Valves) (body : dict) (k : string) (x : value) :
  dict_get k (_extract_model_parameters v body) = Some x
  <-> track_model_parameters v = true /\ In k param_keys /\ dict_get k body = Some x.
Proof.
  unfold _extract_model_parameters.
  destruct (track_model_parameters v); cbn [negb].
  2:{ split; [discriminate | intros [H _]; discriminate H]. }
  rewrite parameters_loop. cbn [dict_get].
  destruct (existsb (String.eqb k) param_keys) eqn:Hin.
  - apply existsb_exists in Hin as (k' & Hk' & E). apply String.eqb_eq in E. subst k'.
    destruct (dict_get k body) as [y|].
    + split; [intros [= <-]; auto | intros (_ & _ & H); exact H].
    + split; [discriminate | intros (_ & _ & H); discriminate H].
  - split; [discriminate|]. intros (_ & Hk & _). exfalso.
    assert (Hex : existsb (String.eqb k) param_keys = true).
    { apply existsb_exists. exists k. split; [exact Hk | apply String.eqb_refl]. }
    rewrite Hin in Hex. discriminate Hex.
Qed.

(** X9.  [_calculate_cost] returns [None] exactly when there is nothing to
    bill, that is when each token count is missing or zero. *)
Theorem cost_is_none_iff_nothing_to_bill
    (v : Valves) (input_tokens output_tokens : option Z) :
  _calculate_cost v input_tokens output_tokens = Return None
  <-> int_truthy input_tokens = false /\ int_truthy output_tokens = false.
Proof.
  unfold _calculate_cost.
  destruct (int_truthy input_tokens) eqn:Hi, (int_truthy output_tokens) eqn:Ho;
    cbn [negb andb].
  4:{ split; [split; reflexivity | reflexivity]. }
  all: split; [|intros [H1 H2]; discriminate].
  all: intros H; exfalso; revert H.
  all: destruct input_tokens as [i|], output_tokens as [o|];
    try discriminate Hi; try discriminate Ho; rewrite ?Hi, ?Ho.
  all: repeat match goal with
              | |- context [float_of_int ?z] => destruct (float_of_int z)
              end;
    cbn [mbind outcome_bind]; discriminate.
Qed.

(** [str(z)] tells integers apart. *)
Lemma str_of_int_inj (z1 z2 : Z) : str_of_int z1 = str_of_int z2 -> z1 = z2.
Proof.
  unfold str_of_int. intros H.
  apply (f_equal NilZero.int_of_string) in H.
  assert (Hd : forall z : Z, Z.to_int z <> Decimal.Pos Decimal.Nil
                             /\ Z.to_int z <> Decimal.Neg Decimal.Nil).
  { intros [|p|p]; cbn; split; try discriminate; intros [= Hp];
      exact (DecimalPos.Unsigned.to_uint_nonnil p Hp). }
  rewrite !NilZero.isi in H by apply Hd.
  injection H as H. apply DecimalZ.to_int_inj. exact H.
Qed.

Lemma append_inv_head (s t u : string) : s +:+ t = s +:+ u -> t = u.
Proof.
  induction s as [|a s IH]; intros H; [exact H|].
  rewrite !append_cons in H. injection H as H. apply IH. exact H.
Qed.

Section WithRuntime.
Context `{RT : Runtime} (sha256_hexdigest : string -> string).

(** X10.  [_get_user_id] always yields a value that is true (never [None],
    never an empty text), with or without a user record; under
    anonymization the value is a text of at most 16 characters. *)
Theorem user_id_is_usable (v : Valves) (user : option dict) :
  truthy (_get_user_id sha256_hexdigest v user) = true
  /\ (anonymize_user_data v = true ->
      exists s : string,
        _get_user_id sha256_hexdigest v user = VStr s /\ len s <= 16).
Proof.
  unfold _get_user_id. destruct user as [u|].
  2:{ split; [reflexivity|]. intros _. exists "anonymous". split; [reflexivity|].
      vm_compute. discriminate. }
  destruct (truthy (VDict u)); cbn [negb].
  2:{ split; [reflexivity|]. intros _. exists "anonymous". split; [reflexivity|].
      vm_compute. discriminate. }
  set (raw := or_else (or_else (get_or "id" VNone u) (get_or "email" VNone u))
                      (get_or "username" VNone u)).
  destruct (anonymize_user_data v); cbn [andb].
  - destruct (truthy raw) eqn:Hraw.
    + set (digest := str_slice_to 16 (sha256_hexdigest (str_of raw))).
      unfold or_else. destruct (truthy (VStr digest)) eqn:Hd.
      * split; [exact Hd|]. intros _. exists digest. split; [reflexivity|].
        apply len_str_slice_to. lia.
      * split; [reflexivity|]. intros _. exists "anonymous". split; [reflexivity|].
        vm_compute. discriminate.
    + unfold or_else. rewrite Hraw. split; [reflexivity|]. intros _.
      exists "anonymous". split; [reflexivity|]. vm_compute. discriminate.
  - split; [|discriminate]. unfold or_else at 1.
    destruct (truthy raw) eqn:Hraw; [exact Hraw | reflexivity].
Qed.

(** X11.  The input text recorded for a generation never exceeds
    [max_content_length] characters by more than the three dots of the
    ellipsis. *)
Theorem input_content_is_bounded (v : Valves) (messages : value) (s : string) :
  0 <= max_content_length v ->
  _extract_input_content v messages = Return s ->
  len s <= max_content_length v + 3.
Proof.
  intros Hmax. unfold _extract_input_content.
  destruct (iterate messages) as [l|]; [|discriminate]. cbn [mbind outcome_bind].
  destruct (if exclude_system_messages v then without_system l else Return l) as [l'|];
    [|discriminate].
  cbn [mbind outcome_bind].
  destruct (content_parts l') as [parts|]; [|discriminate]. cbn [mbind outcome_bind].
  intros [= <-]. apply (len_cut (max_content_length v) (join nl parts) Hmax).
Qed.

(** X12.  The output text of a response: for the OpenAI shape with a text
    content it is that content, cut at [max_content_length] characters and
    marked with three dots when it was longer; for a response without a
    ["choices"] key, or with an empty one, it is the rendering of the whole
    response, cut the same way. *)
Theorem output_content_by_shape (v : Valves) (body : dict) :
  (forall (choice message : dict) (rest : list value) (c : string),
      dict_get "choices" body = Some (VList (VDict choice :: rest)) ->
      dict_get "message" choice = Some (VDict message) ->
      dict_get "content" message = Some (VStr c) ->
      _extract_output_content v body = Return (VStr (cut (max_content_length v) c)))
  /\ (dict_get "choices" body = None \/ dict_get "choices" body = Some (VList []) ->
      _extract_output_content v body
      = Return (VStr (cut (max_content_length v) (str_of (VDict body))))).
Proof.
  split.
  - intros choice message rest c Hchoices Hmessage Hc. unfold _extract_output_content.
    rewrite (has_key_get _ _ _ Hchoices), (get_or_get _ _ _ _ Hchoices).
    cbn [truthy getitem_first mbind outcome_bind str_in].
    rewrite (has_key_get _ _ _ Hmessage). cbn [getitem_key]. rewrite Hmessage.
    cbn [mbind outcome_bind getattr_get]. rewrite (get_or_get _ _ _ _ Hc).
    cbn [len_value mbind outcome_bind]. unfold cut.
    destruct (max_content_length v <? len c); reflexivity.
  - intros Hshape. unfold _extract_output_content, has_key, get_or.
    destruct Hshape as [-> | ->]; cbn [truthy mbind outcome_bind len_value]; unfold cut;
      destruct (max_content_length v <? len (str_of (VDict body))); reflexivity.
Qed.

(** [_update_generation] either leaves the state as it is or closes the
    span of the conversation. *)
Lemma update_generation_cases v e st k body :
  _update_generation v e st k body = st
  \/ exists r : ended, _update_generation v e st k body = close_span k r st.
Proof.
  unfold _update_generation.
  destruct (active_traces st !! k) as [td|]; [|left; reflexivity].
  destruct (td_generation td); [|left; reflexivity].
  destruct (_extract_output_content v body) as [out|]; [|left; reflexivity].
  cbn [mbind outcome_bind].
  destruct (if track_output_tokens v then _ else _) as [tokens|]; [|left; reflexivity].
  cbn [mbind outcome_bind].
  destruct (if enable_cost_tracking v then _ else _) as [cost|]; [|left; reflexivity].
  cbn [mbind outcome_bind].
  destruct (end_ok e); [right; eexists; reflexivity | left; reflexivity].
Qed.

(** X13.  A hook call made for one conversation never touches the entries
    that the two maps hold for any other conversation. *)
Theorem hooks_leave_other_conversations_alone
    (v : Valves) (e : env) (st : state) (d : dict) (user : option dict)
    (c k : string) :
  _get_conversation_id sha256_hexdigest v (now e) (VDict d) user = Return c ->
  k <> c ->
  let st1 := fst (inlet sha256_hexdigest v e st (VDict d) user) in
  let st2 := fst (outlet sha256_hexdigest v e st (VDict d) user) in
  active_traces st1 !! k = active_traces st !! k
  /\ start_times st1 !! k = start_times st !! k
  /\ active_traces st2 !! k = active_traces st !! k
  /\ start_times st2 !! k = start_times st !! k.
Proof.
  intros Hc Hk. cbv zeta. unfold inlet, outlet.
  destruct (_should_track v st); cbn [negb]; [|repeat split; reflexivity].
  rewrite Hc. repeat split.
  - destruct (_create_or_get_trace _ e); cbn [fst set_active_trace set_start_time
                                               active_traces]; [|reflexivity].
    apply lookup_insert_ne. congruence.
  - destruct (_create_or_get_trace _ e); cbn [fst set_active_trace set_start_time
                                               start_times];
      apply lookup_insert_ne; congruence.
  - destruct (active_traces st !! c); [|reflexivity]. cbn [fst].
    destruct (update_generation_cases v e st c d) as [-> | [r ->]]; [reflexivity|].
    cbn [close_span active_traces]. apply lookup_delete_ne. congruence.
  - destruct (active_traces st !! c); [|reflexivity]. cbn [fst].
    destruct (update_generation_cases v e st c d) as [-> | [r ->]]; [reflexivity|].
    cbn [close_span start_times]. apply lookup_delete_ne. congruence.
Qed.

(** X14.  An outbound call for a conversation that has no open span is a
    no-op: the state and the envelope come back as they were. *)
Theorem outlet_without_span_is_noop
    (v : Valves) (e : env) (st : state) (d : dict) (user : option dict) (c : string) :
  _get_conversation_id sha256_hexdigest v (now e) (VDict d) user = Return c ->
  active_traces st !! c = None ->
  outlet sha256_hexdigest v e st (VDict d) user = (st, VDict d).
Proof.
  intros Hc Hnone. unfold outlet. destruct (_should_track v st); [|reflexivity].
  cbn [negb]. rewrite Hc, Hnone. reflexivity.
Qed.

(** X15.  When [langfuse.trace] raises on the inbound call, the start time
    is recorded all the same but no span is opened; the outbound call of
    the turn then finds no span and leaves the start time where it is. *)
Theorem start_time_outlives_failed_trace
    (v : Valves) (e1 e2 : env) (st : state) (d1 d2 : dict) (user : option dict)
    (c : string) :
  _should_track v st = true ->
  _get_conversation_id sha256_hexdigest v (now e1) (VDict d1) user = Return c ->
  _get_conversation_id sha256_hexdigest v (now e2) (VDict d2) user = Return c ->
  trace_ok e1 = false ->
  active_traces st !! c = None ->
  let st1 := fst (inlet sha256_hexdigest v e1 st (VDict d1) user) in
  let st2 := fst (outlet sha256_hexdigest v e2 st1 (VDict d2) user) in
  active_traces st1 !! c = None
  /\ start_times st1 !! c = Some (now_start_times e1)
  /\ st2 = st1.
Proof.
  intros Htrack Hc1 Hc2 Hfail Hnone. cbv zeta. unfold inlet.
  rewrite Htrack. cbn [negb]. rewrite Hc1. unfold _create_or_get_trace.
  rewrite Hfail. cbn [set_start_time langfuse].
  replace (if negb (langfuse st) then false else false) with false
    by (destruct (langfuse st); reflexivity).
  cbn [fst].
  repeat split.
  - exact Hnone.
  - cbn [start_times]. apply lookup_insert_eq.
  - unfold outlet. destruct (_should_track _ _); [|reflexivity].
    cbn [negb]. rewrite Hc2. cbn [active_traces set_start_time]. rewrite Hnone. reflexivity.
Qed.

(** X16.  A whole turn: when the inbound call opens a span (the SDK calls
    return and the input text can be built) and the outbound call of the
    same conversation can extract the output, compute the cost and end the
    generation, then neither map holds an entry for the conversation
    afterwards and exactly one span has been closed, with that output, that
    usage and that cost, and with the response time that the code computes
    in binary64: the reading taken by the outbound call minus the reading
    stored with the trace by the inbound call, times 1000. *)
Theorem turn_opens_and_closes_span
    (v : Valves) (e1 e2 : env) (st : state) (d1 d2 : dict) (user : option dict)
    (c input : string) (out : value) (tokens : option Z) (cost : option spec_float) :
  _should_track v st = true ->
  _get_conversation_id sha256_hexdigest v (now e1) (VDict d1) user = Return c ->
  _get_conversation_id sha256_hexdigest v (now e2) (VDict d2) user = Return c ->
  trace_ok e1 = true ->
  generation_ok e1 = true ->
  _extract_input_content v (get_or "messages" (VList []) d1) = Return input ->
  _extract_output_content v d2 = Return out ->
  (if track_output_tokens v
   then n ← _estimate_tokens out; Return (Some n)
   else Return None) = Return tokens ->
  (if enable_cost_tracking v
   then _calculate_cost v (Some (default 0 (input_usage e2))) tokens
   else Return None) = Return cost ->
  end_ok e2 = true ->
  let st1 := fst (inlet sha256_hexdigest v e1 st (VDict d1) user) in
  let st2 := fst (outlet sha256_hexdigest v e2 st1 (VDict d2) user) in
  is_Some (active_traces st1 !! c)
  /\ active_traces st2 !! c = None
  /\ start_times st2 !! c = None
  /\ finished st2
     = finished st
       ++ [{| end_conversation := c;
              end_output := out;
              end_usage :=
                if track_input_tokens v || track_output_tokens v
                then Some (default 0 (input_usage e2), tokens,
                           default 0 (input_usage e2) + default 0 tokens)
                else None;
              end_response_time_ms :=
                fmul (fsub (now_end_time e2) (now_start_time e1)) thousand;
              end_cost := cost |}].
Proof.
  intros Htrack Hc1 Hc2 Htrace Hgen Hinput Hout Htokens Hcost Hend. cbv zeta.
  assert (Hlang : langfuse st = true).
  { unfold _should_track in Htrack. destruct (langfuse st); [reflexivity|].
    rewrite andb_false_r in Htrack. discriminate Htrack. }
  unfold inlet. rewrite Htrack. cbn [negb]. rewrite Hc1. unfold _create_or_get_trace.
  cbn [set_start_time langfuse]. rewrite Hlang, Htrace. cbn [negb fst].
  unfold _create_generation. rewrite Hinput. cbn [mbind outcome_bind].
  assert (Hgeneration :
            exists g : generation,
              try_except
                (input_tokens ←
                   (if track_input_tokens v
                    then n ← _estimate_tokens (VStr input); Return (Some n)
                    else Return None);
                 if generation_ok e1
                 then Return
                        (Some {| gen_model := get_or "model" (VStr "unknown") d1;
                                 gen_input := input;
                                 gen_parameters := _extract_model_parameters v d1;
                                 gen_usage_input :=
                                   if int_truthy input_tokens then input_tokens else None |})
                 else Raise ExternalError)
                None
              = Some g).
  { rewrite Hgen. destruct (track_input_tokens v); eexists; reflexivity. }
  destruct Hgeneration as [g ->].
  set (st1 := set_active_trace c _ _).
  assert (Hopen : active_traces st1 !! c
                  = Some {| td_generation := Some g; td_start_time := now_start_time e1 |}).
  { subst st1. cbn [set_active_trace active_traces]. apply lookup_insert_eq. }
  split; [rewrite Hopen; eexists; reflexivity|].
  unfold outlet.
  replace (_should_track v st1) with true by (symmetry; exact Htrack).
  cbn [negb]. rewrite Hc2, Hopen. cbn [fst].
  unfold _update_generation. rewrite Hopen. cbn [td_generation td_start_time].
  rewrite Hout. cbn [mbind outcome_bind]. rewrite Htokens. cbn [mbind outcome_bind].
  replace (match input_usage e2 with Some n => n | None => 0 end)
    with (default 0 (input_usage e2)) by (destruct (input_usage e2); reflexivity).
  rewrite Hcost. cbn [mbind outcome_bind]. rewrite Hend. cbn [try_except].
  cbn [close_span active_traces start_times finished].
  repeat split; try apply lookup_delete_eq.
Qed.

(** X17.  Without credentials the filter is idle: after [on_startup] with
    an empty secret or public key no client exists, and both hooks return
    the state and the body as they received them, whatever the body. *)
Theorem hooks_idle_without_credentials
    (v : Valves) (available client_ok : bool) (e : env) (body : value)
    (user : option dict) :
  langfuse_secret_key v = EmptyString \/ langfuse_public_key v = EmptyString ->
  let st := on_startup v client_ok (initial available) in
  langfuse st = false
  /\ inlet sha256_hexdigest v e st body user = (st, body)
  /\ outlet sha256_hexdigest v e st body user = (st, body).
Proof.
  intros Hkeys. cbv zeta.
  assert (Hst : on_startup v client_ok (initial available) = initial available).
  { unfold on_startup. destruct (LANGFUSE_AVAILABLE (initial available) && enable_tracking v);
      [|reflexivity].
    destruct Hkeys as [-> | ->]; cbn [truthy String.eqb negb andb];
      [reflexivity|]. rewrite andb_false_r. reflexivity. }
  rewrite Hst. unfold inlet, outlet, _should_track. cbn [langfuse initial].
  rewrite andb_false_r. repeat split.
Qed.

(** X18.  The observability hooks never write to the envelope and never
    raise: what they return is the body they received, or its decoded
    form when the body arrived as a text that decodes. *)
Theorem hooks_never_alter_envelope
    (v : Valves) (e : env) (st : state) (body : value) (user : option dict) :
  let returned_in := snd (inlet sha256_hexdigest v e st body user) in
  let returned_out := snd (outlet sha256_hexdigest v e st body user) in
  (returned_in = body
   \/ exists s : string, body = VStr s /\ json_loads s = Return returned_in)
  /\ (returned_out = body
      \/ exists s : string, body = VStr s /\ json_loads s = Return returned_out).
Proof.
  cbv zeta. unfold inlet, outlet.
  destruct (_should_track v st); cbn [negb]; [|split; left; reflexivity].
  destruct body as [| | | |s| |];
    try (split;
         [ destruct (_get_conversation_id _ _ _ _ _) as [k|]; [|left; reflexivity];
           destruct (_create_or_get_trace _ _); left; reflexivity
         | destruct (_get_conversation_id _ _ _ _ _) as [k|]; [|left; reflexivity];
           destruct (active_traces st !! k); left; reflexivity ]).
  destruct (json_loads s) as [b|] eqn:Hs; [|split; left; reflexivity].
  split.
  - right. exists s. split; [reflexivity|]. rewrite Hs.
    destruct (_get_conversation_id _ _ _ _ _) as [k|]; [|reflexivity].
    destruct (_create_or_get_trace _ _); reflexivity.
  - right. exists s. split; [reflexivity|]. rewrite Hs.
    destruct (_get_conversation_id _ _ _ _ _) as [k|]; [|reflexivity].
    destruct (active_traces st !! k); [|reflexivity]. destruct b; reflexivity.
Qed.

(** X27.  A key that is synthesized (the envelope holds no true
    ["conversation_id"] and no true ["chat_id"]) changes with the second
    of the clock: two calls with the same envelope and user record in
    different seconds never get the same key, so an outbound call made in
    a later second than its inbound call looks up another key. *)
Theorem synthesized_key_changes_with_the_second
    (v : Valves) (d : dict) (user : option dict) (t1 t2 : Z) :
  truthy (get_or "conversation_id" VNone d) = false ->
  truthy (get_or "chat_id" VNone d) = false ->
  seconds t1 <> seconds t2 ->
  _get_conversation_id sha256_hexdigest v t1 (VDict d) user
  <> _get_conversation_id sha256_hexdigest v t2 (VDict d) user.
Proof.
  intros Hconv Hchat Hsec.
  rewrite !(LangfuseProps.conversation_id_synthesized sha256_hexdigest v _ d user Hconv Hchat).
  intros [= H]. apply append_inv_head in H. apply append_inv_head in H.
  apply Hsec, str_of_int_inj, H.
Qed.

End WithRuntime.

Lemma user_id_is_usable_witness :
  exists s : string,
    _get_user_id (RT := table_runtime empty_object) plain_digest anonymizing
      (Some (user_named "alice.who.has.a.long.identifier")) = VStr s
    /\ len s <= 16.
Proof.
  apply (user_id_is_usable (RT := table_runtime empty_object) plain_digest anonymizing
           (Some (user_named "alice.who.has.a.long.identifier"))).
  reflexivity.
Defined.

Lemma input_content_is_bounded_witness : len "user: hi" <= 10000 + 3.
Proof.
  apply (input_content_is_bounded (RT := table_runtime empty_object) default_valves
           (VList [message "user" "hi"]) "user: hi").
  - discriminate.
  - reflexivity.
Defined.

Lemma output_content_by_shape_witness :
  _extract_output_content (RT := table_runtime empty_object) default_valves text_response
  = Return (VStr "hello").
Proof.
  apply (proj1 (output_content_by_shape (RT := table_runtime empty_object)
                  default_valves text_response)
           [("message", VDict [("role", VStr "assistant"); ("content", VStr "hello")])]
           [("role", VStr "assistant"); ("content", VStr "hello")] [] "hello");
    reflexivity.
Defined.

Lemma hooks_leave_other_conversations_alone_witness :
  active_traces
    (fst (inlet (RT := table_runtime empty_object) plain_digest default_valves
            (sdk_up 1000) tracking (VDict turn_request) None)) !! "c2"
  = active_traces tracking !! "c2".
Proof.
  apply (hooks_leave_other_conversations_alone (RT := table_runtime empty_object)
           plain_digest default_valves (sdk_up 1000) tracking turn_request None
           "c1" "c2").
  - reflexivity.
  - discriminate.
Defined.

Lemma outlet_without_span_is_noop_witness :
  outlet (RT := table_runtime empty_object) plain_digest default_valves (sdk_up 2500)
    tracking (VDict text_response) None
  = (tracking, VDict text_response).
Proof.
  apply (outlet_without_span_is_noop (RT := table_runtime empty_object) plain_digest
           default_valves (sdk_up 2500) tracking text_response None "c1");
    reflexivity.
Defined.

Lemma start_time_outlives_failed_trace_witness :
  let st1 := fst (inlet (RT := table_runtime empty_object) plain_digest default_valves
                    (sdk_trace_down 1000) tracking (VDict turn_request) None) in
  let st2 := fst (outlet (RT := table_runtime empty_object) plain_digest default_valves
                    (sdk_up 2500) st1 (VDict text_response) None) in
  active_traces st1 !! "c1" = None
  /\ start_times st1 !! "c1" = Some (nearest_double 1000 1000)
  /\ st2 = st1.
Proof.
  apply (start_time_outlives_failed_trace (RT := table_runtime empty_object)
           plain_digest default_valves (sdk_trace_down 1000) (sdk_up 2500) tracking
           turn_request text_response None "c1");
    reflexivity.
Defined.

Lemma turn_opens_and_closes_span_witness :
  let st1 := fst (inlet (RT := table_runtime empty_object) plain_digest default_valves
                    (sdk_up 1000) tracking (VDict turn_request) None) in
  let st2 := fst (outlet (RT := table_runtime empty_object) plain_digest default_valves
                    (sdk_up 1001) st1 (VDict text_response) None) in
  is_Some (active_traces st1 !! "c1")
  /\ active_traces st2 !! "c1" = None
  /\ start_times st2 !! "c1" = None
  /\ finished st2
     = [{| end_conversation := "c1";
           end_output := VStr "hello";
           end_usage := Some (0, Some 1, 1);
           end_response_time_ms := S754_finite false 4503599627370500 (-51);
           end_cost := Some (nearest_double 2 1000000) |}].
Proof.
  cbv zeta.
  destruct (turn_opens_and_closes_span (RT := table_runtime empty_object)
              plain_digest default_valves (sdk_up 1000) (sdk_up 1001) tracking
              turn_request text_response None "c1" "user: hi" (VStr "hello") (Some 1)
              (Some (nearest_double 2 1000000)))
    as (H1 & H2 & H3 & H4); try reflexivity.
  split; [exact H1|]. split; [exact H2|]. split; [exact H3|].
  rewrite H4. vm_compute. reflexivity.
Defined.

Lemma hooks_idle_without_credentials_witness :
  inlet (RT := table_runtime empty_object) plain_digest default_valves (sdk_up 1000)
    (on_startup default_valves true (initial true)) (VDict turn_request) None
  = (on_startup default_valves true (initial true), VDict turn_request).
Proof.
  apply (hooks_idle_without_credentials (RT := table_runtime empty_object)
           plain_digest default_valves true true (sdk_up 1000) (VDict turn_request) None).
  left. reflexivity.
Defined.

Lemma synthesized_key_changes_with_the_second_witness :
  _get_conversation_id (RT := table_runtime empty_object) plain_digest default_valves
    1000 (VDict empty_envelope) None
  <> _get_conversation_id (RT := table_runtime empty_object) plain_digest default_valves
       2000 (VDict empty_envelope) None.
Proof.
  apply (synthesized_key_changes_with_the_second (RT := table_runtime empty_object)
           plain_digest default_valves empty_envelope None 1000 2000).
  - reflexivity.
  - reflexivity.
  - discriminate.
Defined.

End LangfuseExtras.

(* ===================================================================== *)
(** ** Memory filter: further properties                                  *)
(* ===================================================================== *)

Module Mem0Extras.
Import Py PyFacts TextFacts HookSpec Mem0Store Mem0 MemorySpec Examples.
Local Open Scope list_scope.

Lemma store_memories_unreachable e st user_id :
  m st = false ->
  init_ok e = false ->
  dispatched (_store_memories e st user_id) = dispatched st.
Proof.
  intros Hm He. unfold _store_memories, get_memory. rewrite Hm, He.
  destruct (join_values " " (user_messages st)); reflexivity.
Qed.

(** [" ".join] raises as soon as one element is no [str]. *)
Lemma join_values_not_str (sep : string) (l : list value) (x : value) :
  In x l -> not_str x -> exists err : exn, join_values sep l = Raise err.
Proof.
  intros Hin Hx. unfold join_values.
  assert (H : exists err : exn, strings_of l = Raise err).
  { induction l as [|y l IH]; [destruct Hin|].
    destruct Hin as [-> | Hin].
    - destruct x; try (eexists; reflexivity). exfalso. exact (Hx _ eq_refl).
    - destruct (IH Hin) as [err Herr].
      destruct y; try (eexists; reflexivity).
      cbn [strings_of]. rewrite Herr. eexists; reflexivity. }
  destruct H as [err ->]. eexists; reflexivity.
Qed.

Section WithRuntime.
Context `{RT : Runtime}.

(** The pending list after any call: as before, longer by one element and
    still below the threshold, or empty. *)
Lemma inlet_pending_cases v e st body user :
  let st' := fst (inlet v e st body user) in
  user_messages st' = user_messages st
  \/ (exists x : value,
        user_messages st' = user_messages st ++ [x]
        /\ Z.of_nat (length (user_messages st ++ [x])) < store_cycles v)
  \/ user_messages st' = [].
Proof.
  cbv zeta. unfold inlet.
  destruct (match body with VStr s => json_loads s | _ => Return body end) as [b|];
    [|left; reflexivity].
  destruct (getattr_get b "messages" (VList [])) as [all|]; [|left; reflexivity].
  destruct (negb (truthy all)); [left; reflexivity|].
  destruct (last ← getitem_last all; getattr_get last "content" (VStr EmptyString))
    as [last_message|]; [|left; reflexivity].
  set (st1 := if enable_memory_storage v then _ else st).
  assert (Hst1 : user_messages st1 = user_messages st
                 \/ (exists x : value,
                        user_messages st1 = user_messages st ++ [x]
                        /\ Z.of_nat (length (user_messages st ++ [x])) < store_cycles v)
                 \/ user_messages st1 = []).
  { subst st1. destruct (enable_memory_storage v); [|left; reflexivity].
    cbn [user_messages].
    destruct (store_cycles v <=? Z.of_nat (length (user_messages st ++ [last_message])))
      eqn:E.
    - right. right. apply Mem0Props.store_memories_clears.
    - right. left. exists last_message. split; [reflexivity|].
      apply Z.leb_gt in E. exact E. }
  assert (Hsame : user_messages
                    (fst (if enable_memory_retrieval v
                          then match all with
                               | VList l =>
                                   let '(st2, l') :=
                                     _add_memory_context v e st1 l last_message
                                       (user_id_of v user) in
                                   (st2, Return (with_messages b (VList l')))
                               | _ => (st1, Return b)
                               end
                          else (st1, Return b)))
                  = user_messages st1).
  { destruct (enable_memory_retrieval v); [|reflexivity].
    destruct all; try reflexivity.
    pose proof (Mem0Props.add_memory_context_pending v e st1 l last_message
                  (user_id_of v user)) as [H _].
    destruct (_add_memory_context _ _ _ _ _ _). exact H. }
  rewrite Hsame. exact Hst1.
Qed.

(** X19.  The pending list never reaches the threshold: with
    [store_cycles >= 1], if it is shorter than [store_cycles] before a
    sequence of inbound calls, it is shorter than [store_cycles] after it,
    whatever the envelopes, the user records and the answers of the
    store. *)
Theorem pending_list_stays_below_threshold
    (v : Valves) (st : state) (calls : list call) :
  1 <= store_cycles v ->
  Z.of_nat (length (user_messages st)) < store_cycles v ->
  Z.of_nat (length (user_messages (run_inlets v st calls))) < store_cycles v.
Proof.
  intros Hcycles. revert st. induction calls as [|c calls IH]; intros st Hlen.
  - exact Hlen.
  - cbn [run_inlets]. apply IH.
    destruct (inlet_pending_cases v (call_env c) st (call_body c) (call_user c))
      as [-> | [(x & -> & Hx) | ->]].
    + exact Hlen.
    + exact Hx.
    + cbn [length]. lia.
Qed.

(** X20.  When the threshold is reached on a call during which the store
    cannot be reached (no handle yet, and [Memory.from_config] raises), the
    pending texts are lost: the list is emptied and no flush is started. *)
Theorem texts_dropped_when_store_unreachable
    (v : Valves) (e : env) (st : state) (body : value) (user : option dict)
    (t : string) :
  ends_with_user_text body t ->
  enable_memory_storage v = true ->
  store_cycles v <= Z.of_nat (length (user_messages st)) + 1 ->
  m st = false ->
  init_ok e = false ->
  user_messages (fst (inlet v e st body user)) = []
  /\ dispatched (fst (inlet v e st body user)) = dispatched st.
Proof.
  intros Hturn Hstore Hreached Hm He.
  pose proof (Mem0Props.inlet_pending v e st body user t Hturn Hstore) as Hstep.
  cbv zeta in Hstep.
  destruct (store_cycles v <=? Z.of_nat (length (user_messages st ++ [VStr t]))) eqn:E.
  2:{ apply Z.leb_gt in E. rewrite length_app in E. cbn [length] in E. lia. }
  destruct Hstep as [-> ->]. split; [reflexivity|].
  rewrite store_memories_unreachable; [reflexivity | exact Hm | exact He].
Qed.




(** The storage part of [inlet] on any transcript that is not empty. *)
Lemma inlet_pending_any_role v e st d user msgs last_msg :
  dict_get "messages" d = Some (VList (msgs ++ [VDict last_msg])) ->
  enable_memory_storage v = true ->
  let st' := fst (inlet v e st (VDict d) user) in
  let pending := user_messages st ++ [get_or "content" (VStr EmptyString) last_msg] in
  if store_cycles v <=? Z.of_nat (length pending) then
    user_messages st' = []
    /\ dispatched st'
       = dispatched (_store_memories e
                       {| user_messages := pending; m := m st; dispatched := dispatched st |}
                       (user_id_of v user))
  else user_messages st' = pending /\ dispatched st' = dispatched st.
Proof.
  intros Hmsgs Hstore. cbv zeta.
  unfold inlet. cbn [getattr_get]. rewrite (get_or_get _ _ _ _ Hmsgs), truthy_snoc.
  cbn [negb]. rewrite getitem_last_snoc. cbn [mbind outcome_bind getattr_get].
  rewrite Hstore. cbn [user_messages].
  set (c := get_or "content" (VStr EmptyString) last_msg).
  destruct (store_cycles v <=? Z.of_nat (length (user_messages st ++ [c]))).
  - match goal with
    | |- context [_add_memory_context v e ?s ?l ?lm ?u] =>
        destruct (Mem0Props.retrieval_keeps_pending v e s l lm u (enable_memory_retrieval v)
                    (fun l' => Return (with_messages (VDict d) (VList l')))
                    (Return (VDict d))) as [-> ->]
    end.
    split; [apply Mem0Props.store_memories_clears | reflexivity].
  - match goal with
    | |- context [_add_memory_context v e ?s ?l ?lm ?u] =>
        destruct (Mem0Props.retrieval_keeps_pending v e s l lm u (enable_memory_retrieval v)
                    (fun l' => Return (with_messages (VDict d) (VList l')))
                    (Return (VDict d))) as [-> ->]
    end.
    split; reflexivity.
Qed.

(** X28.  The first memory filter does not look at the role: below the
    threshold, the content of the last message of the transcript is added
    to the pending list as it is, whoever wrote the message and whatever
    the content is (the empty text when the message has none). *)
Theorem last_content_is_buffered_whatever_the_role
    (v : Valves) (e : env) (st : state) (d : dict) (user : option dict)
    (msgs : list value) (last_msg : dict) :
  dict_get "messages" d = Some (VList (msgs ++ [VDict last_msg])) ->
  enable_memory_storage v = true ->
  Z.of_nat (length (user_messages st)) + 1 < store_cycles v ->
  user_messages (fst (inlet v e st (VDict d) user))
  = user_messages st ++ [get_or "content" (VStr EmptyString) last_msg].
Proof.
  intros Hmsgs Hstore Hbelow.
  pose proof (inlet_pending_any_role v e st d user msgs last_msg Hmsgs Hstore) as Hstep.
  cbv zeta in Hstep.
  destruct (store_cycles v <=? Z.of_nat (length _)) eqn:E in Hstep.
  - apply Z.leb_le in E. rewrite length_app in E. cbn [length] in E. lia.
  - exact (proj1 Hstep).
Qed.

(** X29.  One pending entry that is no text costs the whole batch: when
    the threshold is reached while the pending list holds a value that is
    not a [str] (a list of parts, [None]), the join raises, the list is
    emptied and no flush is started, also with a store that answers. *)
Theorem non_text_entry_drops_the_batch
    (v : Valves) (e : env) (st : state) (d : dict) (user : option dict)
    (msgs : list value) (last_msg : dict) (x : value) :
  dict_get "messages" d = Some (VList (msgs ++ [VDict last_msg])) ->
  enable_memory_storage v = true ->
  store_cycles v <= Z.of_nat (length (user_messages st)) + 1 ->
  In x (user_messages st ++ [get_or "content" (VStr EmptyString) last_msg]) ->
  not_str x ->
  user_messages (fst (inlet v e st (VDict d) user)) = []
  /\ dispatched (fst (inlet v e st (VDict d) user)) = dispatched st.
Proof.
  intros Hmsgs Hstore Hreached Hin Hx.
  pose proof (inlet_pending_any_role v e st d user msgs last_msg Hmsgs Hstore) as Hstep.
  cbv zeta in Hstep.
  destruct (store_cycles v <=? Z.of_nat (length _)) eqn:E in Hstep.
  2:{ apply Z.leb_gt in E. rewrite length_app in E. cbn [length] in E. lia. }
  destruct Hstep as [-> ->]. split; [reflexivity|].
  unfold _store_memories. cbn [user_messages].
  destruct (join_values_not_str " " _ x Hin Hx) as [err ->]. reflexivity.
Qed.

End WithRuntime.

Lemma pending_list_stays_below_threshold_witness :
  Z.of_nat (length (user_messages
                      (run_inlets (RT := table_runtime empty_object) two_cycles initial
                         [call_of "s1" "alice" "a"; call_of "s2" "bob" "b";
                          call_of "s1" "alice" "c"])))
  < 2.
Proof.
  apply (pending_list_stays_below_threshold (RT := table_runtime empty_object)
           two_cycles initial
           [call_of "s1" "alice" "a"; call_of "s2" "bob" "b"; call_of "s1" "alice" "c"]).
  - discriminate.
  - reflexivity.
Defined.

Lemma texts_dropped_when_store_unreachable_witness :
  user_messages (fst (inlet (RT := table_runtime empty_object) two_cycles store_down
                        one_pending (turn "s1" "b") None)) = []
  /\ dispatched (fst (inlet (RT := table_runtime empty_object) two_cycles store_down
                        one_pending (turn "s1" "b") None)) = [].
Proof.
  apply (texts_dropped_when_store_unreachable (RT := table_runtime empty_object)
           two_cycles store_down one_pending (turn "s1" "b") None "b").
  - exists [("chat_id", VStr "s1"); ("messages", VList [message "user" "b"])],
           [], [("role", VStr "user"); ("content", VStr "b")].
    repeat split; reflexivity.
  - reflexivity.
  - discriminate.
  - reflexivity.
  - reflexivity.
Defined.



Lemma last_content_is_buffered_whatever_the_role_witness :
  user_messages (fst (inlet (RT := table_runtime empty_object) default_valves store_up
                        initial (VDict answered_envelope) None))
  = [VStr "noted"].
Proof.
  apply (last_content_is_buffered_whatever_the_role (RT := table_runtime empty_object)
           default_valves store_up initial answered_envelope None
           [message "user" " tea "]
           [("role", VStr "assistant"); ("content", VStr "noted")]).
  - reflexivity.
  - reflexivity.
  - reflexivity.
Defined.

Lemma non_text_entry_drops_the_batch_witness :
  user_messages (fst (inlet (RT := table_runtime empty_object) two_cycles store_up
                        parts_pending (VDict tea_envelope) None)) = []
  /\ dispatched (fst (inlet (RT := table_runtime empty_object) two_cycles store_up
                        parts_pending (VDict tea_envelope) None)) = [].
Proof.
  apply (non_text_entry_drops_the_batch (RT := table_runtime empty_object)
           two_cycles store_up parts_pending tea_envelope None []
           [("role", VStr "user"); ("content", VStr "what do I drink?")]
           (VList [VStr "a picture"])).
  - reflexivity.
  - reflexivity.
  - discriminate.
  - left. reflexivity.
  - intros s. discriminate.
Defined.

End Mem0Extras.

(* ===================================================================== *)
(** ** Robust memory filter: further properties                           *)
(* ===================================================================== *)

Module Mem0RobustExtras.
Import Py PyFacts TextFacts HookSpec Mem0Store Mem0Robust MemorySpec Examples.
Local Open Scope list_scope.

(** Once a creation of the handle has failed, [get_memory] gives up at
    once and changes nothing. *)
Lemma get_memory_after_failure e st :
  _init_failed st = true -> m st = false -> get_memory e st = (st, false).
Proof.
  intros Hfailed Hm. unfold get_memory. rewrite Hfailed, Hm. cbn [negb andb].
  rewrite Hm. destruct (memory_available st); reflexivity.
Qed.

Lemma get_memory_keeps_pending e st :
  user_messages (fst (get_memory e st)) = user_messages st.
Proof.
  unfold get_memory. destruct (negb (m st) && negb (_init_failed st)); [|reflexivity].
  destruct (init_ok e); reflexivity.
Qed.

(** The pending list after [_handle_memory_storage]: longer by the text
    and below the threshold, or empty. *)
Lemma storage_cases v e st t uid :
  let st' := _handle_memory_storage v e st t uid in
  (user_messages st' = user_messages st ++ [t]
   /\ Z.of_nat (length (user_messages st ++ [t])) < store_cycles v)
  \/ user_messages st' = [].
Proof.
  cbv zeta. unfold _handle_memory_storage. cbn [with_pending user_messages].
  destruct (store_cycles v <=? Z.of_nat (length (user_messages st ++ [t]))) eqn:E.
  - right. destruct (get_memory e _) as [st2 memory]. reflexivity.
  - left. split; [reflexivity|]. apply Z.leb_gt in E. exact E.
Qed.

(** The loop of [inlet] passes over a message that is not a user message
    with a true content. *)
Lemma loop_passes_over (msg : value) (rest : list value) :
  passed_over msg ->
  last_user_message_in (msg :: rest) = last_user_message_in rest.
Proof.
  intros (d & -> & Hskip). cbn [last_user_message_in getattr_get mbind outcome_bind].
  destruct (get_or "role" VNone d) as [| | | |s| |] eqn:Hrole; try reflexivity.
  assert (Hcontent : s = "user" -> truthy (get_or "content" VNone d) = false).
  { intros ->. destruct Hskip as [Hne | Hfalse]; [congruence | exact Hfalse]. }
  destruct s as [|a1 s]; [reflexivity|].
  destruct a1 as [[] [] [] [] [] [] [] []]; try reflexivity.
  destruct s as [|a2 s]; [reflexivity|].
  destruct a2 as [[] [] [] [] [] [] [] []]; try reflexivity.
  destruct s as [|a3 s]; [reflexivity|].
  destruct a3 as [[] [] [] [] [] [] [] []]; try reflexivity.
  destruct s as [|a4 s]; [reflexivity|].
  destruct a4 as [[] [] [] [] [] [] [] []]; try reflexivity.
  destruct s as [|a5 s]; [|reflexivity].
  rewrite (Hcontent eq_refl). reflexivity.
Qed.

Lemma loop_finds_latest_user_text (msgs after : list value) (u : dict) (t : string) :
  dict_get "role" u = Some (VStr "user") ->
  dict_get "content" u = Some (VStr t) ->
  t <> EmptyString ->
  Forall passed_over after ->
  last_user_message_in (rev (msgs ++ [VDict u] ++ after)) = Return (Some (strip t)).
Proof.
  intros Hrole Hcontent Ht Hafter.
  rewrite app_assoc, rev_app_distr.
  apply Forall_rev in Hafter. induction Hafter as [|msg rest Hmsg _ IH].
  - cbn [app]. apply Mem0RobustProps.last_user_message_found; assumption.
  - cbn [app]. rewrite (loop_passes_over msg _ Hmsg). exact IH.
Qed.

Section WithRuntime.
Context `{RT : Runtime}.

Lemma search_keeps_pending e st t uid l :
  user_messages (fst (_handle_memory_search e st t uid l)) = user_messages st.
Proof.
  unfold _handle_memory_search.
  pose proof (get_memory_keeps_pending e st) as H.
  destruct (get_memory e st) as [st1 memory]. cbn [fst] in H.
  destruct (negb memory); exact H.
Qed.

(** The pending list after any call of the robust filter. *)
Lemma robust_inlet_pending_cases v e st body user :
  let st' := fst (inlet v e st body user) in
  user_messages st' = user_messages st
  \/ (exists t : string,
        user_messages st' = user_messages st ++ [t]
        /\ Z.of_nat (length (user_messages st ++ [t])) < store_cycles v)
  \/ user_messages st' = [].
Proof.
  cbv zeta. unfold inlet.
  destruct (match body with
            | VDict _ => Some body
            | VStr s => match json_loads s with Return b => Some b | Raise _ => None end
            | _ => None
            end) as [[| | | | | |d]|]; try (left; reflexivity).
  destruct (negb (has_key "messages" d) || negb (truthy (get_or "messages" VNone d)));
    [left; reflexivity|].
  destruct (get_or "messages" VNone d) as [| | | | |all|]; try (left; reflexivity).
  destruct (last_user_message_in (rev all)) as [[t|]|]; try (left; reflexivity).
  destruct (negb (truthy (VStr t))); [left; reflexivity|].
  set (st1 := if enable_memory_storage v then _ else st).
  assert (Hst1 : user_messages st1 = user_messages st
                 \/ (exists t0 : string,
                        user_messages st1 = user_messages st ++ [t0]
                        /\ Z.of_nat (length (user_messages st ++ [t0])) < store_cycles v)
                 \/ user_messages st1 = []).
  { subst st1. destruct (enable_memory_storage v); [|left; reflexivity].
    destruct (storage_cases v e st t (mem_zero_user v)) as [[H1 H2] | H].
    - right. left. exists t. split; assumption.
    - right. right. exact H. }
  assert (Hsame : user_messages
                    (fst (if enable_memory_search v
                          then let '(st2, l') :=
                                 _handle_memory_search e st1 t (mem_zero_user v) all in
                               (st2, with_messages (VDict d) (VList l'))
                          else (st1, VDict d)))
                  = user_messages st1).
  { destruct (enable_memory_search v); [|reflexivity].
    pose proof (search_keeps_pending e st1 t (mem_zero_user v) all) as H.
    destruct (_handle_memory_search _ _ _ _ _). exact H. }
  rewrite Hsame. exact Hst1.
Qed.

(** X23.  The pending list of the robust filter never reaches the
    threshold either: with [store_cycles >= 1], a list shorter than
    [store_cycles] stays shorter than [store_cycles] over any sequence of
    inbound calls. *)
Theorem robust_pending_list_stays_below_threshold
    (v : Valves) (st : state) (calls : list call) :
  1 <= store_cycles v ->
  Z.of_nat (length (user_messages st)) < store_cycles v ->
  Z.of_nat (length (user_messages (run_inlets v st calls))) < store_cycles v.
Proof.
  intros Hcycles. revert st. induction calls as [|c calls IH]; intros st Hlen.
  - exact Hlen.
  - cbn [run_inlets]. apply IH.
    destruct (robust_inlet_pending_cases v (call_env c) st (call_body c) (call_user c))
      as [-> | [(x & -> & Hx) | ->]].
    + exact Hlen.
    + exact Hx.
    + cbn [length]. lia.
Qed.

(** One call after a failed creation of the handle. *)
Lemma inlet_after_failure v e st body user :
  _init_failed st = true ->
  m st = false ->
  let st' := fst (inlet v e st body user) in
  _init_failed st' = true /\ m st' = false /\ dispatched st' = dispatched st.
Proof.
  intros Hfailed Hm. cbv zeta. unfold inlet.
  destruct (match body with
            | VDict _ => Some body
            | VStr s => match json_loads s with Return b => Some b | Raise _ => None end
            | _ => None
            end) as [[| | | | | |d]|]; try (repeat split; assumption).
  destruct (negb (has_key "messages" d) || negb (truthy (get_or "messages" VNone d)));
    [repeat split; assumption|].
  destruct (get_or "messages" VNone d) as [| | | | |all|]; try (repeat split; assumption).
  destruct (last_user_message_in (rev all)) as [[t|]|]; try (repeat split; assumption).
  destruct (negb (truthy (VStr t))); [repeat split; assumption|].
  set (st1 := if enable_memory_storage v then _ else st).
  assert (Hst1 : _init_failed st1 = true /\ m st1 = false
                 /\ dispatched st1 = dispatched st).
  { subst st1. destruct (enable_memory_storage v); [|repeat split; assumption].
    unfold _handle_memory_storage.
    destruct (store_cycles v <=? _); [|repeat split; assumption].
    rewrite (get_memory_after_failure e (with_pending (user_messages st ++ [t]) st))
      by assumption.
    repeat split; assumption. }
  destruct Hst1 as (Hfailed1 & Hm1 & Hdispatched1).
  destruct (enable_memory_search v); [|repeat split; assumption].
  unfold _handle_memory_search.
  rewrite (get_memory_after_failure e st1 Hfailed1 Hm1). cbn [negb fst].
  repeat split; assumption.
Qed.

Lemma body_after_failure v e st d user :
  _init_failed st = true ->
  m st = false ->
  snd (inlet v e st (VDict d) user) = VDict d.
Proof.
  intros Hfailed Hm. unfold inlet.
  destruct (negb (has_key "messages" d) || negb (truthy (get_or "messages" VNone d)))
    eqn:Hmsgs; [reflexivity|].
  apply orb_false_iff in Hmsgs as [Hkey _]. apply negb_false_iff in Hkey.
  unfold has_key, get_or in *. destruct (dict_get "messages" d) as [x|] eqn:Hget;
    [|discriminate Hkey].
  destruct x as [| | | | |all|]; try reflexivity.
  destruct (last_user_message_in (rev all)) as [[t|]|]; try reflexivity.
  destruct (negb (truthy (VStr t))); [reflexivity|].
  set (st1 := if enable_memory_storage v then _ else st).
  assert (Hst1 : _init_failed st1 = true /\ m st1 = false).
  { subst st1. destruct (enable_memory_storage v); [|split; assumption].
    unfold _handle_memory_storage.
    destruct (store_cycles v <=? _); [|split; assumption].
    rewrite (get_memory_after_failure e (with_pending (user_messages st ++ [t]) st))
      by assumption.
    split; assumption. }
  destruct Hst1 as [Hfailed1 Hm1].
  destruct (enable_memory_search v); [|reflexivity].
  unfold _handle_memory_search.
  rewrite (get_memory_after_failure e st1 Hfailed1 Hm1). cbn [negb snd].
  unfold with_messages, has_key. rewrite Hget.
  rewrite (dict_set_same_value _ _ _ Hget). reflexivity.
Qed.

(** X24.  A failed creation of the mem0 handle is never retried: once
    [_init_failed] is set and no handle exists, no sequence of inbound
    calls creates a handle or starts a flush, whatever the store would
    answer later, and every dict envelope comes back unchanged. *)
Theorem failed_store_is_never_retried
    (v : Valves) (st : state) (calls : list call) :
  _init_failed st = true ->
  m st = false ->
  (_init_failed (run_inlets v st calls) = true
   /\ m (run_inlets v st calls) = false
   /\ dispatched (run_inlets v st calls) = dispatched st)
  /\ (forall (e : env) (d : dict) (user : option dict),
        snd (inlet v e st (VDict d) user) = VDict d).
Proof.
  intros Hfailed Hm. split.
  - revert st Hfailed Hm. induction calls as [|c calls IH]; intros st Hfailed Hm.
    + repeat split; assumption.
    + cbn [run_inlets].
      destruct (inlet_after_failure v (call_env c) st (call_body c) (call_user c)
                  Hfailed Hm) as (Hfailed1 & Hm1 & Hdispatched1).
      destruct (IH _ Hfailed1 Hm1) as (H1 & H2 & H3).
      repeat split; try assumption. rewrite H3. exact Hdispatched1.
  - intros e d user. apply body_after_failure; assumption.
Qed.

(** X25.  The text that the robust filter buffers is the stripped content
    of the latest user message with a true content, also when messages of
    other roles (or user messages with an empty content) come after it in
    the transcript. *)
Theorem latest_user_text_is_buffered
    (v : Valves) (e : env) (st : state) (d : dict) (user : option dict)
    (msgs after : list value) (u : dict) (t : string) :
  dict_get "messages" d = Some (VList (msgs ++ [VDict u] ++ after)) ->
  dict_get "role" u = Some (VStr "user") ->
  dict_get "content" u = Some (VStr t) ->
  strip t <> EmptyString ->
  Forall passed_over after ->
  enable_memory_storage v = true ->
  Z.of_nat (length (user_messages st)) + 1 < store_cycles v ->
  user_messages (fst (inlet v e st (VDict d) user)) = user_messages st ++ [strip t].
Proof.
  intros Hmsgs Hrole Hcontent Hstrip Hafter Hstore Hbelow.
  assert (Ht : t <> EmptyString)
    by (intros ->; apply Hstrip, Mem0RobustProps.strip_empty).
  unfold inlet. rewrite (has_key_get _ _ _ Hmsgs), (get_or_get _ _ _ _ Hmsgs).
  assert (Htrue : truthy (VList (msgs ++ [VDict u] ++ after)) = true)
    by (destruct msgs; reflexivity).
  rewrite Htrue. cbn [negb orb].
  rewrite (loop_finds_latest_user_text msgs after u t Hrole Hcontent Ht Hafter).
  rewrite (truthy_nonempty_str _ Hstrip), Hstore. cbn [negb].
  assert (Hstorage : user_messages (_handle_memory_storage v e st (strip t) (mem_zero_user v))
                     = user_messages st ++ [strip t]).
  { unfold _handle_memory_storage. cbn [with_pending user_messages].
    destruct (store_cycles v <=? Z.of_nat (length (user_messages st ++ [strip t]))) eqn:E;
      [|reflexivity].
    apply Z.leb_le in E. rewrite length_app in E. cbn [length] in E. lia. }
  destruct (enable_memory_search v); [|exact Hstorage].
  pose proof (search_keeps_pending e
                (_handle_memory_storage v e st (strip t) (mem_zero_user v))
                (strip t) (mem_zero_user v) (msgs ++ [VDict u] ++ after)) as H.
  destruct (_handle_memory_search _ _ _ _ _). cbn [fst] in *. rewrite H. exact Hstorage.
Qed.


(** X30.  A latest user message that holds white space only ends the
    processing of the turn: nothing is buffered, nothing is searched and
    the envelope comes back as it is, also when earlier user messages of
    the transcript hold text. *)
Theorem blank_user_message_skips_the_turn
    (v : Valves) (e : env) (st : state) (d : dict) (user : option dict)
    (msgs after : list value) (u : dict) (t : string) :
  dict_get "messages" d = Some (VList (msgs ++ [VDict u] ++ after)) ->
  dict_get "role" u = Some (VStr "user") ->
  dict_get "content" u = Some (VStr t) ->
  t <> EmptyString ->
  strip t = EmptyString ->
  Forall passed_over after ->
  inlet v e st (VDict d) user = (st, VDict d).
Proof.
  intros Hmsgs Hrole Hcontent Ht Hblank Hafter.
  unfold inlet. rewrite (has_key_get _ _ _ Hmsgs), (get_or_get _ _ _ _ Hmsgs).
  assert (Htrue : truthy (VList (msgs ++ [VDict u] ++ after)) = true)
    by (destruct msgs; reflexivity).
  rewrite Htrue. cbn [negb orb].
  rewrite (loop_finds_latest_user_text msgs after u t Hrole Hcontent Ht Hafter).
  rewrite Hblank. reflexivity.
Qed.

End WithRuntime.

Lemma robust_pending_list_stays_below_threshold_witness :
  Z.of_nat (length (user_messages
                      (run_inlets (RT := table_runtime empty_object) robust_two_cycles
                         initial
                         [robust_call_of "s1" "alice" "a"; robust_call_of "s2" "bob" "b";
                          robust_call_of "s1" "alice" "c"])))
  < 2.
Proof.
  apply (robust_pending_list_stays_below_threshold (RT := table_runtime empty_object)
           robust_two_cycles initial
           [robust_call_of "s1" "alice" "a"; robust_call_of "s2" "bob" "b";
            robust_call_of "s1" "alice" "c"]).
  - discriminate.
  - reflexivity.
Defined.

Lemma failed_store_is_never_retried_witness :
  dispatched (run_inlets (RT := table_runtime empty_object) robust_two_cycles
                robust_failed
                [robust_call_of "s1" "alice" "a"; robust_call_of "s1" "alice" "b"])
  = [].
Proof.
  apply (proj1 (failed_store_is_never_retried (RT := table_runtime empty_object)
                  robust_two_cycles robust_failed
                  [robust_call_of "s1" "alice" "a"; robust_call_of "s1" "alice" "b"]
                  eq_refl eq_refl)).
Defined.

Lemma latest_user_text_is_buffered_witness :
  user_messages (fst (inlet (RT := table_runtime empty_object) robust_two_cycles store_up
                        initial (VDict answered_envelope) None))
  = ["tea"].
Proof.
  apply (latest_user_text_is_buffered (RT := table_runtime empty_object)
           robust_two_cycles store_up initial answered_envelope None []
           [message "assistant" "noted"]
           [("role", VStr "user"); ("content", VStr " tea ")] " tea ").
  - reflexivity.
  - reflexivity.
  - reflexivity.
  - discriminate.
  - repeat constructor.
    exists [("role", VStr "assistant"); ("content", VStr "noted")].
    split; [reflexivity|]. left. discriminate.
  - reflexivity.
  - reflexivity.
Defined.


Lemma blank_user_message_skips_the_turn_witness :
  inlet (RT := table_runtime empty_object) robust_two_cycles store_up initial
    (VDict blank_envelope) None
  = (initial, VDict blank_envelope).
Proof.
  apply (blank_user_message_skips_the_turn (RT := table_runtime empty_object)
           robust_two_cycles store_up initial blank_envelope None
           [message "user" "I like tea"] []
           [("role", VStr "user"); ("content", VStr "  ")] "  ").
  - reflexivity.
  - reflexivity.
  - reflexivity.
  - discriminate.
  - reflexivity.
  - constructor.
Defined.

End Mem0RobustExtras.
